(** * Waybar workspace buttons: the state synchronisation core

    A shallow embedding of [src/workspace_buttons.c] (the Hyprland
    workspace-button module for Waybar) and the properties of its event
    interpreter, visibility resolver, snapshot fetcher and socket reader.

    Conventions of the embedding:
    - a C [int] is a [Z]; the only place where the 32-bit range matters is
      the result of [atoi], whose wrap-around is written out;
    - a C string ([const char*]) is the [string] of the characters before
      its terminator; a pointer into a string is the suffix it points at,
      so [p + n] drops [n] characters and [p < q] compares suffix lengths;
    - the fixed tables of nine entries are lists read with [nth] and
      written by index;
    - [popen] is an oracle from the commands issued so far and the command
      to the text the command prints; the commands are logged;
    - the reader thread talks to the socket, the clock and the GTK main
      loop through the events of an interaction tree. *)

From Stdlib Require Import ZArith List String Ascii Bool Lia Arith.
From Equations Require Import Equations.
From ITree Require Import ITree ITreeFacts.
From Paco Require Import paco.
Import ListNotations.

Local Open Scope string_scope.
Local Open Scope Z_scope.

(* ===================================================================== *)
(** ** The C library functions the module calls *)
(* ===================================================================== *)

Module CString.

Definition NUL : ascii := "000"%char.
Definition LF : ascii := "010"%char.

(** The value of a character as [unsigned char]. *)
Definition uchar (c : ascii) : Z := Z.of_nat (nat_of_ascii c).

(** The C string stored in a byte buffer: the bytes before the first NUL. *)
Fixpoint c_str (buf : string) : string :=
  match buf with
  | EmptyString => EmptyString
  | String c rest => if Ascii.eqb c NUL then EmptyString else String c (c_str rest)
  end.

(** [p + n]: the pointer [n] characters further. *)
Fixpoint advance (n : nat) (p : string) : string :=
  match n, p with
  | O, _ => p
  | S n', String _ rest => advance n' rest
  | S _, EmptyString => EmptyString
  end.

(** The first [n] characters of [p] ([strncpy(dst, p, n); dst[n] = 0]). *)
Fixpoint take (n : nat) (p : string) : string :=
  match n, p with
  | S n', String c rest => String c (take n' rest)
  | _, _ => EmptyString
  end.

(** [strcmp]: the difference of the first two differing characters. *)
Fixpoint strcmp (s1 s2 : string) : Z :=
  match s1, s2 with
  | EmptyString, EmptyString => 0
  | EmptyString, String b _ => 0 - uchar b
  | String a _, EmptyString => uchar a
  | String a r1, String b r2 =>
      if Ascii.eqb a b then strcmp r1 r2 else uchar a - uchar b
  end.

(** [strncmp]: as [strcmp], over at most [n] characters. *)
Fixpoint strncmp (s1 s2 : string) (n : nat) {struct n} : Z :=
  match n with
  | O => 0
  | S n' =>
      match s1, s2 with
      | EmptyString, EmptyString => 0
      | EmptyString, String b _ => 0 - uchar b
      | String a _, EmptyString => uchar a
      | String a r1, String b r2 =>
          if Ascii.eqb a b then strncmp r1 r2 n' else uchar a - uchar b
      end
  end.

(** [strchr(s, c)] for a character [c] other than NUL: the suffix that
    starts at the first [c], or [None] for a null pointer. *)
Fixpoint strchr (s : string) (c : ascii) : option string :=
  match s with
  | EmptyString => None
  | String a rest => if Ascii.eqb a c then Some s else strchr rest c
  end.

(** Does [s] start with [needle]? *)
Fixpoint starts_with (needle s : string) : bool :=
  match needle, s with
  | EmptyString, _ => true
  | String a n', String b s' => Ascii.eqb a b && starts_with n' s'
  | String _ _, EmptyString => false
  end.

(** [strstr(s, needle)]: the suffix that starts at the first occurrence. *)
Fixpoint strstr (s needle : string) : option string :=
  if starts_with needle s then Some s
  else match s with
       | EmptyString => None
       | String _ rest => strstr rest needle
       end.

(** [isspace] and [isdigit] in the C locale. *)
Definition isspace (c : ascii) : bool :=
  let n := nat_of_ascii c in
  (Nat.eqb n 32 || (Nat.leb 9 n && Nat.leb n 13))%bool.

Definition isdigit (c : ascii) : bool :=
  let n := nat_of_ascii c in (Nat.leb 48 n && Nat.leb n 57)%bool.

Fixpoint skip_spaces (s : string) : string :=
  match s with
  | String c rest => if isspace c then skip_spaces rest else s
  | EmptyString => s
  end.

(** The value of the leading decimal digits of [s], after [acc]. *)
Fixpoint digits (s : string) (acc : Z) : Z :=
  match s with
  | String c rest =>
      if isdigit c then digits rest (acc * 10 + (uchar c - 48)) else acc
  | EmptyString => acc
  end.

Definition LONG_MAX : Z := 2 ^ 63 - 1.
Definition LONG_MIN : Z := - 2 ^ 63.

(** The conversion to [int] of a [long]: 32-bit two's complement. *)
Definition to_int (z : Z) : Z := (z + 2 ^ 31) mod 2 ^ 32 - 2 ^ 31.

(** [strtol(s, NULL, 10)]: white space, an optional sign, digits; the
    value saturates at the range of [long]. *)
Definition strtol (s : string) : Z :=
  match skip_spaces s with
  | String "-"%char rest => Z.max LONG_MIN (- digits rest 0)
  | String "+"%char rest => Z.min LONG_MAX (digits rest 0)
  | rest => Z.min LONG_MAX (digits rest 0)
  end.

(** [atoi(s)] is [(int) strtol(s, NULL, 10)]. *)
Definition atoi (s : string) : Z := to_int (strtol s).

(** Has [s] a number in front: what the [fscanf] of one [int] tests. *)
Definition has_number (s : string) : bool :=
  match skip_spaces s with
  | String "-"%char (String c _) => isdigit c
  | String "+"%char (String c _) => isdigit c
  | String c _ => isdigit c
  | EmptyString => false
  end.

(** [snprintf(dst, size, ...)] keeps at most [size - 1] characters. *)
Definition snprintf (size : nat) (s : string) : string := take (size - 1) s.

(** The decimal text of an [int], as [snprintf] prints it. *)
Fixpoint dec_digits (fuel : nat) (n : Z) (acc : string) : string :=
  match fuel with
  | O => acc
  | S f =>
      let acc' := String (ascii_of_nat (Z.to_nat (48 + n mod 10))) acc in
      if n <? 10 then acc' else dec_digits f (n / 10) acc'
  end.

Definition fmt_d (n : Z) : string :=
  if n <? 0 then String "-"%char (dec_digits 11 (- n) EmptyString)
  else dec_digits 11 n EmptyString.

End CString.
Import CString.

Example atoi_plain : atoi "7" = 7. Proof. reflexivity. Qed.
Example atoi_trailing : atoi "12,DP-1" = 12. Proof. reflexivity. Qed.
Example atoi_none : atoi "abc" = 0. Proof. reflexivity. Qed.
Example atoi_wraps : atoi "4294967299" = 3. Proof. reflexivity. Qed.
Example fmt_d_9 : fmt_d 9 = "9". Proof. reflexivity. Qed.
Example fmt_d_1920 : fmt_d 1920 = "1920". Proof. reflexivity. Qed.

(* ===================================================================== *)
(** ** The module state *)
(* ===================================================================== *)

Definition NUM_WORKSPACES : Z := 9.

(** [WorkspaceModule], without the GTK widgets, the theme colour and the
    thread handle.  The flag [running] is written by [wbcffi_deinit] on
    another thread; the reader observes it through an event (see
    [ipc_monitor_thread]). *)
Record WorkspaceModule : Type := mkModule {
  all_outputs : Z;
  show_empty : Z;
  monitor_name : string;
  this_monitor_workspace : Z;
  user_focused_here : Z;
  workspace_windows : list Z;
  special_windows : list Z;
  workspace_monitor : list string;
  socket_fd : Z
}.

Definition set_this_monitor_workspace (v : Z) (m : WorkspaceModule) :=
  mkModule (all_outputs m) (show_empty m) (monitor_name m) v
    (user_focused_here m) (workspace_windows m) (special_windows m)
    (workspace_monitor m) (socket_fd m).

Definition set_user_focused_here (v : Z) (m : WorkspaceModule) :=
  mkModule (all_outputs m) (show_empty m) (monitor_name m)
    (this_monitor_workspace m) v (workspace_windows m) (special_windows m)
    (workspace_monitor m) (socket_fd m).

Definition set_workspace_windows (v : list Z) (m : WorkspaceModule) :=
  mkModule (all_outputs m) (show_empty m) (monitor_name m)
    (this_monitor_workspace m) (user_focused_here m) v (special_windows m)
    (workspace_monitor m) (socket_fd m).

Definition set_special_windows (v : list Z) (m : WorkspaceModule) :=
  mkModule (all_outputs m) (show_empty m) (monitor_name m)
    (this_monitor_workspace m) (user_focused_here m) (workspace_windows m) v
    (workspace_monitor m) (socket_fd m).

Definition set_workspace_monitor (v : list string) (m : WorkspaceModule) :=
  mkModule (all_outputs m) (show_empty m) (monitor_name m)
    (this_monitor_workspace m) (user_focused_here m) (workspace_windows m)
    (special_windows m) v (socket_fd m).

Definition set_socket_fd (v : Z) (m : WorkspaceModule) :=
  mkModule (all_outputs m) (show_empty m) (monitor_name m)
    (this_monitor_workspace m) (user_focused_here m) (workspace_windows m)
    (special_windows m) (workspace_monitor m) v.

(** [memset(table, 0, sizeof(table))] on the two kinds of table. *)
Definition zero_counts : list Z := repeat 0 9.
Definition zero_names : list string := repeat EmptyString 9.

(** [table[i]++] and [table[i] = v], for an index inside the table. *)
Fixpoint incr_at (i : nat) (l : list Z) : list Z :=
  match l, i with
  | [], _ => []
  | x :: r, O => (x + 1) :: r
  | x :: r, S i' => x :: incr_at i' r
  end.

Fixpoint store_at {A : Type} (i : nat) (v : A) (l : list A) : list A :=
  match l, i with
  | [], _ => []
  | _ :: r, O => v :: r
  | x :: r, S i' => x :: store_at i' v r
  end.

(** C truth values. *)
Definition c_bool (b : bool) : Z := if b then 1 else 0.
Definition truthy (z : Z) : bool := negb (z =? 0).

(* ===================================================================== *)
(** ** Queries to the window manager *)
(* ===================================================================== *)

(** What [popen(cmd, r)] gives after the commands of the log (oldest
    first): [None] for a null stream, else the text the command prints. *)
Definition Shell : Type := list string -> string -> option string.

(** A computation that issues commands: it reads the shell and extends the
    log of the commands issued. *)
Definition IO (A : Type) : Type := Shell -> list string -> A * list string.

Definition io_ret {A : Type} (a : A) : IO A := fun _ log => (a, log).

Definition io_bind {A B : Type} (m : IO A) (k : A -> IO B) : IO B :=
  fun sh log => let (a, log') := m sh log in k a sh log'.

Definition popen (cmd : string) : IO (option string) :=
  fun sh log => (sh log cmd, (log ++ [cmd])%list).

Declare Scope io_scope.
Delimit Scope io_scope with io.
Notation "'let*' x ':=' m 'in' k" := (io_bind m (fun x => k))
  (at level 10, x pattern, m at level 100, k at level 200) : io_scope.

(** [fgets(out, size, fp)]: at most [size - 1] characters, up to and with
    the first newline.  The argument [n] is [size - 1]. *)
Fixpoint fgets (n : nat) (s : string) : string :=
  match n, s with
  | S n', String c rest =>
      if Ascii.eqb c LF then String c EmptyString else String c (fgets n' rest)
  | _, _ => EmptyString
  end.

(** Removal of one trailing newline. *)
Fixpoint strip_newline (s : string) : string :=
  match s with
  | EmptyString => EmptyString
  | String c EmptyString => if Ascii.eqb c LF then EmptyString else s
  | String c rest => String c (strip_newline rest)
  end.

Definition popen_string (cmd : string) (output_size : nat) : IO string :=
  (let* fp := popen cmd in
   match fp with
   | None => io_ret EmptyString
   | Some out => io_ret (strip_newline (c_str (fgets (output_size - 1) out)))
   end)%io.

Definition popen_int (cmd : string) : IO Z :=
  (let* fp := popen cmd in
   match fp with
   | None => io_ret 0
   | Some out => io_ret (if has_number out then atoi out else 0)
   end)%io.

(** The double quote, and a key or value between double quotes. *)
Definition DQ : ascii := "034"%char.
Definition quoted (s : string) : string := String DQ (s ++ String DQ EmptyString).

(** Pointers into one buffer: [p < q] when [p] has more left to read. *)
Definition ptr_lt (p q : string) : bool :=
  Nat.ltb (String.length q) (String.length p).

(** The two skipping loops: over spaces, and over spaces and double
    quotes. *)
Fixpoint skip_blank (p : string) : string :=
  match p with
  | String c rest => if Ascii.eqb c " "%char then skip_blank rest else p
  | EmptyString => p
  end.

Fixpoint skip_blank_quote (p : string) : string :=
  match p with
  | String c rest =>
      if (Ascii.eqb c " "%char || Ascii.eqb c DQ)%bool then skip_blank_quote rest else p
  | EmptyString => p
  end.

Definition in_range (ws : Z) : bool := ((1 <=? ws) && (ws <=? NUM_WORKSPACES))%bool.

Definition key_workspace : string := quoted "workspace".
Definition key_id : string := quoted "id" ++ ":".
Definition key_name : string := quoted "name" ++ ":".
Definition key_monitor : string := quoted "monitor" ++ ":".

(** The body of the scan of [refresh_window_counts] at one occurrence
    [ptr] of [key_workspace]. *)
Definition count_at (ptr : string) (counts : list Z * list Z) : list Z * list Z :=
  let (ws, sp) := counts in
  let id_ptr := strstr ptr key_id in
  let name_ptr := strstr ptr key_name in
  let ws' :=
    match id_ptr with
    | Some ip =>
        if match name_ptr with None => true | Some np => ptr_lt ip np end
        then
          let ws_id := atoi (skip_blank (advance 5 ip)) in
          if in_range ws_id then incr_at (Z.to_nat (ws_id - 1)) ws else ws
        else ws
    | None => ws
    end in
  let sp' :=
    match name_ptr with
    | Some np =>
        let np' := skip_blank_quote (advance 7 np) in
        if strncmp np' "special:" 8 =? 0 then
          let special_id := atoi (advance 8 np') in
          if in_range special_id then incr_at (Z.to_nat (special_id - 1)) sp else sp
        else sp
    | None => sp
    end in
  (ws', sp').

(** A match of a non-empty key leaves less to read after one step. *)
Lemma strstr_shorter (s needle p : string) :
  strstr s needle = Some p ->
  (String.length p <= String.length s)%nat /\ starts_with needle p = true.
Proof.
  induction s as [|c s IH]; simpl.
  - destruct (starts_with needle EmptyString) eqn:E; intros H; inversion H; subst.
    split; [reflexivity | exact E].
  - destruct (starts_with needle (String c s)) eqn:E; intros H.
    + inversion H; subst. split; [reflexivity | exact E].
    + destruct (IH H) as [Hl Hs]. split; [lia | exact Hs].
Qed.

Lemma advance_shorter (n : nat) (p : string) :
  (String.length (advance n p) <= String.length p)%nat.
Proof.
  revert p; induction n as [|n IH]; intros [|c p]; simpl; try lia.
  specialize (IH p); lia.
Qed.

Lemma strstr_step (s p : string) (a : ascii) (needle : string) (n : nat) :
  strstr s (String a needle) = Some p ->
  (String.length (advance (S n) p) < String.length s)%nat.
Proof.
  intros H. destruct (strstr_shorter _ _ _ H) as [Hl Hs].
  destruct p as [|c p]; simpl in Hs; [discriminate|].
  simpl in *. pose proof (advance_shorter n p). lia.
Qed.

(** The scan of [refresh_window_counts]: at every occurrence of the key
    [key_workspace], in order, [count_at]; then one character further. *)
Equations? count_windows (ptr : string) (counts : list Z * list Z) :
  list Z * list Z by wf (String.length ptr) lt :=
  count_windows ptr counts with Equations.Prop.Logic.inspect (strstr ptr key_workspace) => {
    | exist _ (Some p) Hfound => count_windows (advance 1 p) (count_at p counts);
    | exist _ None _ => counts }.
Proof. exact (strstr_step _ _ _ _ 0 Hfound). Qed.

(** Batched refresh: all window counts from one [hyprctl clients] call.
    The buffer holds 32768 bytes, so at most 32767 are read. *)
Definition refresh_window_counts (md : WorkspaceModule) : IO WorkspaceModule :=
  (let md0 := set_special_windows zero_counts (set_workspace_windows zero_counts md) in
   let* fp := popen "hyprctl clients -j 2>/dev/null" in
   match fp with
   | None => io_ret md0
   | Some out =>
       let buffer := c_str (take (Z.to_nat 32767) out) in
       let (ws, sp) := count_windows buffer (workspace_windows md0, special_windows md0) in
       io_ret (set_special_windows sp (set_workspace_windows ws md0))
   end)%io.

(** The copy of a monitor name: up to the closing quote, 63 characters at
    most. *)
Fixpoint copy_name (n : nat) (p : string) : string :=
  match n, p with
  | S n', String c rest =>
      if Ascii.eqb c DQ then EmptyString else String c (copy_name n' rest)
  | _, _ => EmptyString
  end.

(** The body of the scan of [refresh_workspace_monitors], after an
    occurrence of [key_id] has been skipped. *)
Definition monitor_at (ptr : string) (names : list string) : list string :=
  let ws_id := atoi ptr in
  let mon_ptr := strstr ptr key_monitor in
  let next_id := strstr ptr key_id in
  match mon_ptr with
  | Some mp =>
      if match next_id with None => true | Some ni => ptr_lt mp ni end
      then
        let mp' := skip_blank_quote (advance 10 mp) in
        if in_range ws_id then store_at (Z.to_nat (ws_id - 1)) (copy_name 63 mp') names
        else names
      else names
  | None => names
  end.

Equations? scan_monitors (ptr : string) (names : list string) :
  list string by wf (String.length ptr) lt :=
  scan_monitors ptr names with Equations.Prop.Logic.inspect (strstr ptr key_id) => {
    | exist _ (Some p) Hfound => scan_monitors (advance 5 p) (monitor_at (advance 5 p) names);
    | exist _ None _ => names }.
Proof. exact (strstr_step _ _ _ _ 4 Hfound). Qed.

(** Batched refresh: the workspace-to-monitor table from one
    [hyprctl workspaces] call (a buffer of 8192 bytes). *)
Definition refresh_workspace_monitors (md : WorkspaceModule) : IO WorkspaceModule :=
  (let md0 := set_workspace_monitor zero_names md in
   let* fp := popen "hyprctl workspaces -j 2>/dev/null" in
   match fp with
   | None => io_ret md0
   | Some out =>
       let buffer := c_str (take (Z.to_nat 8191) out) in
       io_ret (set_workspace_monitor (scan_monitors buffer (workspace_monitor md0)) md0)
   end)%io.

Example count_windows_two :
  count_windows
    (key_workspace ++ ": {" ++ key_id ++ " 4, " ++ key_name ++ " " ++ quoted "4" ++ "}, "
     ++ key_workspace ++ ": {" ++ key_id ++ " -98, " ++ key_name ++ " " ++ quoted "special:4" ++ "}")
    (zero_counts, zero_counts)
  = ([0; 0; 0; 1; 0; 0; 0; 0; 0], [0; 0; 0; 1; 0; 0; 0; 0; 0]).
Proof. reflexivity. Qed.

(* ===================================================================== *)
(** ** The full snapshot *)
(* ===================================================================== *)

(** [s[0]], the terminator for the empty string. *)
Definition first_char (s : string) : ascii :=
  match s with String c _ => c | EmptyString => NUL end.

Definition is_empty_str (s : string) : bool := Ascii.eqb (first_char s) NUL.

(** The commands of [fetch_initial_state], each through [snprintf] into
    a buffer of 256 bytes. *)
Definition cmd_active_workspace_of (name : string) : string :=
  snprintf 256 ("hyprctl monitors -j | jq -r '.[] | select(.name == " ++ quoted name
                ++ ") | .activeWorkspace.id' 2>/dev/null").

Definition cmd_focused_of (name : string) : string :=
  snprintf 256 ("hyprctl monitors -j | jq -r '.[] | select(.name == " ++ quoted name
                ++ ") | .focused' 2>/dev/null").

Definition cmd_active_workspace : string :=
  "hyprctl activeworkspace -j | jq -r '.id' 2>/dev/null".

Definition cmd_workspace_monitor (i : Z) : string :=
  snprintf 256 ("hyprctl workspaces -j | jq -r '.[] | select(.id == " ++ fmt_d i
                ++ ") | .monitor' 2>/dev/null").

Definition cmd_workspace_clients (i : Z) : string :=
  snprintf 256 ("hyprctl clients -j | jq '[.[] | select(.workspace.id == " ++ fmt_d i
                ++ ")] | length' 2>/dev/null").

Definition cmd_special_clients (i : Z) : string :=
  snprintf 256 ("hyprctl clients -j | jq '[.[] | select(.workspace.name == "
                ++ quoted ("special:" ++ fmt_d i) ++ ")] | length' 2>/dev/null").

(** [for (int i = 1; i <= NUM_WORKSPACES; i++) body], over the values of
    [i] in order. *)
Definition workspace_ids : list Z := [1; 2; 3; 4; 5; 6; 7; 8; 9].

Fixpoint for_each (ids : list Z) (body : Z -> WorkspaceModule -> IO WorkspaceModule)
  (md : WorkspaceModule) : IO WorkspaceModule :=
  match ids with
  | [] => io_ret md
  | i :: rest => (let* md' := body i md in for_each rest body md')%io
  end.

Definition fetch_initial_state (md : WorkspaceModule) : IO WorkspaceModule :=
  (let* md1 :=
     if negb (is_empty_str (monitor_name md))
     then
       let* ws := popen_int (cmd_active_workspace_of (monitor_name md)) in
       let* focused := popen_string (cmd_focused_of (monitor_name md)) 8 in
       io_ret (set_user_focused_here (c_bool (strcmp focused "true" =? 0))
                 (set_this_monitor_workspace ws md))
     else
       let* ws := popen_int cmd_active_workspace in
       io_ret (set_user_focused_here 1 (set_this_monitor_workspace ws md)) in
   let md2 :=
     set_workspace_monitor zero_names
       (set_special_windows zero_counts (set_workspace_windows zero_counts md1)) in
   let* md3 :=
     for_each workspace_ids
       (fun i m =>
          let* name := popen_string (cmd_workspace_monitor i) 64 in
          io_ret (set_workspace_monitor
                    (store_at (Z.to_nat (i - 1)) name (workspace_monitor m)) m)) md2 in
   let* md4 :=
     for_each workspace_ids
       (fun i m =>
          let* n := popen_int (cmd_workspace_clients i) in
          io_ret (set_workspace_windows
                    (store_at (Z.to_nat (i - 1)) n (workspace_windows m)) m)) md3 in
   for_each workspace_ids
     (fun i m =>
        let* n := popen_int (cmd_special_clients i) in
        io_ret (set_special_windows
                  (store_at (Z.to_nat (i - 1)) n (special_windows m)) m)) md4)%io.

(* ===================================================================== *)
(** ** The event interpreter *)
(* ===================================================================== *)

(** [handle_event]: one event line of the socket, by its tag. *)
Definition handle_event (md : WorkspaceModule) (event : string) : IO WorkspaceModule :=
  if strncmp event "workspace>>" 11 =? 0 then
    let ws := atoi (advance 11 event) in
    if in_range ws
    then io_ret (set_user_focused_here 1 (set_this_monitor_workspace ws md))
    else io_ret md
  else if strncmp event "focusedmon>>" 12 =? 0 then
    match strchr (advance 12 event) ","%char with
    | Some comma =>
        let mon_len := (String.length (advance 12 event) - String.length comma)%nat in
        if (mon_len <? 64)%nat then
          let mon := take mon_len (advance 12 event) in
          let ws := atoi (advance 1 comma) in
          let md1 := set_user_focused_here (c_bool (strcmp mon (monitor_name md) =? 0)) md in
          if (truthy (user_focused_here md1) && in_range ws)%bool
          then io_ret (set_this_monitor_workspace ws md1)
          else io_ret md1
        else io_ret md
    | None => io_ret md
    end
  else if strncmp event "activespecial>>" 15 =? 0 then
    refresh_window_counts md
  else if ((strncmp event "openwindow>>" 12 =? 0)
           || (strncmp event "closewindow>>" 13 =? 0)
           || (strncmp event "movewindow>>" 12 =? 0))%bool then
    refresh_window_counts md
  else if ((strncmp event "createworkspace>>" 17 =? 0)
           || (strncmp event "destroyworkspace>>" 18 =? 0))%bool then
    refresh_workspace_monitors md
  else if strncmp event "moveworkspace>>" 15 =? 0 then
    refresh_workspace_monitors md
  else io_ret md.

(* ===================================================================== *)
(** ** The visibility resolver *)
(* ===================================================================== *)

(** The local [on_this_monitor] of [should_show_workspace]. *)
Definition on_this_monitor (md : WorkspaceModule) (ws_index : Z) : Z :=
  let owner := nth (Z.to_nat ws_index) (workspace_monitor md) EmptyString in
  c_bool (truthy (all_outputs md)
          || is_empty_str (monitor_name md)
          || (strcmp owner (monitor_name md) =? 0)
          || is_empty_str owner)%bool.

(** [should_show_workspace]: is the button of index [ws_index] shown? *)
Definition should_show_workspace (md : WorkspaceModule) (ws_index : Z) : Z :=
  let ws_num := ws_index + 1 in
  let is_this_monitor_ws := c_bool (ws_num =? this_monitor_workspace md) in
  let has_windows := c_bool (nth (Z.to_nat ws_index) (workspace_windows md) 0 >? 0) in
  let has_special := c_bool (nth (Z.to_nat ws_index) (special_windows md) 0 >? 0) in
  if truthy is_this_monitor_ws then 1
  else if negb (truthy (on_this_monitor md ws_index)) then 0
  else if (negb (truthy (show_empty md)) && negb (truthy has_windows)
           && negb (truthy has_special))%bool then 0
  else 1.

(* ===================================================================== *)
(** ** The socket reader *)
(* ===================================================================== *)

Lemma strchr_shorter (s : string) (c : ascii) (p : string) :
  strchr s c = Some p -> (String.length (advance 1 p) < String.length s)%nat.
Proof.
  induction s as [|a s IH]; cbn [strchr String.length]; [discriminate|].
  destruct (Ascii.eqb a c).
  - intros H; inversion H; subst; cbn [advance String.length]; lia.
  - intros H. specialize (IH H). lia.
Qed.

(** The line loop of [ipc_monitor_thread] over the text of one read.
    [line] is the pointer of the same name, [st] the state the handler
    threads and [needs_update] the flag.  Writing the terminator over the
    newline at [next] leaves at [line] the text before [next]. *)
Equations? parse_events {S : Type} (handle : S -> string -> S) (line : string)
  (st : S) (needs_update : Z) : S * Z by wf (String.length line) lt :=
  parse_events handle line st needs_update
    with Equations.Prop.Logic.inspect (strchr line LF) => {
    | exist _ (Some next) Hnext =>
        let event := take (String.length line - String.length next) line in
        if negb (is_empty_str event)
        then parse_events handle (advance 1 next) (handle st event) 1
        else parse_events handle (advance 1 next) st needs_update;
    | exist _ None _ =>
        if negb (is_empty_str line) then (handle st line, 1) else (st, needs_update) }.
Proof. all: eapply strchr_shorter; eassumption. Qed.

(** The text the loop sees after [buffer[bytes] = 0]: the bytes read, up
    to the first NUL among them. *)
Definition chunk_text (bytes : Z) (data : string) : string :=
  c_str (take (Z.to_nat bytes) data).

(** The part of one iteration that follows a successful read: the events
    of the chunk through [handle_event], and the flag. *)
Definition process_chunk (sh : Shell) (bytes : Z) (data : string)
  (st : WorkspaceModule * list string) : (WorkspaceModule * list string) * Z :=
  parse_events (fun s event => handle_event (fst s) event sh (snd s))
    (chunk_text bytes data) st 0.

(** The lines one chunk hands to the handler, in the order of the calls. *)
Definition chunk_events (text : string) : list string :=
  fst (parse_events (fun calls event => (calls ++ [event])%list) text [] 0).

Example chunk_events_two :
  chunk_events (String LF ("workspace>>3" ++ String LF ("openwin"))) = ["workspace>>3"; "openwin"].
Proof. reflexivity. Qed.

(* ===================================================================== *)
(** ** The reader thread *)
(* ===================================================================== *)

Import ITreeNotations.
Local Open Scope itree_scope.

(** What the thread asks of its environment. *)
Variant ipcE : Type -> Type :=
| Connect : ipcE Z                                (* connect_hyprland_socket() *)
| Running : ipcE Z                                (* a read of the flag running *)
| Read (fd : Z) (count : Z) : ipcE (Z * string)   (* read(fd, buffer, count) *)
| Close (fd : Z) : ipcE unit                      (* close(fd) *)
| Sleep (seconds : Z) : ipcE unit                 (* sleep(seconds) *)
| IdleAdd : ipcE unit                             (* g_idle_add(update_ui_callback, mod) *)
| LogError (msg : string) : ipcE unit.            (* fprintf(stderr, msg) *)

(** The state the loop carries: the module and the log of the queries. *)
Definition ReaderState : Type := WorkspaceModule * list string.

(** One turn of [while (mod->running)]: [inl] to go round again, [inr]
    when the flag was found clear. *)
Definition reader_iteration (sh : Shell) (st : ReaderState)
  : itree ipcE (ReaderState + ReaderState) :=
  running <- ITree.trigger Running ;;
  if truthy running then
    answer <- ITree.trigger (Read (socket_fd (fst st)) (2048 - 1)) ;;
    let bytes := fst answer in
    if bytes <=? 0 then
      still_running <- ITree.trigger Running ;;
      if truthy still_running then
        ITree.trigger (Close (socket_fd (fst st))) ;;
        ITree.trigger (Sleep 1) ;;
        fd <- ITree.trigger Connect ;;
        Ret (inl (set_socket_fd fd (fst st), snd st))
      else Ret (inl st)
    else
      let result := process_chunk sh bytes (snd answer) st in
      (if truthy (snd result) then ITree.trigger IdleAdd else Ret tt) ;;
      Ret (inl (fst result))
  else Ret (inr st).

(** [ipc_monitor_thread]. *)
Definition ipc_monitor_thread (sh : Shell) (st : ReaderState) : itree ipcE ReaderState :=
  fd <- ITree.trigger Connect ;;
  let st0 : ReaderState := (set_socket_fd fd (fst st), snd st) in
  if fd <? 0 then
    ITree.trigger (LogError "workspace_buttons: Failed to connect to Hyprland socket") ;;
    Ret st0
  else
    st1 <- ITree.iter (reader_iteration sh) st0 ;;
    ITree.trigger (Close (socket_fd (fst st1))) ;;
    Ret st1.

(** *** Running the thread against a scripted environment *)

(** The answers still to give: to the connection attempts, to the reads
    of the flag, and to the socket reads.  An exhausted list answers with
    a failure (a clear flag). *)
Record Script : Type := mkScript {
  connects : list Z;
  flags : list Z;
  reads : list (Z * string)
}.

(** What an observer of the thread sees. *)
Inductive Obs : Type :=
| ObsConnect (fd : Z)
| ObsRunning (flag : Z)
| ObsRead (fd : Z) (bytes : Z)
| ObsClose (fd : Z)
| ObsSleep (seconds : Z)
| ObsIdleAdd
| ObsLogError.

Definition respond {T : Type} (e : ipcE T) (env : Script) : T * Script * Obs :=
  match e in ipcE T return T * Script * Obs with
  | Connect =>
      let fd := hd (-1) (connects env) in
      (fd, mkScript (tl (connects env)) (flags env) (reads env), ObsConnect fd)
  | Running =>
      let flag := hd 0 (flags env) in
      (flag, mkScript (connects env) (tl (flags env)) (reads env), ObsRunning flag)
  | Read fd _ =>
      let r := hd (-1, EmptyString) (reads env) in
      (r, mkScript (connects env) (flags env) (tl (reads env)), ObsRead fd (fst r))
  | Close fd => (tt, env, ObsClose fd)
  | Sleep s => (tt, env, ObsSleep s)
  | IdleAdd => (tt, env, ObsIdleAdd)
  | LogError _ => (tt, env, ObsLogError)
  end.

(** At most [fuel] steps of the thread; [Some] when it has returned. *)
Fixpoint run_thread {R : Type} (fuel : nat) (env : Script) (t : itree ipcE R)
  : list Obs * option R :=
  match fuel with
  | O => ([], None)
  | Datatypes.S fuel' =>
      match observe t with
      | RetF r => ([], Some r)
      | TauF t' => run_thread fuel' env t'
      | VisF e k =>
          let '(a, env', o) := respond e env in
          let (trace, r) := run_thread fuel' env' (k a) in
          (o :: trace, r)
      end
  end.

(* ===================================================================== *)
(** ** The vocabulary of the properties *)
(* ===================================================================== *)

(** Does the character occur in the string? *)
Fixpoint has_char (c : ascii) (s : string) : bool :=
  match s with
  | EmptyString => false
  | String a rest => (Ascii.eqb a c || has_char c rest)%bool
  end.

(** The content of a C string holds no terminator. *)
Definition cstring (s : string) : Prop := has_char NUL s = false.

(** A line of the stream: no newline and no terminator inside. *)
Definition plain (l : string) : Prop := has_char LF l = false /\ cstring l.

(** An event line: not empty, and [plain]. *)
Definition event_line (l : string) : Prop := l <> EmptyString /\ plain l.

(** The tags of the events the module handles (each line of the socket is
    TAG>>PAYLOAD). *)
Definition recognized_tags : list string :=
  ["workspace"; "focusedmon"; "activespecial"; "openwindow"; "closewindow";
   "movewindow"; "createworkspace"; "destroyworkspace"; "moveworkspace"].

(** Complete lines, each followed by its newline. *)
Fixpoint join_lines (ls : list string) : string :=
  match ls with
  | [] => EmptyString
  | l :: rest => l ++ String LF (join_lines rest)
  end.

(** Does the command list the windows ([hyprctl clients])? *)
Definition lists_windows (cmd : string) : bool := starts_with "hyprctl clients" cmd.

(** The commands [fetch_initial_state] issues, in order, for an instance
    on monitor [name]. *)
Definition snapshot_queries (name : string) : list string :=
  ((if negb (is_empty_str name)
    then [cmd_active_workspace_of name; cmd_focused_of name]
    else [cmd_active_workspace])
   ++ List.map cmd_workspace_monitor workspace_ids
   ++ List.map cmd_workspace_clients workspace_ids
   ++ List.map cmd_special_clients workspace_ids)%list.

(** The workspace id an event makes [handle_event] store in
    [this_monitor_workspace], for an instance on monitor [name]: the
    assignments of the two first branches, and nothing else. *)
Definition adopted_workspace (name event : string) : option Z :=
  if strncmp event "workspace>>" 11 =? 0 then
    let ws := atoi (advance 11 event) in
    if in_range ws then Some ws else None
  else if strncmp event "focusedmon>>" 12 =? 0 then
    match strchr (advance 12 event) ","%char with
    | Some comma =>
        let mon_len := (String.length (advance 12 event) - String.length comma)%nat in
        if (mon_len <? 64)%nat then
          let mon := take mon_len (advance 12 event) in
          let ws := atoi (advance 1 comma) in
          if ((strcmp mon name =? 0) && in_range ws)%bool then Some ws else None
        else None
    | None => None
    end
  else None.

(** Events applied in arrival order. *)
Fixpoint run_events (events : list string) (md : WorkspaceModule) : IO WorkspaceModule :=
  match events with
  | [] => io_ret md
  | event :: rest => (let* md' := handle_event md event in run_events rest md')%io
  end.

(** An event sets the active workspace of the instances on monitor [name]
    to [v], or leaves it as it was, whatever the rest of the state and the
    answers of the window manager. *)
Definition sets_active (name event : string) (v : Z) : Prop :=
  forall sh log md, monitor_name md = name ->
    this_monitor_workspace (fst (handle_event md event sh log)) = v.

Definition keeps_active (name event : string) : Prop :=
  forall sh log md, monitor_name md = name ->
    this_monitor_workspace (fst (handle_event md event sh log)) = this_monitor_workspace md.

(** The module as [wbcffi_init] sets it up before its first snapshot:
    zeroed memory, workspace 1 active and focused, and the configuration
    ([all-outputs], [show-empty], [output]). *)
Definition initial_module (all show : Z) (name : string) : WorkspaceModule :=
  mkModule all show name 1 1 zero_counts zero_counts zero_names 0.

(** An instance on monitor DP-1 showing workspace 3, with no window
    anywhere; workspace 3 belongs to DP-2 and workspace 4 to no monitor. *)
Definition sample_module : WorkspaceModule :=
  mkModule 0 0 "DP-1" 3 1 zero_counts zero_counts
    ["DP-1"; "DP-1"; "DP-2"; EmptyString; "DP-2"; "DP-1"; "DP-2"; "DP-2"; "DP-2"] 5.

(** A window manager that answers no query. *)
Definition silent_shell : Shell := fun _ _ => None.

(** *** The reconnection discipline *)

(** Where the thread stands with respect to its connection. *)
Inductive Phase : Type :=
| Starting                 (* before the first connection attempt *)
| GaveUp                   (* the first attempt failed *)
| Logged                   (* the failure of the first attempt is logged *)
| Connected                (* inside the loop *)
| Lost (fd : Z)            (* a read on [fd] has just failed *)
| Closing (fd : Z)         (* the flag was still set after the failure *)
| Pausing                  (* the socket is closed *)
| Reconnecting.            (* the pause is over *)

(** The events the discipline lets the thread perform in a phase. *)
Definition allowed (q : Phase) {T : Type} (e : ipcE T) : Prop :=
  match q, e with
  | Starting, Connect => True
  | GaveUp, LogError _ => True
  | Connected, Running => True
  | Connected, Read _ _ => True
  | Connected, IdleAdd => True
  | Lost _, Running => True
  | Closing fd, Close fd' => fd' = fd
  | Pausing, Sleep seconds => 1 <= seconds
  | Reconnecting, Connect => True
  | _, _ => False
  end.

(** The phase after an event and its answer. *)
Definition next_phase (q : Phase) {T : Type} (e : ipcE T) : T -> Phase :=
  match e in ipcE T return T -> Phase with
  | Connect => fun fd =>
      match q with
      | Starting => if fd <? 0 then GaveUp else Connected
      | Reconnecting => Connected
      | _ => q
      end
  | Running => fun _ => match q with Lost fd => Closing fd | _ => q end
  | Read fd _ => fun answer =>
      match q with
      | Connected => if fst answer <=? 0 then Lost fd else Connected
      | _ => q
      end
  | Close _ => fun _ => match q with Closing _ => Pausing | _ => q end
  | Sleep _ => fun _ => match q with Pausing => Reconnecting | _ => q end
  | IdleAdd => fun _ => q
  | LogError _ => fun _ => match q with GaveUp => Logged | _ => q end
  end.

(** The environments considered: the flag reads as set. *)
Definition flag_set {T : Type} (e : ipcE T) : T -> Prop :=
  match e in ipcE T return T -> Prop with
  | Running => fun flag => flag <> 0
  | _ => fun _ => True
  end.

(** One step of the discipline.  The thread may return only after it
    has logged the failure of its first attempt; after finitely many
    silent steps it returns or performs an event, so it cannot fall
    silent for ever; it performs only the events its phase allows, and
    goes on in the next phase. *)
Inductive disciplineF (r : Phase -> itree ipcE ReaderState -> Prop) (q : Phase)
  : itree' ipcE ReaderState -> Prop :=
| discipline_ret (st : ReaderState) : q = Logged -> disciplineF r q (RetF st)
| discipline_tau (t : itree ipcE ReaderState) :
    disciplineF r q (observe t) -> disciplineF r q (TauF t)
| discipline_vis (T : Type) (e : ipcE T) (k : T -> itree ipcE ReaderState) :
    allowed q e ->
    (forall a : T, flag_set e a -> r (next_phase q e a) (k a)) ->
    disciplineF r q (VisF e k).

Definition discipline_ (r : Phase -> itree ipcE ReaderState -> Prop) (q : Phase)
  (t : itree ipcE ReaderState) : Prop :=
  disciplineF r q (observe t).

(** The thread keeps the discipline for ever, from phase [q] on. *)
Definition keeps_discipline (q : Phase) (t : itree ipcE ReaderState) : Prop :=
  paco2 discipline_ bot2 q t.

(* ===================================================================== *)
(** ** Facts about the string functions *)
(* ===================================================================== *)

Lemma uchar_inj (a b : ascii) : uchar a = uchar b -> a = b.
Proof.
  unfold uchar. intros H. apply Nat2Z.inj in H.
  rewrite <- (ascii_nat_embedding a), <- (ascii_nat_embedding b), H. reflexivity.
Qed.

Lemma uchar_zero (a : ascii) : uchar a = 0 -> a = NUL.
Proof. intros H. apply uchar_inj. rewrite H. reflexivity. Qed.

Lemma strcmp_refl (s : string) : strcmp s s = 0.
Proof.
  induction s as [|a s IH]; simpl; [reflexivity|].
  rewrite Ascii.eqb_refl. exact IH.
Qed.

Lemma strcmp_eq (s t : string) :
  cstring s -> cstring t -> strcmp s t = 0 -> s = t.
Proof.
  unfold cstring. revert t.
  induction s as [|a s IH]; intros [|b t]; simpl; intros Hs Ht H.
  - reflexivity.
  - apply orb_false_iff in Ht. destruct Ht as [Hb _].
    assert (b = NUL) by (apply uchar_zero; lia).
    subst b. rewrite Ascii.eqb_refl in Hb. discriminate.
  - apply orb_false_iff in Hs. destruct Hs as [Ha _].
    assert (a = NUL) by (apply uchar_zero; lia).
    subst a. rewrite Ascii.eqb_refl in Ha. discriminate.
  - apply orb_false_iff in Hs, Ht. destruct Hs as [_ Hs], Ht as [_ Ht].
    destruct (Ascii.eqb a b) eqn:E.
    + apply Ascii.eqb_eq in E. subst b. f_equal. apply IH; assumption.
    + apply Ascii.eqb_neq in E. exfalso. apply E, uchar_inj. lia.
Qed.

Lemma strcmp_neq (s t : string) :
  cstring s -> cstring t -> s <> t -> (strcmp s t =? 0) = false.
Proof.
  intros Hs Ht Hne. apply Z.eqb_neq. intros H. apply Hne, strcmp_eq; assumption.
Qed.

(** A successful [strncmp] against a key of that length: the key is in
    front. *)
Lemma strncmp_prefix (key s : string) :
  cstring key -> strncmp s key (String.length key) = 0 -> exists p, s = key ++ p.
Proof.
  unfold cstring. revert s.
  induction key as [|b key IH]; intros s Hk H.
  - exists s. reflexivity.
  - simpl in Hk. apply orb_false_iff in Hk. destruct Hk as [Hb Hk].
    destruct s as [|a s]; simpl in H.
    + assert (b = NUL) by (apply uchar_zero; lia).
      subst b. rewrite Ascii.eqb_refl in Hb. discriminate.
    + destruct (Ascii.eqb a b) eqn:E.
      * apply Ascii.eqb_eq in E. subst b.
        destruct (IH s Hk H) as [p Hp]. exists p. simpl. rewrite Hp. reflexivity.
      * apply Ascii.eqb_neq in E. exfalso. apply E, uchar_inj. lia.
Qed.

Lemma take_app (a b : string) : take (String.length a) (a ++ b) = a.
Proof.
  induction a as [|c a IH]; simpl.
  - destruct b; reflexivity.
  - rewrite IH. reflexivity.
Qed.

Lemma length_app (a b : string) :
  String.length (a ++ b) = (String.length a + String.length b)%nat.
Proof. induction a as [|c a IH]; simpl; [reflexivity | rewrite IH; reflexivity]. Qed.

(** The first occurrence of a character that the front part lacks. *)
Lemma strchr_app (c : ascii) (a b : string) :
  has_char c a = false -> strchr (a ++ String c b) c = Some (String c b).
Proof.
  induction a as [|x a IH]; simpl; intros H.
  - rewrite Ascii.eqb_refl. reflexivity.
  - apply orb_false_iff in H. destruct H as [Hx Ha].
    rewrite Hx. apply IH, Ha.
Qed.

Lemma strchr_none (c : ascii) (a : string) :
  has_char c a = false -> strchr a c = None.
Proof.
  induction a as [|x a IH]; simpl; intros H; [reflexivity|].
  apply orb_false_iff in H. destruct H as [Hx Ha]. rewrite Hx. apply IH, Ha.
Qed.

Lemma c_str_cstring (s : string) : cstring s -> c_str s = s.
Proof.
  unfold cstring. induction s as [|a s IH]; simpl; intros H; [reflexivity|].
  apply orb_false_iff in H. destruct H as [Ha Hs]. rewrite Ha, IH; auto.
Qed.

Lemma take_all (s : string) : take (String.length s) s = s.
Proof. induction s as [|a s IH]; simpl; [reflexivity | rewrite IH; reflexivity]. Qed.

Lemma is_empty_str_false (s : string) :
  cstring s -> s <> EmptyString -> is_empty_str s = false.
Proof.
  unfold cstring, is_empty_str. destruct s as [|a s]; simpl; intros H Hne.
  - congruence.
  - apply orb_false_iff in H. tauto.
Qed.

Lemma in_range_spec (ws : Z) : in_range ws = true <-> 1 <= ws <= 9.
Proof. unfold in_range, NUM_WORKSPACES. rewrite andb_true_iff, !Z.leb_le. tauto. Qed.

(* ===================================================================== *)
(** ** What one event does to the local context *)
(* ===================================================================== *)

Section Frame.

Variable sh : Shell.
Variable log : list string.
Variable md : WorkspaceModule.

(** The two refreshes touch the tables only. *)
Lemma refresh_window_counts_frame :
  let md' := fst (refresh_window_counts md sh log) in
  this_monitor_workspace md' = this_monitor_workspace md
  /\ user_focused_here md' = user_focused_here md
  /\ monitor_name md' = monitor_name md.
Proof.
  unfold refresh_window_counts, io_bind, popen.
  destruct (sh log _) as [out|]; [|repeat split].
  destruct (count_windows _ _) as [ws sp]. repeat split.
Qed.

Lemma refresh_workspace_monitors_frame :
  let md' := fst (refresh_workspace_monitors md sh log) in
  this_monitor_workspace md' = this_monitor_workspace md
  /\ user_focused_here md' = user_focused_here md
  /\ monitor_name md' = monitor_name md.
Proof.
  unfold refresh_workspace_monitors, io_bind, popen.
  destruct (sh log _) as [out|]; repeat split.
Qed.

End Frame.

(** Case analysis along the branches of [handle_event]. *)
Ltac event_branches :=
  repeat match goal with
    | |- context [if ?c then _ else _] => destruct c eqn:?
    | |- context [match strchr ?a ?b with _ => _ end] => destruct (strchr a b) eqn:?
    end.

Lemma handle_event_name (sh : Shell) (log : list string) (md : WorkspaceModule) (event : string) :
  monitor_name (fst (handle_event md event sh log)) = monitor_name md.
Proof.
  unfold handle_event. event_branches; try reflexivity;
    try apply refresh_window_counts_frame; apply refresh_workspace_monitors_frame.
Qed.

Lemma handle_event_active (sh : Shell) (log : list string) (md : WorkspaceModule) (event : string) :
  this_monitor_workspace (fst (handle_event md event sh log)) =
  match adopted_workspace (monitor_name md) event with
  | Some v => v
  | None => this_monitor_workspace md
  end.
Proof.
  unfold handle_event, adopted_workspace.
  destruct (strncmp event "workspace>>" 11 =? 0).
  { destruct (in_range _); reflexivity. }
  destruct (strncmp event "focusedmon>>" 12 =? 0).
  { destruct (strchr _ _) as [comma|]; [|reflexivity].
    destruct (_ <? 64)%nat; [|reflexivity].
    cbn [user_focused_here set_user_focused_here].
    destruct (strcmp _ _ =? 0); cbn [c_bool truthy Z.eqb negb andb]; [|reflexivity].
    destruct (in_range _); reflexivity. }
  event_branches; try reflexivity;
    try apply refresh_window_counts_frame; apply refresh_workspace_monitors_frame.
Qed.

Lemma adopted_in_range (name event : string) (v : Z) :
  adopted_workspace name event = Some v -> 1 <= v <= 9.
Proof.
  unfold adopted_workspace. intros H. apply in_range_spec. revert H.
  event_branches; try discriminate; intros H; inversion H; subst; try assumption.
  match goal with Hc : (_ && in_range _)%bool = true |- _ =>
    apply andb_true_iff in Hc; tauto end.
Qed.

Lemma event_sets_or_keeps (name event : string) :
  match adopted_workspace name event with
  | Some v => sets_active name event v
  | None => keeps_active name event
  end.
Proof.
  destruct (adopted_workspace name event) as [v|] eqn:E;
    intros sh log md Hname; rewrite handle_event_active, Hname, E; reflexivity.
Qed.

Lemma run_events_app (sh : Shell) (events : list string) (event : string) :
  forall (md : WorkspaceModule) (log : list string),
    run_events (events ++ [event]) md sh log =
    handle_event (fst (run_events events md sh log)) event sh
      (snd (run_events events md sh log)).
Proof.
  induction events as [|e rest IH]; intros md log; simpl.
  - unfold io_bind. destruct (handle_event md event sh log). reflexivity.
  - unfold io_bind at 1 2 3. destruct (handle_event md e sh log) as [md' log']. apply IH.
Qed.

Lemma run_events_name (sh : Shell) (events : list string) :
  forall (md : WorkspaceModule) (log : list string),
    monitor_name (fst (run_events events md sh log)) = monitor_name md.
Proof.
  induction events as [|e rest IH]; intros md log; simpl; [reflexivity|].
  unfold io_bind. pose proof (handle_event_name sh log md e) as Hn.
  destruct (handle_event md e sh log) as [md' log']. simpl in Hn. rewrite IH. exact Hn.
Qed.

(** [handle_event] on a focus change whose monitor part fits the local
    buffer of 64 bytes. *)
Lemma handle_focusedmon (sh : Shell) (log : list string) (md : WorkspaceModule)
  (mon id_text : string) :
  has_char ","%char mon = false -> (String.length mon < 64)%nat ->
  handle_event md ("focusedmon>>" ++ mon ++ "," ++ id_text) sh log =
  (let md1 := set_user_focused_here (c_bool (strcmp mon (monitor_name md) =? 0)) md in
   if (truthy (user_focused_here md1) && in_range (atoi id_text))%bool
   then set_this_monitor_workspace (atoi id_text) md1 else md1, log).
Proof.
  intros Hcomma Hlen. unfold handle_event.
  change (strncmp ("focusedmon>>" ++ mon ++ "," ++ id_text) "workspace>>" 11 =? 0) with false.
  change (strncmp ("focusedmon>>" ++ mon ++ "," ++ id_text) "focusedmon>>" 12 =? 0) with true.
  change (advance 12 ("focusedmon>>" ++ mon ++ "," ++ id_text))
    with (mon ++ String ","%char id_text).
  cbv iota. rewrite (strchr_app _ _ _ Hcomma).
  replace (String.length (mon ++ String ","%char id_text)
           - String.length (String ","%char id_text))%nat
    with (String.length mon) by (rewrite length_app; lia).
  apply Nat.ltb_lt in Hlen. rewrite Hlen, take_app.
  change (advance 1 (String ","%char id_text)) with id_text.
  destruct (truthy _ && in_range _)%bool; reflexivity.
Qed.

(** The same event, for any length of the monitor part: an id outside
    1..9 is never adopted. *)
Lemma focusedmon_out_of_range (name mon id_text : string) :
  has_char ","%char mon = false -> in_range (atoi id_text) = false ->
  adopted_workspace name ("focusedmon>>" ++ mon ++ "," ++ id_text) = None.
Proof.
  intros Hcomma Hout. unfold adopted_workspace.
  change (strncmp ("focusedmon>>" ++ mon ++ "," ++ id_text) "workspace>>" 11 =? 0) with false.
  change (strncmp ("focusedmon>>" ++ mon ++ "," ++ id_text) "focusedmon>>" 12 =? 0) with true.
  change (advance 12 ("focusedmon>>" ++ mon ++ "," ++ id_text))
    with (mon ++ String ","%char id_text).
  cbv iota. rewrite (strchr_app _ _ _ Hcomma).
  change (advance 1 (String ","%char id_text)) with id_text.
  rewrite Hout, andb_false_r. destruct (_ <? 64)%nat; reflexivity.
Qed.

Lemma workspace_out_of_range (name id_text : string) :
  in_range (atoi id_text) = false ->
  adopted_workspace name ("workspace>>" ++ id_text) = None.
Proof.
  intros Hout. unfold adopted_workspace.
  change (strncmp ("workspace>>" ++ id_text) "workspace>>" 11 =? 0) with true.
  change (advance 11 ("workspace>>" ++ id_text)) with id_text.
  cbv iota. rewrite Hout. reflexivity.
Qed.

(* ===================================================================== *)
(** ** Properties of the visibility resolver *)
(* ===================================================================== *)

(** C1.  For every slot 1..9 and every state and configuration, the
    resolver shows the slot that equals the active workspace of this
    monitor, whatever the all-outputs and show-empty settings, the window
    counts and the owning monitor of the slot are. *)
Theorem active_workspace_always_shown (md : WorkspaceModule) (slot : Z) :
  1 <= slot <= 9 ->
  slot = this_monitor_workspace md ->
  should_show_workspace md (slot - 1) = 1.
Proof.
  intros _ Hactive. unfold should_show_workspace.
  replace (slot - 1 + 1) with slot by lia.
  rewrite Hactive, Z.eqb_refl. reflexivity.
Qed.

Lemma active_workspace_always_shown_witness :
  1 <= 3 <= 9 /\ 3 = this_monitor_workspace sample_module
  /\ on_this_monitor sample_module 2 = 0
  /\ should_show_workspace sample_module (3 - 1) = 1.
Proof.
  split; [lia|]. split; [reflexivity|]. split; [reflexivity|].
  apply (active_workspace_always_shown sample_module 3); [lia | reflexivity].
Defined.

(** C4.  A slot whose owning-monitor entry is empty passes the monitor
    filter in every configuration and local context, so that only the
    empty-workspace filter can hide it; and the monitor filter rejects a
    slot only when all outputs are not shown, this instance's monitor
    name is known, and the slot's owner is known and differs from it. *)
Theorem unassigned_slot_passes_monitor_filter (md : WorkspaceModule) (ws_index : Z) :
  let owner := nth (Z.to_nat ws_index) (workspace_monitor md) EmptyString in
  (owner = EmptyString -> on_this_monitor md ws_index = 1)
  /\ (owner = EmptyString -> should_show_workspace md ws_index = 0 ->
      show_empty md = 0
      /\ nth (Z.to_nat ws_index) (workspace_windows md) 0 <= 0
      /\ nth (Z.to_nat ws_index) (special_windows md) 0 <= 0)
  /\ (on_this_monitor md ws_index = 0 ->
      owner <> EmptyString /\ owner <> monitor_name md
      /\ all_outputs md = 0 /\ monitor_name md <> EmptyString).
Proof.
  intros owner.
  assert (Hpass : owner = EmptyString -> on_this_monitor md ws_index = 1).
  { intros Hown. unfold on_this_monitor. fold owner. rewrite Hown.
    change (is_empty_str EmptyString) with true.
    rewrite !orb_true_r. reflexivity. }
  split; [exact Hpass|]. split.
  - intros Hown. specialize (Hpass Hown). unfold should_show_workspace.
    rewrite Hpass. cbn [truthy Z.eqb negb].
    destruct (truthy (c_bool (ws_index + 1 =? this_monitor_workspace md))); [discriminate|].
    destruct (show_empty md) eqn:Hs; cbn [truthy Z.eqb negb andb];
      try discriminate.
    destruct (_ >? 0) eqn:Hw; cbn [c_bool truthy Z.eqb negb andb]; try discriminate.
    destruct (nth _ (special_windows md) 0 >? 0) eqn:Hp;
      cbn [c_bool truthy Z.eqb negb andb]; try discriminate.
    intros _. rewrite Z.gtb_ltb in Hw, Hp. apply Z.ltb_ge in Hw, Hp. auto.
  - unfold on_this_monitor. fold owner. intros H.
    destruct (truthy (all_outputs md)) eqn:Ha; [discriminate|].
    destruct (is_empty_str (monitor_name md)) eqn:Hn; [discriminate|].
    destruct (strcmp owner (monitor_name md) =? 0) eqn:Hc; [discriminate|].
    destruct (is_empty_str owner) eqn:Ho; [discriminate|].
    repeat split.
    + intros E. rewrite E in Ho. discriminate.
    + intros E. rewrite E, strcmp_refl in Hc. discriminate.
    + unfold truthy in Ha. apply negb_false_iff, Z.eqb_eq in Ha. exact Ha.
    + intros E. rewrite E in Hn. discriminate.
Qed.

Lemma unassigned_slot_passes_monitor_filter_witness :
  nth (Z.to_nat 3) (workspace_monitor sample_module) EmptyString = EmptyString
  /\ on_this_monitor sample_module 3 = 1
  /\ on_this_monitor sample_module 4 = 0
  /\ nth (Z.to_nat 4) (workspace_monitor sample_module) EmptyString <> monitor_name sample_module.
Proof.
  split; [reflexivity|]. split.
  - apply (unassigned_slot_passes_monitor_filter sample_module 3). reflexivity.
  - split; [reflexivity|].
    apply (unassigned_slot_passes_monitor_filter sample_module 4). reflexivity.
Defined.

(* ===================================================================== *)
(** ** Properties of the event interpreter *)
(* ===================================================================== *)

(** C2, as written, fails: a focus change to this very monitor whose
    payload names workspace 10 sets the focus flag but keeps the active
    workspace at 3, because only ids between 1 and 9 are adopted. *)
Lemma focusedmon_id_10_not_adopted :
  ~ (forall (sh : Shell) (log : list string) (md : WorkspaceModule) (mon id_text : string),
        let md' := fst (handle_event md ("focusedmon>>" ++ mon ++ "," ++ id_text) sh log) in
        (mon = monitor_name md ->
         user_focused_here md' = 1 /\ this_monitor_workspace md' = atoi id_text)
        /\ (mon <> monitor_name md -> user_focused_here md' = 0)).
Proof.
  intros H.
  destruct (H silent_shell [] sample_module "DP-1" "10") as [Hsame _].
  destruct (Hsame eq_refl) as [_ Hws].
  vm_compute in Hws. discriminate.
Qed.

(** The other limit of the same branch: a monitor name of 64 characters
    does not fit the local buffer, and the event is dropped whole. *)
Example focusedmon_long_name_ignored :
  let name64 := "0123456789012345678901234567890123456789012345678901234567890123" in
  String.length name64 = 64%nat
  /\ handle_event sample_module ("focusedmon>>" ++ name64 ++ ",2") silent_shell []
     = (sample_module, []).
Proof. split; reflexivity. Qed.

(** C2, amended.  For a focus-change event [focusedmon>>MON,ID] whose
    monitor part MON (the text before the first comma) is shorter than 64
    characters: if MON is this instance's monitor name, the event sets
    [user_focused_here] to 1 and sets the active workspace to ID when ID
    lies between 1 and 9, leaving it unchanged otherwise; if MON differs,
    the event sets [user_focused_here] to 0 and leaves the active
    workspace unchanged. *)
Theorem focusedmon_effect (sh : Shell) (log : list string) (md : WorkspaceModule)
  (mon id_text : string) :
  has_char ","%char mon = false ->
  (String.length mon < 64)%nat ->
  cstring mon -> cstring (monitor_name md) ->
  let md' := fst (handle_event md ("focusedmon>>" ++ mon ++ "," ++ id_text) sh log) in
  (mon = monitor_name md ->
   user_focused_here md' = 1
   /\ (1 <= atoi id_text <= 9 -> this_monitor_workspace md' = atoi id_text)
   /\ (~ 1 <= atoi id_text <= 9 -> this_monitor_workspace md' = this_monitor_workspace md))
  /\ (mon <> monitor_name md ->
      user_focused_here md' = 0
      /\ this_monitor_workspace md' = this_monitor_workspace md).
Proof.
  intros Hcomma Hlen Hmon Hname md'. subst md'.
  rewrite (handle_focusedmon sh log md mon id_text Hcomma Hlen).
  cbn [fst user_focused_here set_user_focused_here]. split.
  - intros Heq. rewrite Heq, strcmp_refl.
    cbn [Z.eqb c_bool truthy negb andb].
    destruct (in_range (atoi id_text)) eqn:Hr.
    + apply in_range_spec in Hr. repeat split; intros; try reflexivity. contradiction.
    + repeat split; intros Hin; try reflexivity.
      apply in_range_spec in Hin. congruence.
  - intros Hne. rewrite (strcmp_neq _ _ Hmon Hname Hne).
    cbn [c_bool truthy Z.eqb negb andb]. split; reflexivity.
Qed.

Lemma focusedmon_effect_witness :
  let md' := fst (handle_event sample_module ("focusedmon>>" ++ "DP-1" ++ "," ++ "5")
                    silent_shell []) in
  (user_focused_here md' = 1 /\ this_monitor_workspace md' = 5)
  /\ user_focused_here
       (fst (handle_event sample_module ("focusedmon>>" ++ "DP-2" ++ "," ++ "5")
               silent_shell [])) = 0.
Proof.
  assert (Hlen : (String.length "DP-1" < 64)%nat) by (simpl; lia).
  split.
  - destruct (focusedmon_effect silent_shell [] sample_module "DP-1" "5"
                eq_refl Hlen eq_refl eq_refl) as [Hsame _].
    destruct (Hsame eq_refl) as [Hf [Hin _]]. split; [exact Hf|].
    apply Hin. vm_compute. split; discriminate.
  - destruct (focusedmon_effect silent_shell [] sample_module "DP-2" "5"
                eq_refl Hlen eq_refl eq_refl) as [_ Hdiff].
    apply Hdiff. discriminate.
Defined.

(** C6, as written, fails: with the monitor name of the instance still
    empty, a focus change whose monitor part is empty compares equal to
    it and sets the focus flag (and adopts the workspace). *)
Lemma focusedmon_empty_names_match :
  ~ (forall (sh : Shell) (log : list string) (md : WorkspaceModule) (payload : string),
        monitor_name md = EmptyString ->
        user_focused_here (fst (handle_event md ("focusedmon>>" ++ payload) sh log)) = 0).
Proof.
  intros H.
  specialize (H silent_shell []
                (mkModule 0 0 EmptyString 1 0 zero_counts zero_counts zero_names 5) ",3" eq_refl).
  vm_compute in H. discriminate.
Qed.

(** A payload without a comma changes nothing, the focus flag included. *)
Example focusedmon_without_comma_ignored :
  handle_event (mkModule 0 0 EmptyString 1 1 zero_counts zero_counts zero_names 5)
    "focusedmon>>DP-2" silent_shell []
  = (mkModule 0 0 EmptyString 1 1 zero_counts zero_counts zero_names 5, []).
Proof. reflexivity. Qed.

(** C6, amended.  While the monitor name of the instance is empty, every
    focus-change event [focusedmon>>MON,ID] whose monitor part MON is not
    empty and shorter than 64 characters sets [user_focused_here] to 0
    and leaves the active workspace unchanged. *)
Theorem focusedmon_unresolved_name (sh : Shell) (log : list string) (md : WorkspaceModule)
  (mon id_text : string) :
  monitor_name md = EmptyString ->
  mon <> EmptyString -> cstring mon ->
  has_char ","%char mon = false ->
  (String.length mon < 64)%nat ->
  let md' := fst (handle_event md ("focusedmon>>" ++ mon ++ "," ++ id_text) sh log) in
  user_focused_here md' = 0
  /\ this_monitor_workspace md' = this_monitor_workspace md.
Proof.
  intros Hname Hne Hmon Hcomma Hlen md'. subst md'.
  rewrite (handle_focusedmon sh log md mon id_text Hcomma Hlen), Hname.
  assert (Hd : (strcmp mon EmptyString =? 0) = false).
  { apply strcmp_neq; [exact Hmon | reflexivity | exact Hne]. }
  rewrite Hd. cbn [fst user_focused_here set_user_focused_here c_bool truthy Z.eqb negb andb].
  split; reflexivity.
Qed.

Lemma focusedmon_unresolved_name_witness :
  let md := mkModule 0 0 EmptyString 1 1 zero_counts zero_counts zero_names 5 in
  user_focused_here
    (fst (handle_event md ("focusedmon>>" ++ "DP-2" ++ "," ++ "5") silent_shell [])) = 0.
Proof.
  intros md.
  assert (Hlen : (String.length "DP-2" < 64)%nat) by (simpl; lia).
  assert (Hne : "DP-2" <> EmptyString) by discriminate.
  exact (proj1 (focusedmon_unresolved_name silent_shell [] md "DP-2" "5"
                  eq_refl Hne eq_refl eq_refl Hlen)).
Defined.

(** C5.  For every finite sequence of events applied in arrival order,
    the active workspace after the whole sequence is the value set by the
    last event of the sequence that sets it, and the initial value when
    no event of the sequence sets it. *)
Theorem last_setting_event_wins (sh : Shell) (events : list string) :
  forall (md : WorkspaceModule) (log : list string),
    let final := this_monitor_workspace (fst (run_events events md sh log)) in
    (Forall (keeps_active (monitor_name md)) events
     /\ final = this_monitor_workspace md)
    \/ (exists before event after v,
          events = (before ++ event :: after)%list
          /\ sets_active (monitor_name md) event v
          /\ Forall (keeps_active (monitor_name md)) after
          /\ final = v).
Proof.
  induction events as [|event events IH] using rev_ind; intros md log final.
  - left. split; [constructor | reflexivity].
  - subst final. rewrite run_events_app.
    pose proof (event_sets_or_keeps (monitor_name md) event) as Hev.
    pose proof (run_events_name sh events md log) as Hname.
    destruct (adopted_workspace (monitor_name md) event) as [v|].
    + right. exists events, event, [], v.
      split; [reflexivity|]. split; [exact Hev|]. split; [constructor|].
      apply Hev. exact Hname.
    + rewrite (Hev sh _ _ Hname).
      destruct (IH md log) as [[Hall Hfin] | (before & e & after & v & Hsplit & Hset & Hkeep & Hfin)].
      * left. split; [|exact Hfin].
        apply Forall_app. split; [exact Hall | constructor; [exact Hev | constructor]].
      * right. exists before, e, (after ++ [event])%list, v.
        split; [rewrite Hsplit, <- app_assoc; reflexivity|].
        split; [exact Hset|]. split; [|exact Hfin].
        apply Forall_app. split; [exact Hkeep | constructor; [exact Hev | constructor]].
Qed.

(** The two kinds of event of the law, on the sample instance. *)
Example workspace_event_sets : sets_active "DP-1" "workspace>>7" 7.
Proof. exact (event_sets_or_keeps "DP-1" "workspace>>7"). Qed.

Example openwindow_event_keeps : keeps_active "DP-1" "openwindow>>abc,2,kitty,sh".
Proof. exact (event_sets_or_keeps "DP-1" "openwindow>>abc,2,kitty,sh"). Qed.

Example ordering_sample :
  this_monitor_workspace
    (fst (run_events ["focusedmon>>DP-1,2"; "workspace>>7"; "focusedmon>>DP-2,4";
                      "openwindow>>abc,2,kitty,sh"] sample_module silent_shell [])) = 7.
Proof. reflexivity. Qed.

(** The invariant along a whole sequence of events, from the value 1
    that [wbcffi_init] stores before the first snapshot. *)
Lemma run_events_in_range (sh : Shell) (events : list string) :
  forall (md : WorkspaceModule) (log : list string),
    1 <= this_monitor_workspace md <= 9 ->
    1 <= this_monitor_workspace (fst (run_events events md sh log)) <= 9.
Proof.
  induction events as [|event events IH]; intros md log Hin; simpl; [exact Hin|].
  unfold io_bind. pose proof (handle_event_active sh log md event) as Hstep.
  destruct (handle_event md event sh log) as [md' log']. simpl in Hstep.
  apply IH. rewrite Hstep.
  destruct (adopted_workspace _ _) eqn:E; [apply (adopted_in_range _ _ _ E) | exact Hin].
Qed.

Example initial_workspace_in_range (all show : Z) (name : string) :
  1 <= this_monitor_workspace (initial_module all show name) <= 9.
Proof. simpl. lia. Qed.

(** C10.  An event keeps the active workspace inside 1..9: whatever an
    event stores there lies in 1..9, and a workspace-switch or
    focus-change payload whose id lies outside 1..9 leaves the active
    workspace unchanged. *)
Theorem active_workspace_stays_in_range (sh : Shell) (log : list string)
  (md : WorkspaceModule) (event : string) :
  let md' := fst (handle_event md event sh log) in
  (1 <= this_monitor_workspace md <= 9 -> 1 <= this_monitor_workspace md' <= 9)
  /\ (this_monitor_workspace md' <> this_monitor_workspace md ->
      1 <= this_monitor_workspace md' <= 9)
  /\ (forall id_text, event = "workspace>>" ++ id_text ->
      ~ 1 <= atoi id_text <= 9 ->
      this_monitor_workspace md' = this_monitor_workspace md)
  /\ (forall mon id_text, event = "focusedmon>>" ++ mon ++ "," ++ id_text ->
      has_char ","%char mon = false ->
      ~ 1 <= atoi id_text <= 9 ->
      this_monitor_workspace md' = this_monitor_workspace md).
Proof.
  intros md'. subst md'. rewrite handle_event_active.
  assert (Hout : forall z, ~ 1 <= z <= 9 -> in_range z = false).
  { intros z Hz. destruct (in_range z) eqn:E; [|reflexivity].
    apply in_range_spec in E. contradiction. }
  split; [|split; [|split]].
  - intros Hin. destruct (adopted_workspace _ _) eqn:E; [|exact Hin].
    apply (adopted_in_range _ _ _ E).
  - destruct (adopted_workspace _ _) eqn:E; [|congruence].
    intros _. apply (adopted_in_range _ _ _ E).
  - intros id_text -> Hid. rewrite (workspace_out_of_range _ _ (Hout _ Hid)). reflexivity.
  - intros mon id_text -> Hcomma Hid.
    rewrite (focusedmon_out_of_range _ _ _ Hcomma (Hout _ Hid)). reflexivity.
Qed.

Lemma active_workspace_stays_in_range_witness :
  1 <= this_monitor_workspace sample_module <= 9
  /\ 1 <= this_monitor_workspace
            (fst (handle_event sample_module "workspace>>6" silent_shell [])) <= 9
  /\ this_monitor_workspace
       (fst (handle_event sample_module ("workspace>>" ++ "12") silent_shell [])) = 3
  /\ this_monitor_workspace
       (fst (handle_event sample_module ("focusedmon>>" ++ "DP-1" ++ "," ++ "0")
               silent_shell [])) = 3.
Proof.
  assert (Hin : 1 <= this_monitor_workspace sample_module <= 9) by (simpl; lia).
  split; [exact Hin|]. split; [|split].
  - exact (proj1 (active_workspace_stays_in_range silent_shell [] sample_module
                    "workspace>>6") Hin).
  - apply (proj1 (proj2 (proj2 (active_workspace_stays_in_range silent_shell []
                                   sample_module ("workspace>>" ++ "12")))) "12" eq_refl).
    vm_compute. intros [_ H]. apply H. reflexivity.
  - apply (proj2 (proj2 (proj2 (active_workspace_stays_in_range silent_shell []
                                   sample_module ("focusedmon>>" ++ "DP-1" ++ "," ++ "0"))))
             "DP-1" "0" eq_refl eq_refl).
    vm_compute. intros [H _]. apply H. reflexivity.
Defined.

(* ===================================================================== *)
(** ** The line loop, one line at a time *)
(* ===================================================================== *)

Lemma parse_events_step {S : Type} (handle : S -> string -> S) (line : string)
  (st : S) (needs_update : Z) :
  parse_events handle line st needs_update =
  match strchr line LF with
  | Some next =>
      let event := take (String.length line - String.length next) line in
      if negb (is_empty_str event)
      then parse_events handle (advance 1 next) (handle st event) 1
      else parse_events handle (advance 1 next) st needs_update
  | None =>
      if negb (is_empty_str line) then (handle st line, 1) else (st, needs_update)
  end.
Proof.
  rewrite parse_events_equation_1.
  match goal with |- _ = ?rhs => remember rhs as loop_body eqn:Hbody end.
  destruct (Equations.Prop.Logic.inspect (strchr line LF)) as [[next|] Hn];
    rewrite Hn in Hbody; subst loop_body; reflexivity.
Qed.

(** A complete line in front of the text. *)
Lemma parse_events_line {S : Type} (handle : S -> string -> S) (l rest : string)
  (st : S) (needs_update : Z) :
  has_char LF l = false ->
  parse_events handle (l ++ String LF rest) st needs_update =
  if negb (is_empty_str l)
  then parse_events handle rest (handle st l) 1
  else parse_events handle rest st needs_update.
Proof.
  intros Hl. rewrite parse_events_step, (strchr_app _ _ _ Hl).
  replace (String.length (l ++ String LF rest) - String.length (String LF rest))%nat
    with (String.length l) by (rewrite length_app; lia).
  cbv zeta. rewrite take_app. reflexivity.
Qed.

(** The text after the last newline. *)
Lemma parse_events_last {S : Type} (handle : S -> string -> S) (l : string)
  (st : S) (needs_update : Z) :
  has_char LF l = false ->
  parse_events handle l st needs_update =
  if negb (is_empty_str l) then (handle st l, 1) else (st, needs_update).
Proof.
  intros Hl. rewrite parse_events_step, (strchr_none _ _ Hl). reflexivity.
Qed.

Lemma fold_left_record (new calls : list string) :
  fold_left (fun cs event => (cs ++ [event])%list) new calls = (calls ++ new)%list.
Proof.
  revert calls. induction new as [|e new IH]; intros calls; simpl.
  - rewrite app_nil_r. reflexivity.
  - rewrite IH, <- app_assoc. reflexivity.
Qed.

(** The calls of the loop depend on the text only: whatever the handler
    and the state, it is called on the same lines in the same order. *)
Lemma parse_events_lines (n : nat) :
  forall text : string,
    (String.length text < n)%nat ->
    exists new : list string,
      forall (S : Type) (handle : S -> string -> S) (st : S) (needs_update : Z),
        parse_events handle text st needs_update =
        (fold_left handle new st, match new with [] => needs_update | _ => 1 end).
Proof.
  induction n as [|n IH]; intros text Hlen; [lia|].
  destruct (strchr text LF) as [next|] eqn:Hnext.
  - pose proof (strchr_shorter _ _ _ Hnext) as Hshort.
    destruct (IH (advance 1 next) ltac:(lia)) as [new Hnew].
    destruct (negb (is_empty_str (take (String.length text - String.length next) text)))
      eqn:Hev.
    + exists (take (String.length text - String.length next) text :: new).
      intros S handle st needs_update.
      rewrite parse_events_step, Hnext. cbv zeta. rewrite Hev, Hnew.
      destruct new; reflexivity.
    + exists new. intros S handle st needs_update.
      rewrite parse_events_step, Hnext. cbv zeta. rewrite Hev. apply Hnew.
  - destruct (negb (is_empty_str text)) eqn:Hev.
    + exists [text]. intros S handle st needs_update.
      rewrite parse_events_step, Hnext, Hev. reflexivity.
    + exists []. intros S handle st needs_update.
      rewrite parse_events_step, Hnext, Hev. reflexivity.
Qed.

(** The loop calls the handler on the lines of [chunk_events], in that
    order, and raises the flag when there is one. *)
Lemma parse_events_calls {S : Type} (handle : S -> string -> S) (text : string)
  (st : S) (needs_update : Z) :
  parse_events handle text st needs_update =
  (fold_left handle (chunk_events text) st,
   match chunk_events text with [] => needs_update | _ => 1 end).
Proof.
  destruct (parse_events_lines (Datatypes.S (String.length text)) text ltac:(lia))
    as [new Hnew].
  unfold chunk_events. rewrite (Hnew (list string)), fold_left_record. cbn [fst app].
  apply Hnew.
Qed.

Lemma process_chunk_calls (sh : Shell) (bytes : Z) (data : string)
  (st : WorkspaceModule * list string) :
  process_chunk sh bytes data st =
  (fold_left (fun s event => handle_event (fst s) event sh (snd s))
     (chunk_events (chunk_text bytes data)) st,
   match chunk_events (chunk_text bytes data) with [] => 0 | _ => 1 end).
Proof. apply parse_events_calls. Qed.

Lemma chunk_events_line (l rest : string) :
  has_char LF l = false ->
  chunk_events (l ++ String LF rest) =
  ((if negb (is_empty_str l) then [l] else []) ++ chunk_events rest)%list.
Proof.
  intros Hl. unfold chunk_events at 1. rewrite (parse_events_line _ _ _ _ _ Hl).
  destruct (negb (is_empty_str l)); [|reflexivity].
  rewrite parse_events_calls, fold_left_record. reflexivity.
Qed.

Lemma chunk_events_last (l : string) :
  has_char LF l = false ->
  chunk_events l = if negb (is_empty_str l) then [l] else [].
Proof.
  intros Hl. unfold chunk_events. rewrite (parse_events_last _ _ _ _ Hl).
  destruct (negb (is_empty_str l)); reflexivity.
Qed.

Lemma chunk_text_all (data : string) :
  cstring data -> chunk_text (Z.of_nat (String.length data)) data = data.
Proof.
  intros Hc. unfold chunk_text. rewrite Nat2Z.id, take_all. apply c_str_cstring, Hc.
Qed.

Lemma has_char_app (c : ascii) (a b : string) :
  has_char c (a ++ b) = (has_char c a || has_char c b)%bool.
Proof.
  induction a as [|x a IH]; simpl; [reflexivity|].
  rewrite IH, orb_assoc. reflexivity.
Qed.

Lemma starts_with_app (key p : string) : starts_with key (key ++ p) = true.
Proof.
  induction key as [|a key IH]; simpl; [reflexivity|].
  rewrite Ascii.eqb_refl. exact IH.
Qed.

(** A line that does not start with the key fails the [strncmp] test. *)
Lemma key_mismatch (event key : string) :
  cstring key -> starts_with key event = false ->
  (strncmp event key (String.length key) =? 0) = false.
Proof.
  intros Hk Hs. apply Z.eqb_neq. intros H.
  destruct (strncmp_prefix key event Hk H) as [p Hp].
  rewrite Hp, starts_with_app in Hs. discriminate.
Qed.

Lemma string_app_assoc (a b c : string) : (a ++ b) ++ c = a ++ (b ++ c).
Proof. induction a as [|x a IH]; simpl; [reflexivity | rewrite IH; reflexivity]. Qed.

Lemma string_app_nil (a : string) : a ++ EmptyString = a.
Proof. induction a as [|x a IH]; simpl; [reflexivity | rewrite IH; reflexivity]. Qed.

Lemma chunk_events_join (ls : list string) (tail : string) :
  Forall event_line ls ->
  chunk_events (join_lines ls ++ tail) = (ls ++ chunk_events tail)%list.
Proof.
  induction 1 as [|l ls [Hne [Hlf Hc]] _ IH]; simpl; [reflexivity|].
  rewrite string_app_assoc. cbn [append].
  rewrite (chunk_events_line _ _ Hlf), (is_empty_str_false _ Hc Hne), IH. reflexivity.
Qed.

(* ===================================================================== *)
(** ** Properties of the reader's line loop *)
(* ===================================================================== *)

(** C3, as written, fails on its second half: a chunk that holds a line
    with an unknown tag leaves the state alone but still raises the
    redisplay flag of the reader. *)
Lemma unknown_event_still_redisplays :
  ~ (forall (sh : Shell) (log : list string) (md : WorkspaceModule) (event : string),
        (forall tag, In tag recognized_tags -> starts_with (tag ++ ">>") event = false) ->
        process_chunk sh (Z.of_nat (String.length (event ++ String LF EmptyString)))
          (event ++ String LF EmptyString) (md, log) = ((md, log), 0)).
Proof.
  intros H.
  specialize (H silent_shell [] sample_module "monitoradded>>DP-3").
  assert (Hflag : snd (process_chunk silent_shell
                         (Z.of_nat (String.length ("monitoradded>>DP-3" ++ String LF EmptyString)))
                         ("monitoradded>>DP-3" ++ String LF EmptyString)
                         (sample_module, [])) = 1) by reflexivity.
  rewrite H in Hflag; [discriminate|].
  intros tag Hin. simpl in Hin.
  repeat (destruct Hin as [<- | Hin]; [reflexivity|]). contradiction.
Qed.

(** C3, amended.  For every event line whose tag is none of the
    recognized tags, [handle_event] leaves the state model unchanged and
    issues no query; the reader still raises its redisplay flag for the
    chunk that holds the line, as it does for every non-empty line. *)
Theorem unrecognized_event_ignored (sh : Shell) (log : list string)
  (md : WorkspaceModule) (event : string) :
  (forall tag, In tag recognized_tags -> starts_with (tag ++ ">>") event = false) ->
  handle_event md event sh log = (md, log)
  /\ (event_line event ->
      process_chunk sh (Z.of_nat (String.length (event ++ String LF EmptyString)))
        (event ++ String LF EmptyString) (md, log) = ((md, log), 1)).
Proof.
  intros Htags.
  assert (Hignored : handle_event md event sh log = (md, log)).
  { assert (Hkeys : forall key, In key (List.map (fun tag => tag ++ ">>") recognized_tags) ->
                                starts_with key event = false).
    { intros key Hin. apply in_map_iff in Hin. destruct Hin as [tag [<- Hin]].
      apply Htags, Hin. }
    unfold handle_event.
    repeat match goal with
      | |- context [strncmp event ?key ?n =? 0] =>
          let Hmiss := fresh "Hmiss" in
          assert (Hmiss : (strncmp event key n =? 0) = false)
            by (apply (key_mismatch event key eq_refl), Hkeys; simpl;
                repeat (first [left; reflexivity | right]));
          rewrite Hmiss; clear Hmiss
      end.
    reflexivity. }
  split; [exact Hignored|].
  intros [Hne [Hlf Hc]].
  rewrite process_chunk_calls, chunk_text_all.
  - rewrite (chunk_events_line _ _ Hlf), (is_empty_str_false _ Hc Hne).
    cbn [negb app chunk_events fold_left fst snd].
    change (chunk_events EmptyString) with (@nil string).
    cbn [fold_left fst snd]. rewrite Hignored. reflexivity.
  - unfold cstring. rewrite has_char_app, Hc. reflexivity.
Qed.

Lemma unrecognized_event_ignored_witness :
  handle_event sample_module "monitoradded>>DP-3" silent_shell [] = (sample_module, [])
  /\ snd (process_chunk silent_shell 19 ("monitoradded>>DP-3" ++ String LF EmptyString)
            (sample_module, [])) = 1.
Proof.
  assert (Htags : forall tag, In tag recognized_tags ->
                              starts_with (tag ++ ">>") "monitoradded>>DP-3" = false).
  { intros tag Hin. simpl in Hin.
    repeat (destruct Hin as [<- | Hin]; [reflexivity|]). contradiction. }
  destruct (unrecognized_event_ignored silent_shell [] sample_module
              "monitoradded>>DP-3" Htags) as [Hkeep Hflag].
  split; [exact Hkeep|].
  assert (Hline : event_line "monitoradded>>DP-3").
  { split; [discriminate | split; reflexivity]. }
  exact (f_equal snd (Hflag Hline)).
Defined.

(* ===================================================================== *)
(** ** The queries of the snapshot and of the window-count refresh *)
(* ===================================================================== *)

Lemma popen_string_log (cmd : string) (size : nat) (sh : Shell) (log : list string) :
  snd (popen_string cmd size sh log) = (log ++ [cmd])%list.
Proof. unfold popen_string, io_bind, popen. destruct (sh log cmd); reflexivity. Qed.

Lemma popen_int_log (cmd : string) (sh : Shell) (log : list string) :
  snd (popen_int cmd sh log) = (log ++ [cmd])%list.
Proof. unfold popen_int, io_bind, popen. destruct (sh log cmd); reflexivity. Qed.

Lemma for_each_log (cmd : Z -> string) (body : Z -> WorkspaceModule -> IO WorkspaceModule)
  (sh : Shell) :
  (forall i m log, snd (body i m sh log) = (log ++ [cmd i])%list) ->
  forall ids md log, snd (for_each ids body md sh log) = (log ++ List.map cmd ids)%list.
Proof.
  intros Hbody. induction ids as [|i ids IH]; intros md log; simpl.
  - rewrite app_nil_r. reflexivity.
  - unfold io_bind. pose proof (Hbody i md log) as Hi.
    destruct (body i md sh log) as [md' log']. simpl in Hi.
    rewrite IH, Hi, <- app_assoc. reflexivity.
Qed.

Lemma fetch_initial_state_log (sh : Shell) (log : list string) (md : WorkspaceModule) :
  snd (fetch_initial_state md sh log) = (log ++ snapshot_queries (monitor_name md))%list.
Proof.
  unfold fetch_initial_state, snapshot_queries.
  unfold io_bind at 1.
  match goal with
  | |- context [(if ?c then ?a else ?b) sh log] =>
      assert (Hfirst : snd ((if c then a else b) sh log) =
                       (log ++ (if c then [cmd_active_workspace_of (monitor_name md);
                                           cmd_focused_of (monitor_name md)]
                                else [cmd_active_workspace]))%list)
  end.
  { destruct (negb (is_empty_str (monitor_name md))).
    - unfold io_bind.
      pose proof (popen_int_log (cmd_active_workspace_of (monitor_name md)) sh log) as H1.
      destruct (popen_int _ sh log) as [ws log1]. simpl in H1. subst log1.
      pose proof (popen_string_log (cmd_focused_of (monitor_name md)) 8 sh
                    (log ++ [cmd_active_workspace_of (monitor_name md)])) as H2.
      destruct (popen_string _ 8 sh _) as [focused log2]. simpl in H2. subst log2.
      simpl. rewrite <- app_assoc. reflexivity.
    - unfold io_bind.
      pose proof (popen_int_log cmd_active_workspace sh log) as H1.
      destruct (popen_int _ sh log) as [ws log1]. simpl in H1. subst log1. reflexivity. }
  match goal with
  | |- context [(if ?c then ?a else ?b) sh log] =>
      destruct ((if c then a else b) sh log) as [md1 log1]
  end.
  simpl in Hfirst. subst log1.
  unfold io_bind at 1.
  match goal with
  | |- context [for_each workspace_ids ?body ?m sh ?l] =>
      pose proof (for_each_log cmd_workspace_monitor body sh) as Hmon;
      specialize (Hmon ltac:(intros; unfold io_bind;
                             pose proof (popen_string_log (cmd_workspace_monitor i) 64 sh log0) as Hp;
                             destruct (popen_string _ 64 sh log0); exact Hp)
                         workspace_ids m l);
      destruct (for_each workspace_ids body m sh l) as [md3 log3]
  end.
  simpl in Hmon. subst log3.
  unfold io_bind at 1.
  match goal with
  | |- context [for_each workspace_ids ?body ?m sh ?l] =>
      pose proof (for_each_log cmd_workspace_clients body sh) as Hws;
      specialize (Hws ltac:(intros; unfold io_bind;
                            pose proof (popen_int_log (cmd_workspace_clients i) sh log0) as Hp;
                            destruct (popen_int _ sh log0); exact Hp)
                        workspace_ids m l);
      destruct (for_each workspace_ids body m sh l) as [md4 log4]
  end.
  simpl in Hws. subst log4.
  rewrite (for_each_log cmd_special_clients).
  - rewrite <- !app_assoc. reflexivity.
  - intros i m log0. unfold io_bind.
    pose proof (popen_int_log (cmd_special_clients i) sh log0) as Hp.
    destruct (popen_int _ sh log0); exact Hp.
Qed.

(** The exchange of the sample instance with a silent window manager:
    three queries for the local context and the owner of workspace 1
    first, and 29 in all. *)
Example snapshot_queries_sample :
  firstn 3 (snd (fetch_initial_state sample_module silent_shell []))
  = [cmd_active_workspace_of "DP-1"; cmd_focused_of "DP-1"; cmd_workspace_monitor 1]
  /\ List.length (snd (fetch_initial_state sample_module silent_shell [])) = 29%nat.
Proof. split; reflexivity. Qed.

(** C7, as written, fails: the snapshot lists the windows eighteen times,
    not once. *)
Lemma snapshot_lists_windows_18_times :
  ~ (forall (sh : Shell) (md : WorkspaceModule),
        List.length (filter lists_windows (snd (fetch_initial_state md sh []))) = 1%nat).
Proof.
  intros H. specialize (H silent_shell sample_module).
  vm_compute in H. discriminate.
Qed.

(** The window events of the interpreter take the bulk path. *)
Example openwindow_refreshes_counts (sh : Shell) (log : list string) (md : WorkspaceModule) :
  handle_event md "openwindow>>55d2f8a0,2,kitty,sh" sh log = refresh_window_counts md sh log.
Proof. reflexivity. Qed.

(** One listing with a window on workspace 4 and one on special:4. *)
Example refresh_counts_both_tables :
  let listing :=
    "[{" ++ key_workspace ++ ": {" ++ key_id ++ " 4, " ++ key_name ++ " " ++ quoted "4" ++ "}}, {"
    ++ key_workspace ++ ": {" ++ key_id ++ " -98, " ++ key_name ++ " " ++ quoted "special:4" ++ "}}]" in
  let md' := fst (refresh_window_counts sample_module (fun _ _ => Some listing) []) in
  workspace_windows md' = [0; 0; 0; 1; 0; 0; 0; 0; 0]
  /\ special_windows md' = [0; 0; 0; 1; 0; 0; 0; 0; 0].
Proof. split; reflexivity. Qed.

Example reader_reconnects_twice :
  fst (run_thread 30
         (mkScript [3; -1; 4] [1; 1; 1; 1; 1; 0]
            [(0, EmptyString); (-1, EmptyString);
             (13, "workspace>>5" ++ String LF EmptyString)])
         (ipc_monitor_thread silent_shell (sample_module, [])))
  = [ObsConnect 3;
     ObsRunning 1; ObsRead 3 0; ObsRunning 1; ObsClose 3; ObsSleep 1; ObsConnect (-1);
     ObsRunning 1; ObsRead (-1) (-1); ObsRunning 1; ObsClose (-1); ObsSleep 1; ObsConnect 4;
     ObsRunning 1; ObsRead 4 13; ObsIdleAdd;
     ObsRunning 0; ObsClose 4].
Proof. vm_compute. reflexivity. Qed.

Lemma discipline_mon : monotone2 discipline_.
Proof.
  intros q t r r' H LE. unfold discipline_ in *.
  induction H; constructor; auto.
Qed.
#[local] Hint Resolve discipline_mon : paco.


(** One layer of a bind, as an equation between observations. *)
Lemma observe_subst {E : Type -> Type} {R S : Type} (t : itree E R) (k : R -> itree E S) :
  observe (ITree.subst k t) =
  observe (match observe t with
           | RetF r => k r
           | TauF t' => Tau (ITree.subst k t')
           | VisF e h => Vis e (fun x => ITree.subst k (h x))
           end).
Proof. reflexivity. Qed.

(** Run the binds in front of the observed tree. *)
Ltac expose := repeat rewrite observe_subst; cbn [observe _observe]; cbv beta iota.


(** The loop of the thread and what follows it, from the state [st]. *)
Definition reader_loop (sh : Shell) (st : ReaderState) : itree ipcE ReaderState :=
  st1 <- ITree.iter (reader_iteration sh) st ;;
  ITree.trigger (Close (socket_fd (fst st1))) ;;
  Ret st1.


(** What keeping the discipline says about the first step of a tree. *)
Lemma disciplineF_inv (r : Phase -> itree ipcE ReaderState -> Prop) (q : Phase)
  (ot : itree' ipcE ReaderState) :
  disciplineF r q ot ->
  match ot with
  | RetF _ => q = Logged
  | TauF t => disciplineF r q (observe t)
  | VisF e k => allowed q e /\ forall a, flag_set e a -> r (next_phase q e a) (k a)
  end.
Proof. destruct 1; auto. Qed.

Lemma keeps_discipline_inv (q : Phase) (t : itree ipcE ReaderState) :
  keeps_discipline q t ->
  match observe t with
  | RetF _ => q = Logged
  | TauF t' => keeps_discipline q t'
  | VisF e k =>
      allowed q e /\ forall a, flag_set e a -> keeps_discipline (next_phase q e a) (k a)
  end.
Proof.
  intros H. punfold H. apply disciplineF_inv in H.
  destruct (observe t) as [st | t' | T e k].
  - exact H.
  - pfold. exact H.
  - destruct H as [Hall Hnext]. split; [exact Hall|].
    intros a Ha. destruct (Hnext a Ha) as [H | []]. exact H.
Qed.

(** A thread that falls silent for ever keeps no discipline. *)
Lemma silence_breaks_discipline (r : Phase -> itree ipcE ReaderState -> Prop) (q : Phase)
  (ot : itree' ipcE ReaderState) :
  disciplineF r q ot -> ot <> TauF ITree.spin.
Proof.
  induction 1 as [st Hq | t _ IH | T e k _ _]; intros Heq; try discriminate.
  injection Heq as ->. apply IH. reflexivity.
Qed.

(* ===================================================================== *)
(** ** Properties of the reader thread *)
(* ===================================================================== *)


(** The discipline does exclude a thread that leaves its loop, a thread
    that falls silent, in whatever phase, and a thread that answers the
    failure of its first connection attempt with more attempts. *)
Example leaving_the_loop_breaks_discipline (st : ReaderState) :
  ~ keeps_discipline Connected (Ret st).
Proof.
  intros H. apply keeps_discipline_inv in H. cbn in H. discriminate.
Qed.

Example falling_silent_breaks_discipline (q : Phase) :
  ~ keeps_discipline q ITree.spin.
Proof.
  intros H. punfold H. apply silence_breaks_discipline in H. apply H. reflexivity.
Qed.

Example retry_after_failed_start_breaks_discipline (st : ReaderState) :
  ~ keeps_discipline GaveUp (ITree.trigger Connect ;; Ret st).
Proof.
  intros H. apply keeps_discipline_inv in H. cbn in H. destruct H as [H _]. exact H.
Qed.

(** Nor may the pause be skipped between the close and the reconnection
    attempt. *)
Example reconnecting_without_pause_breaks_discipline (st : ReaderState) (fd : Z) :
  ~ keeps_discipline (Closing fd)
      (ITree.trigger (Close fd) ;; ITree.trigger Connect ;; Ret st).
Proof.
  intros H. apply keeps_discipline_inv in H. cbn in H. destruct H as [_ H].
  specialize (H tt I). apply keeps_discipline_inv in H.
  repeat rewrite observe_subst in H. cbn in H. destruct H as [H _]. exact H.
Qed.


(* ===================================================================== *)
(** ** The buttons *)
(* ===================================================================== *)

(** What the module sets on one button: whether the button is shown, its
    style classes, and whether its dot label is shown. *)
Record Button : Type := mkButton {
  button_visible : bool;
  button_classes : list string;
  dot_visible : bool
}.

(** [gtk_style_context_has_class], [..._remove_class] and [..._add_class]
    on the classes of a widget. *)
Definition has_class (c : string) (classes : list string) : bool :=
  existsb (String.eqb c) classes.

Definition remove_class (c : string) (classes : list string) : list string :=
  filter (fun x => negb (String.eqb c x)) classes.

Definition add_class (c : string) (classes : list string) : list string :=
  if has_class c classes then classes else (classes ++ [c])%list.

(** The body of the loop of [update_button_states] for the button of
    index [i]. *)
Definition update_button (md : WorkspaceModule) (i : Z) (b : Button) : Button :=
  let should_show := should_show_workspace md i in
  if negb (truthy should_show) then
    mkButton (truthy should_show) (button_classes b) (dot_visible b)
  else
    let c0 :=
      remove_class "has-special"
        (remove_class "empty"
           (remove_class "visible" (remove_class "active" (button_classes b)))) in
    let c1 :=
      if i + 1 =? this_monitor_workspace md then
        if truthy (user_focused_here md) then add_class "active" c0
        else add_class "visible" c0
      else c0 in
    let c2 :=
      if ((nth (Z.to_nat i) (workspace_windows md) 0 =? 0)
          && (nth (Z.to_nat i) (special_windows md) 0 =? 0))%bool
      then add_class "empty" c1 else c1 in
    let c3 :=
      if nth (Z.to_nat i) (special_windows md) 0 >? 0
      then add_class "has-special" c2 else c2 in
    mkButton (truthy should_show) c3 (nth (Z.to_nat i) (special_windows md) 0 >? 0).

(** [update_button_states] over the buttons from index [i] on. *)
Fixpoint update_buttons_from (md : WorkspaceModule) (i : Z) (buttons : list Button)
  : list Button :=
  match buttons with
  | [] => []
  | b :: rest => update_button md i b :: update_buttons_from md (i + 1) rest
  end.

Definition update_button_states (md : WorkspaceModule) (buttons : list Button)
  : list Button :=
  update_buttons_from md 0 buttons.

(** The module with another configuration. *)
Definition set_config (all show : Z) (m : WorkspaceModule) : WorkspaceModule :=
  mkModule all show (monitor_name m) (this_monitor_workspace m)
    (user_focused_here m) (workspace_windows m) (special_windows m)
    (workspace_monitor m) (socket_fd m).

Lemma has_class_remove_same (c : string) (classes : list string) :
  has_class c (remove_class c classes) = false.
Proof.
  unfold has_class, remove_class. induction classes as [|x l IH]; simpl; [reflexivity|].
  destruct (String.eqb c x) eqn:E; simpl; [exact IH|]. rewrite E. exact IH.
Qed.

Lemma has_class_remove_other (c d : string) (classes : list string) :
  c <> d -> has_class c (remove_class d classes) = has_class c classes.
Proof.
  intros Hne. unfold has_class, remove_class.
  induction classes as [|x l IH]; simpl; [reflexivity|].
  destruct (String.eqb d x) eqn:E; simpl.
  - apply String.eqb_eq in E. subst x.
    destruct (String.eqb c d) eqn:E2; [apply String.eqb_eq in E2; contradiction|].
    exact IH.
  - rewrite IH. reflexivity.
Qed.

Lemma has_class_add_same (c : string) (classes : list string) :
  has_class c (add_class c classes) = true.
Proof.
  unfold add_class. destruct (has_class c classes) eqn:E; [exact E|].
  unfold has_class. rewrite existsb_app. simpl. rewrite String.eqb_refl.
  rewrite orb_true_r. reflexivity.
Qed.

Lemma has_class_add_other (c d : string) (classes : list string) :
  c <> d -> has_class c (add_class d classes) = has_class c classes.
Proof.
  intros Hne. unfold add_class. destruct (has_class d classes); [reflexivity|].
  unfold has_class. rewrite existsb_app. simpl.
  destruct (String.eqb c d) eqn:E; [apply String.eqb_eq in E; contradiction|].
  rewrite !orb_false_r. reflexivity.
Qed.

Lemma update_buttons_from_nth (md : WorkspaceModule) (buttons : list Button) :
  forall (i : Z) (n : nat) (d : Button),
    (n < List.length buttons)%nat ->
    nth n (update_buttons_from md i buttons) d =
    update_button md (i + Z.of_nat n) (nth n buttons d).
Proof.
  induction buttons as [|b rest IH]; intros i n d Hn; simpl in Hn; [lia|].
  destruct n as [|n]; simpl.
  - rewrite Z.add_0_r. reflexivity.
  - rewrite IH by lia. f_equal. lia.
Qed.

Ltac classes_simpl :=
  repeat first
    [ rewrite has_class_add_same
    | rewrite has_class_remove_same
    | rewrite has_class_add_other by discriminate
    | rewrite has_class_remove_other by discriminate ].

Lemma update_button_shown (md : WorkspaceModule) (i : Z) (b : Button) :
  should_show_workspace md i = 1 ->
  let b' := update_button md i b in
  let windows := nth (Z.to_nat i) (workspace_windows md) 0 in
  let special := nth (Z.to_nat i) (special_windows md) 0 in
  button_visible b' = true
  /\ has_class "active" (button_classes b')
     = ((i + 1 =? this_monitor_workspace md) && truthy (user_focused_here md))%bool
  /\ has_class "visible" (button_classes b')
     = ((i + 1 =? this_monitor_workspace md) && negb (truthy (user_focused_here md)))%bool
  /\ has_class "empty" (button_classes b') = ((windows =? 0) && (special =? 0))%bool
  /\ has_class "has-special" (button_classes b') = (special >? 0)
  /\ dot_visible b' = (special >? 0)
  /\ (forall c, c <> "active" -> c <> "visible" -> c <> "empty" -> c <> "has-special" ->
      has_class c (button_classes b') = has_class c (button_classes b)).
Proof.
  intros Hshow b' windows special. subst b'. unfold update_button.
  rewrite Hshow. fold windows. fold special.
  change (negb (truthy 1)) with false. cbv iota.
  cbn [button_visible button_classes dot_visible].
  split; [reflexivity|].
  destruct (i + 1 =? this_monitor_workspace md);
    destruct (truthy (user_focused_here md));
    destruct ((windows =? 0) && (special =? 0))%bool;
    destruct (special >? 0);
    cbn [andb negb];
    (repeat split; [classes_simpl; reflexivity ..|]);
    intros c H1 H2 H3 H4;
    repeat first
      [ rewrite (has_class_add_other _ _ _ H1) | rewrite (has_class_add_other _ _ _ H2)
      | rewrite (has_class_add_other _ _ _ H3) | rewrite (has_class_add_other _ _ _ H4)
      | rewrite (has_class_remove_other _ _ _ H1) | rewrite (has_class_remove_other _ _ _ H2)
      | rewrite (has_class_remove_other _ _ _ H3) | rewrite (has_class_remove_other _ _ _ H4) ];
    reflexivity.
Qed.

Lemma should_show_workspace_bool (md : WorkspaceModule) (i : Z) :
  should_show_workspace md i = 0 \/ should_show_workspace md i = 1.
Proof.
  unfold should_show_workspace.
  repeat match goal with |- context [if ?c then _ else _] => destruct c end; auto.
Qed.

(** The buttons as [wbcffi_init] leaves them after [gtk_widget_show_all]:
    shown, without style class, the dot hidden. *)
Definition fresh_buttons : list Button := repeat (mkButton true [] false) 9.

(** No button carries two styles that exclude each other. *)
Definition styles_exclusive (b : Button) : Prop :=
  (has_class "active" (button_classes b) && has_class "visible" (button_classes b))%bool = false
  /\ (has_class "empty" (button_classes b) && has_class "has-special" (button_classes b))%bool
     = false.

(* ===================================================================== *)
(** ** Properties of the resolver and of the button update *)
(* ===================================================================== *)

(** X1.  Turning on [all-outputs] or [show-empty] never hides a button:
    a slot shown under one configuration is shown under every
    configuration that has at least the same options on; and with both
    options on every slot is shown. *)
Theorem relaxing_filters_never_hides (md : WorkspaceModule) (all show : Z) (ws_index : Z) :
  (all_outputs md <> 0 -> all <> 0) ->
  (show_empty md <> 0 -> show <> 0) ->
  (should_show_workspace md ws_index = 1 ->
   should_show_workspace (set_config all show md) ws_index = 1)
  /\ (all <> 0 -> show <> 0 -> should_show_workspace (set_config all show md) ws_index = 1).
Proof.
  intros Hall Hshow.
  unfold should_show_workspace, on_this_monitor, set_config.
  cbn [all_outputs show_empty monitor_name this_monitor_workspace workspace_windows
       special_windows workspace_monitor].
  assert (Ht : forall z, truthy z = true <-> z <> 0).
  { intros z. unfold truthy. rewrite negb_true_iff, Z.eqb_neq. tauto. }
  destruct (truthy (all_outputs md)) eqn:Ea; destruct (truthy (show_empty md)) eqn:Es;
    destruct (truthy all) eqn:Ea'; destruct (truthy show) eqn:Es';
    try (apply Ht in Ea; apply Hall, Ht in Ea; congruence);
    try (apply Ht in Es; apply Hshow, Ht in Es; congruence);
    (split;
     [ repeat match goal with |- context [if ?c then _ else _] => destruct c eqn:? end;
       cbn in *; try reflexivity; try discriminate; try tauto
     | intros Ha Hs; apply Ht in Ha, Hs; try congruence;
       repeat match goal with |- context [if ?c then _ else _] => destruct c eqn:? end;
       cbn in *; try reflexivity; try discriminate ]).
Qed.

Lemma relaxing_filters_never_hides_witness :
  should_show_workspace sample_module 4 = 0
  /\ should_show_workspace (set_config 1 1 sample_module) 4 = 1
  /\ should_show_workspace (set_config 0 1 sample_module) 2 = 1.
Proof.
  assert (Hno : all_outputs sample_module <> 0 -> 0 <> 0).
  { intros H. exfalso. apply H. reflexivity. }
  assert (H1 : forall z : Z, z <> 0 -> 1 <> 0) by (intros; discriminate).
  split; [reflexivity|]. split.
  - apply (proj2 (relaxing_filters_never_hides sample_module 1 1 4 (H1 _) (H1 _)));
      discriminate.
  - apply (proj1 (relaxing_filters_never_hides sample_module 0 1 2 Hno (H1 _))).
    reflexivity.
Defined.

(** X2.  For a button the resolver shows, [update_button_states] sets the
    style classes from the state alone: [active] when the slot is the
    active workspace and the focus is here, [visible] when it is the
    active workspace and the focus is elsewhere, [empty] when both window
    counts are zero, [has-special] and the dot when the special count is
    positive; every other class of the button is left as it was. *)
Theorem shown_button_styles (md : WorkspaceModule) (buttons : list Button)
  (n : nat) (d : Button) :
  (n < List.length buttons)%nat ->
  should_show_workspace md (Z.of_nat n) = 1 ->
  let b := nth n buttons d in
  let b' := nth n (update_button_states md buttons) d in
  let windows := nth n (workspace_windows md) 0 in
  let special := nth n (special_windows md) 0 in
  button_visible b' = true
  /\ has_class "active" (button_classes b')
     = ((Z.of_nat n + 1 =? this_monitor_workspace md) && truthy (user_focused_here md))%bool
  /\ has_class "visible" (button_classes b')
     = ((Z.of_nat n + 1 =? this_monitor_workspace md)
        && negb (truthy (user_focused_here md)))%bool
  /\ has_class "empty" (button_classes b') = ((windows =? 0) && (special =? 0))%bool
  /\ has_class "has-special" (button_classes b') = (special >? 0)
  /\ dot_visible b' = (special >? 0)
  /\ (forall c, c <> "active" -> c <> "visible" -> c <> "empty" -> c <> "has-special" ->
      has_class c (button_classes b') = has_class c (button_classes b)).
Proof.
  intros Hn Hshow b b' windows special. subst b' windows special.
  unfold update_button_states. rewrite (update_buttons_from_nth md buttons 0 n d Hn).
  rewrite Z.add_0_l.
  pose proof (update_button_shown md (Z.of_nat n) b Hshow) as H.
  rewrite Nat2Z.id in H. exact H.
Qed.

Lemma shown_button_styles_witness :
  let b' := nth 2 (update_button_states sample_module fresh_buttons) (mkButton false [] false) in
  button_visible b' = true
  /\ has_class "active" (button_classes b') = true
  /\ has_class "empty" (button_classes b') = true
  /\ dot_visible b' = false.
Proof.
  assert (Hn : (2 < List.length fresh_buttons)%nat) by (simpl; lia).
  destruct (shown_button_styles sample_module fresh_buttons 2 (mkButton false [] false)
              Hn eq_refl) as (Hv & Ha & _ & He & _ & Hd & _).
  repeat split; assumption.
Defined.

(** X3.  A button the resolver hides is only hidden: its style classes
    and its dot stay as the last update that showed it left them. *)
Theorem hidden_button_keeps_styles (md : WorkspaceModule) (buttons : list Button)
  (n : nat) (d : Button) :
  (n < List.length buttons)%nat ->
  should_show_workspace md (Z.of_nat n) = 0 ->
  nth n (update_button_states md buttons) d =
  mkButton false (button_classes (nth n buttons d)) (dot_visible (nth n buttons d)).
Proof.
  intros Hn Hhide. unfold update_button_states.
  rewrite (update_buttons_from_nth md buttons 0 n d Hn), Z.add_0_l.
  unfold update_button. rewrite Hhide. reflexivity.
Qed.

Lemma hidden_button_keeps_styles_witness :
  nth 4 (update_button_states sample_module fresh_buttons) (mkButton false [] false)
  = mkButton false [] false.
Proof.
  assert (Hn : (4 < List.length fresh_buttons)%nat) by (simpl; lia).
  exact (hidden_button_keeps_styles sample_module fresh_buttons 4 (mkButton false [] false)
           Hn eq_refl).
Defined.

Lemma update_button_exclusive (md : WorkspaceModule) (i : Z) (b : Button) :
  styles_exclusive b -> styles_exclusive (update_button md i b).
Proof.
  intros Hb. destruct (should_show_workspace_bool md i) as [Hhide | Hshow].
  - unfold update_button. rewrite Hhide. exact Hb.
  - destruct (update_button_shown md i b Hshow) as (_ & Ha & Hv & He & Hs & _).
    unfold styles_exclusive. rewrite Ha, Hv, He, Hs. split.
    + destruct (i + 1 =? this_monitor_workspace md);
        destruct (truthy (user_focused_here md)); reflexivity.
    + destruct (nth (Z.to_nat i) (special_windows md) 0 =? 0) eqn:E.
      * apply Z.eqb_eq in E. rewrite E. rewrite andb_false_r. reflexivity.
      * rewrite andb_false_r. reflexivity.
Qed.

Lemma update_buttons_from_exclusive (md : WorkspaceModule) (buttons : list Button) :
  forall i, Forall styles_exclusive buttons ->
            Forall styles_exclusive (update_buttons_from md i buttons).
Proof.
  induction buttons as [|b rest IH]; intros i H; simpl; [constructor|].
  inversion H; subst. constructor; [apply update_button_exclusive; assumption | apply IH; assumption].
Qed.

(** X4.  Whatever states the button update is run on, one after the
    other from the buttons of [wbcffi_init], no button ever carries both
    [active] and [visible], nor both [empty] and [has-special]; and the
    nine buttons stay nine. *)
Theorem button_styles_stay_exclusive (states : list WorkspaceModule) :
  let buttons :=
    fold_left (fun bs md => update_button_states md bs) states fresh_buttons in
  Forall styles_exclusive buttons /\ List.length buttons = 9%nat.
Proof.
  cbv zeta.
  assert (Hgen : forall bs, Forall styles_exclusive bs ->
                 Forall styles_exclusive
                   (fold_left (fun bs md => update_button_states md bs) states bs)
                 /\ List.length (fold_left (fun bs md => update_button_states md bs) states bs)
                    = List.length bs).
  { induction states as [|md states IH]; intros bs Hbs; simpl; [split; [exact Hbs | reflexivity]|].
    destruct (IH (update_button_states md bs)) as [Hex Hlen].
    - apply update_buttons_from_exclusive, Hbs.
    - split; [exact Hex|]. rewrite Hlen. unfold update_button_states.
      clear. generalize 0. induction bs as [|b bs IHb]; intros i; simpl; [reflexivity|].
      rewrite IHb. reflexivity. }
  apply Hgen. unfold fresh_buttons. apply Forall_forall. intros b Hb.
  apply repeat_spec in Hb. subst b. split; reflexivity.
Qed.

(* ===================================================================== *)
(** ** The two scanners *)
(* ===================================================================== *)

(** The sum of a table of counts. *)
Definition total (counts : list Z) : Z := fold_right Z.add 0 counts.

(** The number of places of [s] where [key] starts. *)
Fixpoint occurrences (key s : string) : nat :=
  match s with
  | EmptyString => O
  | String _ rest => ((if starts_with key s then 1 else 0) + occurrences key rest)%nat
  end.

(** All the module's tables have their nine entries. *)
Definition tables_sized (md : WorkspaceModule) : Prop :=
  List.length (workspace_windows md) = 9%nat
  /\ List.length (special_windows md) = 9%nat
  /\ List.length (workspace_monitor md) = 9%nat.

Lemma count_windows_step (ptr : string) (counts : list Z * list Z) :
  count_windows ptr counts =
  match strstr ptr key_workspace with
  | Some p => count_windows (advance 1 p) (count_at p counts)
  | None => counts
  end.
Proof.
  rewrite count_windows_equation_1.
  match goal with |- _ = ?rhs => remember rhs as loop_body eqn:Hbody end.
  destruct (Equations.Prop.Logic.inspect (strstr ptr key_workspace)) as [[p|] Hp];
    rewrite Hp in Hbody; subst loop_body; reflexivity.
Qed.

Lemma scan_monitors_step (ptr : string) (names : list string) :
  scan_monitors ptr names =
  match strstr ptr key_id with
  | Some p => scan_monitors (advance 5 p) (monitor_at (advance 5 p) names)
  | None => names
  end.
Proof.
  rewrite scan_monitors_equation_1.
  match goal with |- _ = ?rhs => remember rhs as loop_body eqn:Hbody end.
  destruct (Equations.Prop.Logic.inspect (strstr ptr key_id)) as [[p|] Hp];
    rewrite Hp in Hbody; subst loop_body; reflexivity.
Qed.

Lemma incr_at_length (i : nat) (l : list Z) : List.length (incr_at i l) = List.length l.
Proof.
  revert i. induction l as [|x l IH]; intros [|i]; simpl; try reflexivity.
  rewrite IH. reflexivity.
Qed.

Lemma incr_at_nonneg (i : nat) (l : list Z) :
  Forall (fun n => 0 <= n) l -> Forall (fun n => 0 <= n) (incr_at i l).
Proof.
  revert i. induction l as [|x l IH]; intros i H; [destruct i; exact H|].
  inversion H; subst. destruct i as [|i]; simpl; constructor; auto. lia.
Qed.

Lemma incr_at_total (i : nat) (l : list Z) :
  total l <= total (incr_at i l) <= total l + 1.
Proof.
  unfold total. revert i. induction l as [|x l IH]; intros i; [destruct i; simpl; lia|].
  destruct i as [|i]; simpl; [lia|]. specialize (IH i). lia.
Qed.

(** One occurrence of the key: each table keeps its size and its
    non-negative entries and grows by one at most. *)
Lemma count_at_step (p : string) (ws sp : list Z) :
  let result := count_at p (ws, sp) in
  List.length (fst result) = List.length ws
  /\ List.length (snd result) = List.length sp
  /\ (Forall (fun n => 0 <= n) ws -> Forall (fun n => 0 <= n) (fst result))
  /\ (Forall (fun n => 0 <= n) sp -> Forall (fun n => 0 <= n) (snd result))
  /\ total ws <= total (fst result) <= total ws + 1
  /\ total sp <= total (snd result) <= total sp + 1.
Proof.
  unfold count_at.
  destruct (strstr p key_id) as [ip|]; destruct (strstr p key_name) as [np|]; cbn [fst snd];
    repeat match goal with
      | |- context [if ?c then _ else _] => destruct c
      end;
    repeat split;
    try reflexivity; try apply incr_at_length; try (intros; assumption);
    try (intros; apply incr_at_nonneg; assumption);
    try apply incr_at_total; lia.
Qed.

Lemma strstr_occurrences (key ptr p : string) :
  strstr ptr key = Some p ->
  p <> EmptyString ->
  occurrences key ptr = Datatypes.S (occurrences key (advance 1 p)).
Proof.
  induction ptr as [|c ptr IH]; cbn [strstr occurrences].
  - destruct (starts_with key EmptyString); intros H Hne; inversion H; subst; congruence.
  - destruct (starts_with key (String c ptr)) eqn:E; intros H Hne.
    + inversion H; subst. cbn [advance]. reflexivity.
    + rewrite (IH H Hne). reflexivity.
Qed.

Lemma strstr_no_occurrence (key ptr : string) :
  strstr ptr key = None -> occurrences key ptr = O.
Proof.
  induction ptr as [|c ptr IH]; cbn [strstr occurrences].
  - reflexivity.
  - destruct (starts_with key (String c ptr)); [discriminate|]. exact IH.
Qed.

Lemma count_windows_bounds (n : nat) :
  forall (ptr : string) (ws sp : list Z),
    (String.length ptr < n)%nat ->
    let result := count_windows ptr (ws, sp) in
    List.length (fst result) = List.length ws
    /\ List.length (snd result) = List.length sp
    /\ (Forall (fun n => 0 <= n) ws -> Forall (fun n => 0 <= n) (fst result))
    /\ (Forall (fun n => 0 <= n) sp -> Forall (fun n => 0 <= n) (snd result))
    /\ total ws <= total (fst result) <= total ws + Z.of_nat (occurrences key_workspace ptr)
    /\ total sp <= total (snd result) <= total sp + Z.of_nat (occurrences key_workspace ptr).
Proof.
  induction n as [|n IH]; intros ptr ws sp Hlen; [lia|].
  cbv zeta. rewrite count_windows_step.
  destruct (strstr ptr key_workspace) as [p|] eqn:Hp.
  - pose proof (strstr_step _ _ _ _ 0 Hp) as Hshort.
    destruct (strstr_shorter _ _ _ Hp) as [_ Hstart].
    assert (Hne : p <> EmptyString) by (intros ->; discriminate).
    rewrite (strstr_occurrences _ _ _ Hp Hne).
    pose proof (count_at_step p ws sp) as Hat. cbv zeta in Hat.
    destruct (count_at p (ws, sp)) as [ws1 sp1]. cbn [fst snd] in Hat.
    destruct Hat as (Hl1 & Hl2 & Hn1 & Hn2 & Ht1 & Ht2).
    specialize (IH (advance 1 p) ws1 sp1 ltac:(lia)). cbv zeta in IH.
    destruct IH as (Il1 & Il2 & In1 & In2 & It1 & It2).
    repeat split; try congruence; auto; lia.
  - rewrite (strstr_no_occurrence _ _ Hp). cbn [fst snd]. repeat split; auto; lia.
Qed.

Lemma occurrences_le_length (key s : string) :
  (occurrences key s <= String.length s)%nat.
Proof.
  induction s as [|c s IH]; cbn [occurrences String.length]; [lia|].
  destruct (starts_with key (String c s)); lia.
Qed.

Lemma take_length (n : nat) (s : string) : (String.length (take n s) <= n)%nat.
Proof.
  revert s. induction n as [|n IH]; intros [|c s]; simpl; try lia.
  specialize (IH s). lia.
Qed.

Lemma c_str_length (s : string) : (String.length (c_str s) <= String.length s)%nat.
Proof.
  induction s as [|c s IH]; simpl; [lia|].
  destruct (Ascii.eqb c NUL); simpl; lia.
Qed.

Lemma zero_counts_spec :
  List.length zero_counts = 9%nat /\ Forall (fun n => 0 <= n) zero_counts /\ total zero_counts = 0.
Proof. repeat split. unfold zero_counts. apply Forall_forall. intros x Hx.
  apply repeat_spec in Hx. lia. Qed.

(** A monitor name as the scanner stores it. *)
Definition stored_name (name : string) : Prop :=
  (String.length name <= 63)%nat /\ has_char DQ name = false.

Lemma copy_name_stored (n : nat) (p : string) :
  (String.length (copy_name n p) <= n)%nat /\ has_char DQ (copy_name n p) = false.
Proof.
  revert p. induction n as [|n IH]; intros [|c p]; simpl; try (split; [lia | reflexivity]).
  destruct (Ascii.eqb c DQ) eqn:E; simpl; [split; [lia | reflexivity]|].
  destruct (IH p) as [Hl Hq]. rewrite E, Hq. split; [lia | reflexivity].
Qed.

Lemma store_at_length {A : Type} (i : nat) (v : A) (l : list A) :
  List.length (store_at i v l) = List.length l.
Proof.
  revert i. induction l as [|x l IH]; intros [|i]; simpl; try reflexivity.
  rewrite IH. reflexivity.
Qed.

Lemma store_at_Forall {A : Type} (P : A -> Prop) (i : nat) (v : A) (l : list A) :
  P v -> Forall P l -> Forall P (store_at i v l).
Proof.
  intros Hv. revert i. induction l as [|x l IH]; intros i H; [destruct i; exact H|].
  inversion H; subst. destruct i as [|i]; simpl; constructor; auto.
Qed.

Lemma monitor_at_stored (ptr : string) (names : list string) :
  List.length (monitor_at ptr names) = List.length names
  /\ (Forall stored_name names -> Forall stored_name (monitor_at ptr names)).
Proof.
  unfold monitor_at.
  destruct (strstr ptr key_monitor) as [mp|]; [|split; auto].
  repeat match goal with |- context [if ?c then _ else _] => destruct c end;
    try (split; auto; fail).
  all: split; [apply store_at_length | intros H; apply store_at_Forall; [|exact H]];
    apply copy_name_stored.
Qed.

Lemma scan_monitors_stored (n : nat) :
  forall (ptr : string) (names : list string),
    (String.length ptr < n)%nat ->
    List.length (scan_monitors ptr names) = List.length names
    /\ (Forall stored_name names -> Forall stored_name (scan_monitors ptr names)).
Proof.
  induction n as [|n IH]; intros ptr names Hlen; [lia|].
  rewrite scan_monitors_step.
  destruct (strstr ptr key_id) as [p|] eqn:Hp; [|split; auto].
  pose proof (strstr_step _ _ _ _ 4 Hp) as Hshort.
  destruct (monitor_at_stored (advance 5 p) names) as [Hl Hs].
  destruct (IH (advance 5 p) (monitor_at (advance 5 p) names) ltac:(lia)) as [Il Is].
  split; [congruence | auto].
Qed.

(* ===================================================================== *)
(** ** Properties of the two refreshes *)
(* ===================================================================== *)

(** X5.  Whatever [hyprctl clients] prints, the window-count refresh
    leaves two tables of nine non-negative counts, and the sum of each
    table is at most the number of places where the key of a window's
    workspace occurs in the text read, hence at most 32767: no window is
    counted twice in a table and no count can overflow an [int]. *)
Theorem refresh_window_counts_bounds (sh : Shell) (log : list string) (md : WorkspaceModule) :
  let md' := fst (refresh_window_counts md sh log) in
  let seen :=
    match sh log "hyprctl clients -j 2>/dev/null" with
    | Some out => Z.of_nat (occurrences key_workspace (c_str (take (Z.to_nat 32767) out)))
    | None => 0
    end in
  List.length (workspace_windows md') = 9%nat
  /\ List.length (special_windows md') = 9%nat
  /\ Forall (fun n => 0 <= n) (workspace_windows md')
  /\ Forall (fun n => 0 <= n) (special_windows md')
  /\ total (workspace_windows md') <= seen
  /\ total (special_windows md') <= seen
  /\ seen <= 32767
  /\ workspace_monitor md' = workspace_monitor md.
Proof.
  destruct zero_counts_spec as (Hz1 & Hz2 & Hz3).
  unfold refresh_window_counts, io_bind, popen.
  destruct (sh log "hyprctl clients -j 2>/dev/null") as [out|]; cbv zeta.
  - cbn [workspace_windows special_windows set_special_windows set_workspace_windows].
    pose proof (count_windows_bounds
                  (Datatypes.S (String.length (c_str (take (Z.to_nat 32767) out))))
                  (c_str (take (Z.to_nat 32767) out)) zero_counts zero_counts ltac:(lia)) as H.
    cbv zeta in H.
    destruct (count_windows _ _) as [ws sp]. unfold io_ret.
    cbn [fst snd workspace_windows special_windows workspace_monitor
         set_special_windows set_workspace_windows] in *.
    destruct H as (Hl1 & Hl2 & Hn1 & Hn2 & Ht1 & Ht2).
    pose proof (occurrences_le_length key_workspace (c_str (take (Z.to_nat 32767) out))).
    pose proof (c_str_length (take (Z.to_nat 32767) out)).
    pose proof (take_length (Z.to_nat 32767) out).
    repeat split; try congruence; auto; lia.
  - unfold io_ret.
    cbn [fst workspace_windows special_windows workspace_monitor
         set_special_windows set_workspace_windows].
    repeat split; auto; lia.
Qed.

(** X6.  Whatever [hyprctl workspaces] prints, the topology refresh
    leaves a table of nine monitor names, each of 63 characters at most
    and free of double quotes, and does not touch the window counts. *)
Theorem refresh_workspace_monitors_bounds (sh : Shell) (log : list string)
  (md : WorkspaceModule) :
  let md' := fst (refresh_workspace_monitors md sh log) in
  List.length (workspace_monitor md') = 9%nat
  /\ Forall stored_name (workspace_monitor md')
  /\ workspace_windows md' = workspace_windows md
  /\ special_windows md' = special_windows md.
Proof.
  assert (Hz : Forall stored_name zero_names).
  { unfold zero_names. apply Forall_forall. intros x Hx. apply repeat_spec in Hx.
    subst x. split; [simpl; lia | reflexivity]. }
  unfold refresh_workspace_monitors, io_bind, popen.
  destruct (sh log "hyprctl workspaces -j 2>/dev/null") as [out|]; cbv zeta;
    unfold io_ret;
    cbn [fst workspace_monitor workspace_windows special_windows set_workspace_monitor].
  - destruct (scan_monitors_stored
                (Datatypes.S (String.length (c_str (take (Z.to_nat 8191) out))))
                (c_str (take (Z.to_nat 8191) out)) zero_names ltac:(lia)) as [Hl Hs].
    repeat split; [rewrite Hl; reflexivity | apply Hs, Hz].
  - repeat split. exact Hz.
Qed.

(* ===================================================================== *)
(** ** The snapshot, once more *)
(* ===================================================================== *)

(** A window manager whose answer depends on the command alone. *)
Definition answers (f : string -> option string) : Shell := fun _ cmd => f cmd.

(** What [popen_string] and [popen_int] make of the stream [popen]
    returns. *)
Definition string_answer (output_size : nat) (fp : option string) : string :=
  match fp with
  | None => EmptyString
  | Some out => strip_newline (c_str (fgets (output_size - 1) out))
  end.

Definition int_answer (fp : option string) : Z :=
  match fp with
  | None => 0
  | Some out => if has_number out then atoi out else 0
  end.

(** The state [fetch_initial_state] builds from the configuration of the
    module and the answers [f] to its queries. *)
Definition snapshot_of (all show : Z) (name : string) (fd : Z)
  (f : string -> option string) : WorkspaceModule :=
  mkModule all show name
    (if negb (is_empty_str name) then int_answer (f (cmd_active_workspace_of name))
     else int_answer (f cmd_active_workspace))
    (if negb (is_empty_str name)
     then c_bool (strcmp (string_answer 8 (f (cmd_focused_of name))) "true" =? 0)
     else 1)
    (List.map (fun i => int_answer (f (cmd_workspace_clients i))) workspace_ids)
    (List.map (fun i => int_answer (f (cmd_special_clients i))) workspace_ids)
    (List.map (fun i => string_answer 64 (f (cmd_workspace_monitor i))) workspace_ids)
    fd.

Lemma popen_string_answer (cmd : string) (size : nat) (sh : Shell) (log : list string) :
  popen_string cmd size sh log = (string_answer size (sh log cmd), (log ++ [cmd])%list).
Proof. unfold popen_string, io_bind, popen. destruct (sh log cmd); reflexivity. Qed.

Lemma popen_int_answer (cmd : string) (sh : Shell) (log : list string) :
  popen_int cmd sh log = (int_answer (sh log cmd), (log ++ [cmd])%list).
Proof. unfold popen_int, io_bind, popen. destruct (sh log cmd); reflexivity. Qed.

Lemma fgets_no_newline_inside (n : nat) (s : string) :
  (String.length (fgets n s) <= n)%nat.
Proof.
  revert s. induction n as [|n IH]; intros [|c s]; simpl; try lia.
  destruct (Ascii.eqb c LF); simpl; [lia|]. specialize (IH s). lia.
Qed.

Lemma c_str_is_cstring (s : string) : cstring (c_str s).
Proof.
  unfold cstring. induction s as [|c s IH]; simpl; [reflexivity|].
  destruct (Ascii.eqb c NUL) eqn:E; simpl; [reflexivity|]. rewrite E. exact IH.
Qed.

Lemma strip_newline_cons (a : ascii) (x : string) :
  strip_newline (String a x) =
  match x with
  | EmptyString => if Ascii.eqb a LF then EmptyString else String a EmptyString
  | String _ _ => String a (strip_newline x)
  end.
Proof. destruct x; reflexivity. Qed.

(** The first line of the output, without its newline. *)
Lemma first_line_clean (n : nat) (s : string) :
  has_char LF (strip_newline (c_str (fgets n s))) = false.
Proof.
  revert s. induction n as [|n IH]; intros [|c s]; cbn [fgets]; try reflexivity.
  destruct (Ascii.eqb c LF) eqn:E.
  - apply Ascii.eqb_eq in E. subst c. reflexivity.
  - cbn [c_str]. destruct (Ascii.eqb c NUL); [reflexivity|].
    rewrite strip_newline_cons. specialize (IH s).
    destruct (c_str (fgets n s)) as [|c' r].
    + rewrite E. cbn [has_char]. rewrite E. reflexivity.
    + cbn [has_char]. rewrite E. exact IH.
Qed.

Lemma strip_newline_length (s : string) :
  (String.length (strip_newline s) <= String.length s)%nat.
Proof.
  induction s as [|c s IH]; simpl; [lia|].
  destruct s as [|c' s]; [destruct (Ascii.eqb c LF); simpl; lia|].
  cbn [String.length] in *. lia.
Qed.

Lemma strip_newline_cstring (s : string) : cstring s -> cstring (strip_newline s).
Proof.
  unfold cstring. induction s as [|c s IH]; simpl; [reflexivity|].
  intros H. apply orb_false_iff in H. destruct H as [Hc Hs].
  destruct s as [|c' s]; [destruct (Ascii.eqb c LF); simpl; [reflexivity | rewrite Hc; reflexivity]|].
  cbn [has_char]. rewrite Hc. apply IH, Hs.
Qed.

(** X7.  Whatever the command prints, the text [popen_string] stores
    fits the caller's buffer with its terminator, and holds no newline and
    no NUL; a command that cannot be run gives the empty text. *)
Theorem popen_string_fits (cmd : string) (output_size : nat) (sh : Shell) (log : list string) :
  let output := fst (popen_string cmd output_size sh log) in
  (String.length output <= output_size - 1)%nat
  /\ has_char LF output = false
  /\ cstring output
  /\ (sh log cmd = None -> output = EmptyString).
Proof.
  rewrite popen_string_answer. cbn [fst]. unfold string_answer.
  destruct (sh log cmd) as [out|]; [|repeat split; simpl; lia].
  repeat split.
  - pose proof (strip_newline_length (c_str (fgets (output_size - 1) out))).
    pose proof (c_str_length (fgets (output_size - 1) out)).
    pose proof (fgets_no_newline_inside (output_size - 1) out). lia.
  - apply first_line_clean.
  - apply strip_newline_cstring, c_str_is_cstring.
  - discriminate.
Qed.

Lemma io_bind_run {A B : Type} (m : IO A) (k : A -> IO B) (sh : Shell) (log : list string) :
  io_bind m k sh log = k (fst (m sh log)) sh (snd (m sh log)).
Proof. unfold io_bind. destruct (m sh log). reflexivity. Qed.

Lemma for_each_popen_int (f : string -> option string) (cmd : Z -> string)
  (g : Z -> Z -> WorkspaceModule -> WorkspaceModule) (ids : list Z) :
  forall (md : WorkspaceModule) (log : list string),
    for_each ids (fun i m => (let* n := popen_int (cmd i) in io_ret (g i n m))%io) md
      (answers f) log =
    (fold_left (fun m i => g i (int_answer (f (cmd i))) m) ids md,
     (log ++ List.map cmd ids)%list).
Proof.
  induction ids as [|i ids IH]; intros md log; cbn [for_each fold_left List.map].
  - rewrite app_nil_r. reflexivity.
  - rewrite io_bind_run, io_bind_run, popen_int_answer. cbn [fst snd io_ret].
    rewrite IH, <- app_assoc. reflexivity.
Qed.

Lemma for_each_popen_string (f : string -> option string) (cmd : Z -> string) (size : nat)
  (g : Z -> string -> WorkspaceModule -> WorkspaceModule) (ids : list Z) :
  forall (md : WorkspaceModule) (log : list string),
    for_each ids (fun i m => (let* s := popen_string (cmd i) size in io_ret (g i s m))%io) md
      (answers f) log =
    (fold_left (fun m i => g i (string_answer size (f (cmd i))) m) ids md,
     (log ++ List.map cmd ids)%list).
Proof.
  induction ids as [|i ids IH]; intros md log; cbn [for_each fold_left List.map].
  - rewrite app_nil_r. reflexivity.
  - rewrite io_bind_run, io_bind_run, popen_string_answer. cbn [fst snd io_ret].
    rewrite IH, <- app_assoc. reflexivity.
Qed.

(** With answers that depend on the command alone, the snapshot is
    [snapshot_of]. *)
Lemma fetch_initial_state_answers (f : string -> option string) (log : list string)
  (md : WorkspaceModule) :
  fst (fetch_initial_state md (answers f) log) =
  snapshot_of (all_outputs md) (show_empty md) (monitor_name md) (socket_fd md) f.
Proof.
  unfold fetch_initial_state, snapshot_of.
  rewrite io_bind_run.
  destruct (negb (is_empty_str (monitor_name md))).
  - rewrite (io_bind_run (popen_int _)), popen_int_answer. cbn [fst snd].
    rewrite (io_bind_run (popen_string _ _)), popen_string_answer. cbn [fst snd io_ret].
    rewrite io_bind_run, for_each_popen_string. cbn [fst snd].
    rewrite io_bind_run, for_each_popen_int. cbn [fst snd].
    rewrite for_each_popen_int. reflexivity.
  - rewrite (io_bind_run (popen_int _)), popen_int_answer. cbn [fst snd io_ret].
    rewrite io_bind_run, for_each_popen_string. cbn [fst snd].
    rewrite io_bind_run, for_each_popen_int. cbn [fst snd].
    rewrite for_each_popen_int. reflexivity.
Qed.

Lemma for_each_invariant (P : WorkspaceModule -> Prop)
  (body : Z -> WorkspaceModule -> IO WorkspaceModule) (sh : Shell) :
  (forall i m log, P m -> P (fst (body i m sh log))) ->
  forall ids md log, P md -> P (fst (for_each ids body md sh log)).
Proof.
  intros Hbody. induction ids as [|i ids IH]; intros md log Hmd; cbn [for_each].
  - exact Hmd.
  - rewrite io_bind_run. apply IH, Hbody, Hmd.
Qed.

(** The two halves of [fetch_initial_state]: the local context, then the
    three tables. *)
Definition fetch_context (md : WorkspaceModule) : IO WorkspaceModule :=
  (if negb (is_empty_str (monitor_name md))
   then
     let* ws := popen_int (cmd_active_workspace_of (monitor_name md)) in
     let* focused := popen_string (cmd_focused_of (monitor_name md)) 8 in
     io_ret (set_user_focused_here (c_bool (strcmp focused "true" =? 0))
               (set_this_monitor_workspace ws md))
   else
     let* ws := popen_int cmd_active_workspace in
     io_ret (set_user_focused_here 1 (set_this_monitor_workspace ws md)))%io.

Definition fetch_tables (md1 : WorkspaceModule) : IO WorkspaceModule :=
  (let md2 :=
     set_workspace_monitor zero_names
       (set_special_windows zero_counts (set_workspace_windows zero_counts md1)) in
   let* md3 :=
     for_each workspace_ids
       (fun i m =>
          let* name := popen_string (cmd_workspace_monitor i) 64 in
          io_ret (set_workspace_monitor
                    (store_at (Z.to_nat (i - 1)) name (workspace_monitor m)) m)) md2 in
   let* md4 :=
     for_each workspace_ids
       (fun i m =>
          let* n := popen_int (cmd_workspace_clients i) in
          io_ret (set_workspace_windows
                    (store_at (Z.to_nat (i - 1)) n (workspace_windows m)) m)) md3 in
   for_each workspace_ids
     (fun i m =>
        let* n := popen_int (cmd_special_clients i) in
        io_ret (set_special_windows
                  (store_at (Z.to_nat (i - 1)) n (special_windows m)) m)) md4)%io.

Lemma fetch_initial_state_halves (md : WorkspaceModule) :
  fetch_initial_state md = io_bind (fetch_context md) fetch_tables.
Proof. reflexivity. Qed.

(** The part of the module a snapshot keeps, and the shape it gives to
    the rest. *)
Definition snapshot_shape (md md' : WorkspaceModule) : Prop :=
  all_outputs md' = all_outputs md
  /\ show_empty md' = show_empty md
  /\ monitor_name md' = monitor_name md
  /\ socket_fd md' = socket_fd md
  /\ tables_sized md'
  /\ (user_focused_here md' = 0 \/ user_focused_here md' = 1)
  /\ (monitor_name md = EmptyString -> user_focused_here md' = 1).

Lemma fetch_context_shape (sh : Shell) (log : list string) (md : WorkspaceModule) :
  let md1 := fst (fetch_context md sh log) in
  all_outputs md1 = all_outputs md /\ show_empty md1 = show_empty md
  /\ monitor_name md1 = monitor_name md /\ socket_fd md1 = socket_fd md
  /\ (user_focused_here md1 = 0 \/ user_focused_here md1 = 1)
  /\ (monitor_name md = EmptyString -> user_focused_here md1 = 1).
Proof.
  unfold fetch_context. destruct (negb (is_empty_str (monitor_name md))) eqn:E.
  - rewrite (io_bind_run (popen_int _)), popen_int_answer. cbn [fst snd].
    rewrite (io_bind_run (popen_string _ _)), popen_string_answer.
    cbn [fst snd io_ret all_outputs show_empty monitor_name socket_fd user_focused_here
         set_user_focused_here set_this_monitor_workspace].
    repeat split.
    + destruct (strcmp _ _ =? 0); auto.
    + intros Hname. rewrite Hname in E. discriminate.
  - rewrite (io_bind_run (popen_int _)), popen_int_answer.
    cbn [fst snd io_ret all_outputs show_empty monitor_name socket_fd user_focused_here
         set_user_focused_here set_this_monitor_workspace].
    repeat split; auto.
Qed.

Lemma fetch_tables_shape (sh : Shell) (log : list string) (md1 : WorkspaceModule) :
  let md' := fst (fetch_tables md1 sh log) in
  all_outputs md' = all_outputs md1 /\ show_empty md' = show_empty md1
  /\ monitor_name md' = monitor_name md1 /\ socket_fd md' = socket_fd md1
  /\ tables_sized md'
  /\ user_focused_here md' = user_focused_here md1
  /\ this_monitor_workspace md' = this_monitor_workspace md1.
Proof.
  unfold fetch_tables. cbv zeta. rewrite io_bind_run, io_bind_run.
  set (P := fun m : WorkspaceModule =>
    all_outputs m = all_outputs md1 /\ show_empty m = show_empty md1
    /\ monitor_name m = monitor_name md1 /\ socket_fd m = socket_fd md1
    /\ tables_sized m
    /\ user_focused_here m = user_focused_here md1
    /\ this_monitor_workspace m = this_monitor_workspace md1).
  match goal with
  | |- all_outputs (fst ?x) = _ /\ _ => change (P (fst x))
  end.
  apply for_each_invariant.
  { intros i m l (A & B & C & D & (T1 & T2 & T3) & F & G).
    rewrite io_bind_run, popen_int_answer. unfold P, tables_sized.
    cbn [fst snd io_ret all_outputs show_empty monitor_name socket_fd user_focused_here
         this_monitor_workspace
         workspace_windows special_windows workspace_monitor set_special_windows].
    rewrite store_at_length. repeat split; assumption. }
  apply for_each_invariant.
  { intros i m l (A & B & C & D & (T1 & T2 & T3) & F & G).
    rewrite io_bind_run, popen_int_answer. unfold P, tables_sized.
    cbn [fst snd io_ret all_outputs show_empty monitor_name socket_fd user_focused_here
         this_monitor_workspace
         workspace_windows special_windows workspace_monitor set_workspace_windows].
    rewrite store_at_length. repeat split; assumption. }
  apply for_each_invariant.
  { intros i m l (A & B & C & D & (T1 & T2 & T3) & F & G).
    rewrite io_bind_run, popen_string_answer. unfold P, tables_sized.
    cbn [fst snd io_ret all_outputs show_empty monitor_name socket_fd user_focused_here
         this_monitor_workspace
         workspace_windows special_windows workspace_monitor set_workspace_monitor].
    rewrite store_at_length. repeat split; assumption. }
  unfold P, tables_sized. repeat split.
Qed.

(* ===================================================================== *)
(** ** Properties of the snapshot *)
(* ===================================================================== *)

(** X8.  Whatever the window manager answers, and from whatever state, a
    full snapshot keeps the configuration, the monitor name and the
    socket, leaves three tables of nine entries and a focus flag that is
    0 or 1; while the monitor name is unresolved the focus is taken to
    be here. *)
Theorem fetch_initial_state_shape (sh : Shell) (log : list string) (md : WorkspaceModule) :
  snapshot_shape md (fst (fetch_initial_state md sh log)).
Proof.
  rewrite fetch_initial_state_halves, io_bind_run.
  destruct (fetch_context_shape sh log md) as (A & B & C & D & F & G).
  destruct (fetch_tables_shape sh (snd (fetch_context md sh log))
              (fst (fetch_context md sh log))) as (A' & B' & C' & D' & T & F' & _).
  unfold snapshot_shape. rewrite A', B', C', D', F'.
  repeat split; try assumption; apply T.
Qed.

(** X9.  When the answers of the window manager depend on the query
    alone, a full snapshot depends on nothing of the previous state but
    the configuration, the monitor name and the socket: two modules that
    agree on these get the same snapshot, and a second snapshot right
    after the first changes nothing. *)
Theorem snapshot_forgets_previous_state (f : string -> option string)
  (md1 md2 : WorkspaceModule) (log1 log2 : list string) :
  all_outputs md1 = all_outputs md2 ->
  show_empty md1 = show_empty md2 ->
  monitor_name md1 = monitor_name md2 ->
  socket_fd md1 = socket_fd md2 ->
  fst (fetch_initial_state md1 (answers f) log1) = fst (fetch_initial_state md2 (answers f) log2)
  /\ fst (fetch_initial_state (fst (fetch_initial_state md1 (answers f) log1)) (answers f) log2)
     = fst (fetch_initial_state md1 (answers f) log1).
Proof.
  intros Ha Hs Hn Hf. rewrite !fetch_initial_state_answers.
  split; [rewrite Ha, Hs, Hn, Hf; reflexivity | reflexivity].
Qed.

Lemma snapshot_forgets_previous_state_witness :
  fst (fetch_initial_state sample_module (answers (fun _ => Some "2")) [])
  = fst (fetch_initial_state
           (set_this_monitor_workspace 7
              (set_workspace_windows [1; 2; 3; 4; 5; 6; 7; 8; 9] sample_module))
           (answers (fun _ => Some "2")) ["earlier"]).
Proof.
  exact (proj1 (snapshot_forgets_previous_state (fun _ => Some "2") sample_module
                  (set_this_monitor_workspace 7
                     (set_workspace_windows [1; 2; 3; 4; 5; 6; 7; 8; 9] sample_module))
                  [] ["earlier"] eq_refl eq_refl eq_refl eq_refl)).
Defined.

(** X10.  When no query can be run at all, the snapshot leaves no active
    workspace among the nine slots and no window anywhere: with
    [show-empty] off every button is then hidden, and with it on every
    button is shown. *)
Theorem snapshot_without_hyprctl (log : list string) (md : WorkspaceModule) (ws_index : Z) :
  0 <= ws_index < 9 ->
  let md' := fst (fetch_initial_state md (answers (fun _ => None)) log) in
  this_monitor_workspace md' = 0
  /\ workspace_windows md' = zero_counts
  /\ special_windows md' = zero_counts
  /\ workspace_monitor md' = zero_names
  /\ should_show_workspace md' ws_index = (if show_empty md =? 0 then 0 else 1).
Proof.
  intros Hr. cbv zeta. rewrite fetch_initial_state_answers. unfold snapshot_of.
  cbn [int_answer string_answer List.map workspace_ids
       this_monitor_workspace workspace_windows special_windows workspace_monitor].
  assert (Hws : (if negb (is_empty_str (monitor_name md)) then 0 else 0) = 0)
    by (destruct (negb _); reflexivity).
  rewrite Hws. repeat split.
  unfold should_show_workspace, on_this_monitor.
  cbn [all_outputs show_empty monitor_name this_monitor_workspace workspace_windows
       special_windows workspace_monitor].
  assert (Hi : ws_index = 0 \/ ws_index = 1 \/ ws_index = 2 \/ ws_index = 3 \/ ws_index = 4
               \/ ws_index = 5 \/ ws_index = 6 \/ ws_index = 7 \/ ws_index = 8) by lia.
  unfold truthy.
  destruct (show_empty md =? 0);
    repeat (destruct Hi as [-> | Hi]; [cbn; rewrite ?orb_true_r; reflexivity|]);
    subst ws_index; cbn; rewrite ?orb_true_r; reflexivity.
Qed.

Lemma snapshot_without_hyprctl_witness :
  should_show_workspace (fst (fetch_initial_state sample_module (answers (fun _ => None)) [])) 2
  = 0.
Proof.
  assert (Hr : 0 <= 2 < 9) by lia.
  exact (proj2 (proj2 (proj2 (proj2
           (snapshot_without_hyprctl [] sample_module 2 Hr))))).
Defined.

(* ===================================================================== *)
(** ** The window counts of the snapshot *)
(* ===================================================================== *)

(** The answers of the window manager to commands issued one after the
    other, the first of them after the commands of [log]. *)
Fixpoint replies (sh : Shell) (log : list string) (cmds : list string)
  : list (option string) :=
  match cmds with
  | [] => []
  | cmd :: rest => sh log cmd :: replies sh (log ++ [cmd]) rest
  end.

(** The queries of the snapshot for the local context. *)
Definition context_queries (name : string) : list string :=
  if negb (is_empty_str name)
  then [cmd_active_workspace_of name; cmd_focused_of name]
  else [cmd_active_workspace].

Lemma replies_length (sh : Shell) (cmds : list string) :
  forall log, List.length (replies sh log cmds) = List.length cmds.
Proof.
  induction cmds as [|cmd cmds IH]; intros log; cbn [replies List.length];
    [reflexivity | rewrite IH; reflexivity].
Qed.

Lemma for_each_popen_int_replies (sh : Shell) (cmd : Z -> string)
  (g : Z -> Z -> WorkspaceModule -> WorkspaceModule) (ids : list Z) :
  forall (md : WorkspaceModule) (log : list string),
    for_each ids (fun i m => (let* n := popen_int (cmd i) in io_ret (g i n m))%io) md sh log =
    (fold_left (fun m p => g (fst p) (int_answer (snd p)) m)
       (combine ids (replies sh log (List.map cmd ids))) md,
     (log ++ List.map cmd ids)%list).
Proof.
  induction ids as [|i ids IH]; intros md log;
    cbn [for_each fold_left List.map replies combine].
  - rewrite app_nil_r. reflexivity.
  - rewrite io_bind_run, io_bind_run, popen_int_answer. cbn [fst snd io_ret].
    rewrite IH, <- app_assoc. reflexivity.
Qed.

(** Nine answers stored one by one fill a table. *)
Lemma table_filled (a : list (option string)) (table : list Z) :
  List.length a = 9%nat -> List.length table = 9%nat ->
  fold_left (fun t p => store_at (Z.to_nat (fst p - 1)) (int_answer (snd p)) t)
    (combine workspace_ids a) table
  = List.map int_answer a.
Proof.
  intros Ha Ht.
  do 10 (destruct a as [|? a]; try discriminate Ha).
  do 10 (destruct table as [|? table]; try discriminate Ht).
  reflexivity.
Qed.

Lemma fold_workspace_windows (ps : list (Z * option string)) :
  forall m : WorkspaceModule,
    let m' := fold_left
                (fun m p => set_workspace_windows
                              (store_at (Z.to_nat (fst p - 1)) (int_answer (snd p))
                                 (workspace_windows m)) m) ps m in
    workspace_windows m' =
    fold_left (fun t p => store_at (Z.to_nat (fst p - 1)) (int_answer (snd p)) t) ps
      (workspace_windows m)
    /\ special_windows m' = special_windows m.
Proof.
  induction ps as [|p ps IH]; intros m; cbn [fold_left]; [split; reflexivity|].
  destruct (IH (set_workspace_windows
                  (store_at (Z.to_nat (fst p - 1)) (int_answer (snd p)) (workspace_windows m))
                  m)) as [Hw Hs].
  split; [exact Hw | exact Hs].
Qed.

Lemma fold_special_windows (ps : list (Z * option string)) :
  forall m : WorkspaceModule,
    let m' := fold_left
                (fun m p => set_special_windows
                              (store_at (Z.to_nat (fst p - 1)) (int_answer (snd p))
                                 (special_windows m)) m) ps m in
    special_windows m' =
    fold_left (fun t p => store_at (Z.to_nat (fst p - 1)) (int_answer (snd p)) t) ps
      (special_windows m)
    /\ workspace_windows m' = workspace_windows m.
Proof.
  induction ps as [|p ps IH]; intros m; cbn [fold_left]; [split; reflexivity|].
  destruct (IH (set_special_windows
                  (store_at (Z.to_nat (fst p - 1)) (int_answer (snd p)) (special_windows m))
                  m)) as [Hs Hw].
  split; [exact Hs | exact Hw].
Qed.

Lemma fetch_context_log (sh : Shell) (log : list string) (md : WorkspaceModule) :
  snd (fetch_context md sh log) = (log ++ context_queries (monitor_name md))%list.
Proof.
  unfold fetch_context, context_queries.
  destruct (negb (is_empty_str (monitor_name md))).
  - rewrite (io_bind_run (popen_int _)), popen_int_answer. cbn [fst snd].
    rewrite (io_bind_run (popen_string _ _)), popen_string_answer. cbn [fst snd io_ret].
    rewrite <- app_assoc. reflexivity.
  - rewrite (io_bind_run (popen_int _)), popen_int_answer. reflexivity.
Qed.

(** The two count tables of the snapshot: the answers to the eighteen
    counting queries, each read as a number. *)
Lemma fetch_tables_counts (sh : Shell) (log : list string) (md1 : WorkspaceModule) :
  let md' := fst (fetch_tables md1 sh log) in
  let asked := (log ++ List.map cmd_workspace_monitor workspace_ids)%list in
  workspace_windows md'
  = List.map int_answer (replies sh asked (List.map cmd_workspace_clients workspace_ids))
  /\ special_windows md'
     = List.map int_answer
         (replies sh (asked ++ List.map cmd_workspace_clients workspace_ids)%list
            (List.map cmd_special_clients workspace_ids)).
Proof.
  cbv zeta. unfold fetch_tables. cbv zeta. rewrite io_bind_run, io_bind_run.
  match goal with
  | |- context [for_each workspace_ids ?body ?m sh log] =>
      set (owners_loop := for_each workspace_ids body m sh log)
  end.
  assert (Hlog : snd owners_loop = (log ++ List.map cmd_workspace_monitor workspace_ids)%list).
  { subst owners_loop. apply for_each_log. intros i m l.
    rewrite io_bind_run, popen_string_answer. reflexivity. }
  assert (Hzero : workspace_windows (fst owners_loop) = zero_counts
                  /\ special_windows (fst owners_loop) = zero_counts).
  { subst owners_loop.
    apply (for_each_invariant
             (fun m => workspace_windows m = zero_counts /\ special_windows m = zero_counts)).
    - intros i m l Hm. rewrite io_bind_run, popen_string_answer. exact Hm.
    - split; reflexivity. }
  destruct Hzero as [Hw0 Hs0]. rewrite Hlog.
  rewrite (for_each_popen_int_replies sh cmd_workspace_clients
             (fun i n m => set_workspace_windows
                             (store_at (Z.to_nat (i - 1)) n (workspace_windows m)) m)).
  cbn [fst snd].
  rewrite (for_each_popen_int_replies sh cmd_special_clients
             (fun i n m => set_special_windows
                             (store_at (Z.to_nat (i - 1)) n (special_windows m)) m)).
  cbn [fst].
  match goal with
  | |- context [fold_left _ ?ps (fold_left _ ?ps0 (fst owners_loop))] =>
      destruct (fold_workspace_windows ps0 (fst owners_loop)) as [Hw Hs];
      destruct (fold_special_windows ps
                  (fold_left
                     (fun m p => set_workspace_windows
                                   (store_at (Z.to_nat (fst p - 1)) (int_answer (snd p))
                                      (workspace_windows m)) m) ps0 (fst owners_loop)))
        as [Hs' Hw']
  end.
  split.
  - rewrite Hw', Hw, Hw0. apply table_filled; [apply replies_length | reflexivity].
  - rewrite Hs', Hs, Hs0. apply table_filled; [apply replies_length | reflexivity].
Qed.

(** C7, amended.  The full snapshot fetch obtains the window counts with
    one window-listing query per regular workspace followed by one per
    satellite workspace, eighteen in all, and each count is the number
    that the answer to its own query gives.  The single bulk query whose
    answer is scanned once into both tables is the window-count refresh:
    it issues one command and both its tables are the result of one scan
    of that answer, from zero. *)
Theorem window_counts_queries (sh : Shell) (log : list string) (md : WorkspaceModule) :
  let name := monitor_name md in
  let md' := fst (fetch_initial_state md sh log) in
  let asked :=
    (log ++ context_queries name ++ List.map cmd_workspace_monitor workspace_ids)%list in
  snd (fetch_initial_state md sh log) = (log ++ snapshot_queries name)%list
  /\ filter lists_windows (snapshot_queries name)
     = (List.map cmd_workspace_clients workspace_ids
        ++ List.map cmd_special_clients workspace_ids)%list
  /\ workspace_windows md'
     = List.map int_answer (replies sh asked (List.map cmd_workspace_clients workspace_ids))
  /\ special_windows md'
     = List.map int_answer
         (replies sh (asked ++ List.map cmd_workspace_clients workspace_ids)%list
            (List.map cmd_special_clients workspace_ids))
  /\ snd (refresh_window_counts md sh log) = (log ++ ["hyprctl clients -j 2>/dev/null"])%list
  /\ (let md'' := fst (refresh_window_counts md sh log) in
      (workspace_windows md'', special_windows md'') =
      match sh log "hyprctl clients -j 2>/dev/null" with
      | Some out => count_windows (c_str (take (Z.to_nat 32767) out)) (zero_counts, zero_counts)
      | None => (zero_counts, zero_counts)
      end).
Proof.
  cbv zeta.
  split; [apply fetch_initial_state_log|]. split; [|split; [|split; [|split]]].
  - unfold snapshot_queries. rewrite filter_app.
    destruct (negb (is_empty_str (monitor_name md))); reflexivity.
  - rewrite fetch_initial_state_halves, io_bind_run, fetch_context_log.
    rewrite (app_assoc log). apply (proj1 (fetch_tables_counts sh _ _)).
  - rewrite fetch_initial_state_halves, io_bind_run, fetch_context_log.
    rewrite (app_assoc log). apply (proj2 (fetch_tables_counts sh _ _)).
  - unfold refresh_window_counts, io_bind, popen.
    destruct (sh log _) as [out|]; [|reflexivity].
    destruct (count_windows _ _). reflexivity.
  - unfold refresh_window_counts, io_bind, popen.
    destruct (sh log _) as [out|]; [|reflexivity].
    cbn [workspace_windows special_windows set_special_windows set_workspace_windows].
    destruct (count_windows _ _) as [ws sp]. reflexivity.
Qed.

(** A window manager that counts three windows on the fourth regular
    workspace, one on the second satellite, and none elsewhere. *)
Example snapshot_counts_sample :
  let wm : Shell :=
    answers (fun cmd =>
               if String.eqb cmd (cmd_workspace_clients 4) then Some "3"
               else if String.eqb cmd (cmd_special_clients 2) then Some "1"
               else Some "0") in
  let md' := fst (fetch_initial_state sample_module wm []) in
  workspace_windows md' = [0; 0; 0; 3; 0; 0; 0; 0; 0]
  /\ special_windows md' = [0; 1; 0; 0; 0; 0; 0; 0; 0].
Proof. split; reflexivity. Qed.

(* ===================================================================== *)
(** ** The interpreter, once more *)
(* ===================================================================== *)

(** The two tables [refresh_window_counts] makes of the stream of
    [hyprctl clients], and the table [refresh_workspace_monitors] makes
    of the stream of [hyprctl workspaces]. *)
Definition counted (fp : option string) : list Z * list Z :=
  match fp with
  | Some out => count_windows (c_str (take (Z.to_nat 32767) out)) (zero_counts, zero_counts)
  | None => (zero_counts, zero_counts)
  end.

Definition owners (fp : option string) : list string :=
  match fp with
  | Some out => scan_monitors (c_str (take (Z.to_nat 8191) out)) zero_names
  | None => zero_names
  end.

Definition cmd_clients : string := "hyprctl clients -j 2>/dev/null".
Definition cmd_workspaces : string := "hyprctl workspaces -j 2>/dev/null".

(** The state of a module that the code relies on: tables of nine
    entries, a focus flag that is 0 or 1, counts that are not negative
    and monitor names that fit their 64 bytes. *)
Definition well_formed (md : WorkspaceModule) : Prop :=
  tables_sized md
  /\ (user_focused_here md = 0 \/ user_focused_here md = 1)
  /\ Forall (fun n => 0 <= n) (workspace_windows md)
  /\ Forall (fun n => 0 <= n) (special_windows md)
  /\ Forall (fun name => (String.length name <= 63)%nat) (workspace_monitor md).

(** The configuration, the monitor name and the socket. *)
Definition same_setup (md md' : WorkspaceModule) : Prop :=
  all_outputs md' = all_outputs md
  /\ show_empty md' = show_empty md
  /\ monitor_name md' = monitor_name md
  /\ socket_fd md' = socket_fd md.

Lemma refresh_window_counts_run (sh : Shell) (log : list string) (md : WorkspaceModule) :
  refresh_window_counts md sh log =
  (set_special_windows (snd (counted (sh log cmd_clients)))
     (set_workspace_windows (fst (counted (sh log cmd_clients))) md),
   (log ++ [cmd_clients])%list).
Proof.
  unfold refresh_window_counts, io_bind, popen, counted, cmd_clients.
  destruct (sh log _) as [out|]; [|reflexivity].
  destruct (count_windows _ _) as [ws sp]. reflexivity.
Qed.

Lemma refresh_workspace_monitors_run (sh : Shell) (log : list string) (md : WorkspaceModule) :
  refresh_workspace_monitors md sh log =
  (set_workspace_monitor (owners (sh log cmd_workspaces)) md, (log ++ [cmd_workspaces])%list).
Proof.
  unfold refresh_workspace_monitors, io_bind, popen, owners, cmd_workspaces.
  destruct (sh log _) as [out|]; reflexivity.
Qed.

Lemma counted_sound (fp : option string) :
  List.length (fst (counted fp)) = 9%nat /\ List.length (snd (counted fp)) = 9%nat
  /\ Forall (fun n => 0 <= n) (fst (counted fp))
  /\ Forall (fun n => 0 <= n) (snd (counted fp)).
Proof.
  destruct zero_counts_spec as (Hz1 & Hz2 & _).
  destruct fp as [out|]; cbn [counted fst snd]; [|auto].
  destruct (count_windows_bounds
              (Datatypes.S (String.length (c_str (take (Z.to_nat 32767) out))))
              (c_str (take (Z.to_nat 32767) out)) zero_counts zero_counts ltac:(lia))
    as (Hl1 & Hl2 & Hn1 & Hn2 & _).
  repeat split; try congruence; auto.
Qed.

Lemma owners_sound (fp : option string) :
  List.length (owners fp) = 9%nat
  /\ Forall (fun name => (String.length name <= 63)%nat) (owners fp).
Proof.
  assert (Hz : Forall stored_name zero_names).
  { unfold zero_names. apply Forall_forall. intros x Hx. apply repeat_spec in Hx.
    subst x. split; [simpl; lia | reflexivity]. }
  assert (Hw : forall l, Forall stored_name l ->
                         Forall (fun name => (String.length name <= 63)%nat) l).
  { intros l Hl. eapply Forall_impl; [|exact Hl]. intros a [Ha _]. exact Ha. }
  destruct fp as [out|]; cbn [owners]; [|split; [reflexivity | apply Hw, Hz]].
  destruct (scan_monitors_stored
              (Datatypes.S (String.length (c_str (take (Z.to_nat 8191) out))))
              (c_str (take (Z.to_nat 8191) out)) zero_names ltac:(lia)) as [Hl Hs].
  split; [rewrite Hl; reflexivity | apply Hw, Hs, Hz].
Qed.

(** One event: the commands issued, the setup and the well-formedness. *)
Lemma handle_event_step (sh : Shell) (log : list string) (md : WorkspaceModule)
  (event : string) :
  let result := handle_event md event sh log in
  same_setup md (fst result)
  /\ (well_formed md -> well_formed (fst result))
  /\ (snd result = log \/ snd result = (log ++ [cmd_clients])%list
      \/ snd result = (log ++ [cmd_workspaces])%list).
Proof.
  unfold handle_event.
  destruct (strncmp event "workspace>>" 11 =? 0).
  { destruct (in_range _); cbv zeta; unfold same_setup, well_formed, tables_sized, io_ret;
      cbn [fst snd all_outputs show_empty monitor_name socket_fd user_focused_here
           workspace_windows special_windows workspace_monitor
           set_this_monitor_workspace set_user_focused_here].
    - split; [repeat split|]. split; [|left; reflexivity].
      intros (T & _ & W). split; [exact T|]. split; [right; reflexivity | exact W].
    - split; [repeat split|]. split; [|left; reflexivity]. intros H; exact H. }
  destruct (strncmp event "focusedmon>>" 12 =? 0).
  { assert (Hsame : same_setup md md /\ (well_formed md -> well_formed md)
                    /\ (log = log \/ log = (log ++ [cmd_clients])%list
                        \/ log = (log ++ [cmd_workspaces])%list)).
    { split; [repeat split|]. split; [intros H; exact H | left; reflexivity]. }
    destruct (strchr _ _) as [comma|]; [|exact Hsame].
    destruct (_ <? 64)%nat; [|exact Hsame].
    destruct (truthy _ && in_range _)%bool; cbv zeta;
      unfold same_setup, well_formed, tables_sized, io_ret;
      cbn [fst snd all_outputs show_empty monitor_name socket_fd user_focused_here
           workspace_windows special_windows workspace_monitor
           set_this_monitor_workspace set_user_focused_here];
      (split; [repeat split|]; split; [|left; reflexivity]);
      intros (T & _ & W); (split; [exact T|]; split; [|exact W]);
      destruct (strcmp _ _ =? 0); auto. }
  assert (Hcounts : forall l,
    let result := refresh_window_counts md sh l in
    same_setup md (fst result)
    /\ (well_formed md -> well_formed (fst result))
    /\ snd result = (l ++ [cmd_clients])%list).
  { intros l. cbv zeta. rewrite refresh_window_counts_run. cbn [fst snd].
    destruct (counted_sound (sh l cmd_clients)) as (L1 & L2 & N1 & N2).
    split; [repeat split|]. split; [|reflexivity].
    intros ((_ & _ & T3) & F & _ & _ & O). unfold well_formed, tables_sized.
    cbn [workspace_windows special_windows workspace_monitor user_focused_here
         set_special_windows set_workspace_windows].
    repeat split; assumption. }
  assert (Howners : forall l,
    let result := refresh_workspace_monitors md sh l in
    same_setup md (fst result)
    /\ (well_formed md -> well_formed (fst result))
    /\ snd result = (l ++ [cmd_workspaces])%list).
  { intros l. cbv zeta. rewrite refresh_workspace_monitors_run. cbn [fst snd].
    destruct (owners_sound (sh l cmd_workspaces)) as (L & O).
    split; [repeat split|]. split; [|reflexivity].
    intros ((T1 & T2 & _) & F & N1 & N2 & _). unfold well_formed, tables_sized.
    cbn [workspace_windows special_windows workspace_monitor user_focused_here
         set_workspace_monitor].
    repeat split; assumption. }
  repeat match goal with
    | |- context [if ?c then _ else _] => destruct c
    end;
    try (destruct (Hcounts log) as (A & B & C); cbv zeta in *;
         split; [exact A|]; split; [exact B|]; right; left; exact C);
    try (destruct (Howners log) as (A & B & C); cbv zeta in *;
         split; [exact A|]; split; [exact B|]; right; right; exact C).
  cbv zeta. split; [repeat split|]. split; [intros H; exact H | left; reflexivity].
Qed.

Lemma starts_with_strncmp (key event : string) :
  starts_with key event = true -> strncmp event key (String.length key) = 0.
Proof.
  revert event. induction key as [|a key IH]; intros event H; [reflexivity|].
  destruct event as [|b event]; [discriminate|]. cbn [starts_with] in H.
  apply andb_true_iff in H. destruct H as [Hab Hrest].
  apply Ascii.eqb_eq in Hab. subst b. cbn [String.length strncmp].
  rewrite Ascii.eqb_refl. apply IH, Hrest.
Qed.

(** The events [handle_event] serves from the payload alone. *)
Definition payload_event (event : string) : Prop :=
  starts_with "workspace>>" event = true \/ starts_with "focusedmon>>" event = true.

Lemma payload_event_silent (sh : Shell) (log : list string) (md : WorkspaceModule)
  (event : string) :
  payload_event event -> snd (handle_event md event sh log) = log.
Proof.
  intros [H | H]; apply starts_with_strncmp in H; cbn [String.length] in H;
    unfold handle_event.
  - rewrite H. cbn [Z.eqb]. destruct (in_range _); reflexivity.
  - destruct (strncmp event "workspace>>" 11 =? 0); [destruct (in_range _); reflexivity|].
    rewrite H. cbn [Z.eqb].
    destruct (strchr _ _) as [comma|]; [|reflexivity].
    destruct (_ <? 64)%nat; [|reflexivity].
    destruct (truthy _ && in_range _)%bool; reflexivity.
Qed.

Lemma same_setup_trans (a b c : WorkspaceModule) :
  same_setup a b -> same_setup b c -> same_setup a c.
Proof.
  intros (A1 & A2 & A3 & A4) (B1 & B2 & B3 & B4).
  repeat split; congruence.
Qed.

(* ===================================================================== *)
(** ** Further properties of the interpreter *)
(* ===================================================================== *)

(** X11.  No sequence of events changes the configuration, the monitor
    name or the socket of the module, and every sequence of events keeps
    a well-formed module well formed: tables of nine entries, a focus
    flag that is 0 or 1, counts that are not negative, monitor names of
    63 characters at most. *)
Theorem events_keep_module_well_formed (sh : Shell) (events : list string) :
  forall (md : WorkspaceModule) (log : list string),
    well_formed md ->
    let md' := fst (run_events events md sh log) in
    well_formed md' /\ same_setup md md'.
Proof.
  induction events as [|event events IH]; intros md log Hwf; cbn [run_events].
  - split; [exact Hwf | repeat split].
  - cbv zeta. rewrite io_bind_run.
    destruct (handle_event_step sh log md event) as (Hsame & Hkeep & _).
    destruct (IH (fst (handle_event md event sh log)) (snd (handle_event md event sh log))
                (Hkeep Hwf)) as [Hwf' Hsame'].
    split; [exact Hwf' | exact (same_setup_trans _ _ _ Hsame Hsame')].
Qed.

Lemma sample_module_well_formed : well_formed sample_module.
Proof.
  unfold well_formed, tables_sized. cbn.
  repeat split; auto; repeat constructor; try lia; simpl; lia.
Qed.

Lemma events_keep_module_well_formed_witness :
  well_formed
    (fst (run_events ["workspace>>4"; "openwindow>>a,4,kitty,sh"; "moveworkspace>>4,DP-2"]
            sample_module silent_shell [])).
Proof.
  exact (proj1 (events_keep_module_well_formed silent_shell
                  ["workspace>>4"; "openwindow>>a,4,kitty,sh"; "moveworkspace>>4,DP-2"]
                  sample_module [] sample_module_well_formed)).
Defined.

(** X12.  An event costs one query at most: a sequence of events only
    appends to the log of commands, at most one command per event, each
    of them one of the two bulk listings; and the workspace-switch and
    focus-change events issue no command at all. *)
Theorem events_cost_one_query_each (sh : Shell) (events : list string) :
  forall (md : WorkspaceModule) (log : list string),
    (exists issued,
        snd (run_events events md sh log) = (log ++ issued)%list
        /\ (List.length issued <= List.length events)%nat
        /\ Forall (fun cmd => cmd = cmd_clients \/ cmd = cmd_workspaces) issued)
    /\ (Forall payload_event events -> snd (run_events events md sh log) = log).
Proof.
  induction events as [|event events IH]; intros md log; cbn [run_events].
  - split; [|reflexivity]. exists []. rewrite app_nil_r. repeat split; [simpl; lia | constructor].
  - rewrite io_bind_run.
    destruct (handle_event_step sh log md event) as (_ & _ & Hlog).
    destruct (IH (fst (handle_event md event sh log)) (snd (handle_event md event sh log)))
      as [(issued & Hissued & Hlen & Hall) Hsilent].
    split.
    + destruct Hlog as [Hl | [Hl | Hl]].
      * exists issued. rewrite Hissued, Hl. repeat split; [simpl; lia | exact Hall].
      * exists (cmd_clients :: issued). rewrite Hissued, Hl, <- app_assoc.
        repeat split; [simpl; lia | constructor; auto].
      * exists (cmd_workspaces :: issued). rewrite Hissued, Hl, <- app_assoc.
        repeat split; [simpl; lia | constructor; auto].
    + intros Hpay. inversion Hpay as [|e es He Hes]; subst.
      rewrite (Hsilent Hes). apply payload_event_silent, He.
Qed.

Lemma events_cost_one_query_each_witness :
  snd (run_events ["workspace>>4"; "focusedmon>>DP-2,5"] sample_module silent_shell []) = [].
Proof.
  apply (proj2 (events_cost_one_query_each silent_shell
                  ["workspace>>4"; "focusedmon>>DP-2,5"] sample_module [])).
  constructor; [left; reflexivity|]. constructor; [right; reflexivity|]. constructor.
Defined.

Lemma handle_workspace (sh : Shell) (log : list string) (md : WorkspaceModule)
  (id_text : string) :
  handle_event md ("workspace>>" ++ id_text) sh log =
  (if in_range (atoi id_text)
   then set_user_focused_here 1 (set_this_monitor_workspace (atoi id_text) md)
   else md, log).
Proof.
  unfold handle_event.
  change (strncmp ("workspace>>" ++ id_text) "workspace>>" 11 =? 0) with true.
  change (advance 11 ("workspace>>" ++ id_text)) with id_text.
  cbv iota. destruct (in_range (atoi id_text)); reflexivity.
Qed.

(** The buttons drawn from the state a workspace-switch event leaves. *)
Lemma workspace_event_button (sh : Shell) (log : list string)
  (md : WorkspaceModule) (id_text : string) (buttons : list Button) (d : Button) :
  1 <= atoi id_text <= 9 ->
  List.length buttons = 9%nat ->
  let md' := fst (handle_event md ("workspace>>" ++ id_text) sh log) in
  let b' := nth (Z.to_nat (atoi id_text - 1)) (update_button_states md' buttons) d in
  this_monitor_workspace md' = atoi id_text
  /\ user_focused_here md' = 1
  /\ button_visible b' = true
  /\ has_class "active" (button_classes b') = true
  /\ has_class "visible" (button_classes b') = false.
Proof.
  intros Hr Hlen md' b'. subst b' md'.
  rewrite handle_workspace. cbn [fst].
  assert (Hin : in_range (atoi id_text) = true) by (apply in_range_spec; exact Hr).
  rewrite Hin.
  set (md' := set_user_focused_here 1 (set_this_monitor_workspace (atoi id_text) md)).
  assert (Hshow : should_show_workspace md' (Z.of_nat (Z.to_nat (atoi id_text - 1))) = 1).
  { rewrite Z2Nat.id by lia. unfold should_show_workspace.
    replace (atoi id_text - 1 + 1) with (atoi id_text) by lia.
    subst md'. cbn [this_monitor_workspace set_user_focused_here set_this_monitor_workspace].
    rewrite Z.eqb_refl. reflexivity. }
  unfold update_button_states.
  rewrite (update_buttons_from_nth md' buttons 0 (Z.to_nat (atoi id_text - 1)) d) by lia.
  rewrite Z.add_0_l.
  destruct (update_button_shown md' _ (nth (Z.to_nat (atoi id_text - 1)) buttons d) Hshow)
    as (Hv & Ha & Hvis & _).
  rewrite Hv, Ha, Hvis, Z2Nat.id by lia.
  replace (atoi id_text - 1 + 1) with (atoi id_text) by lia.
  subst md'.
  cbn [this_monitor_workspace user_focused_here set_user_focused_here set_this_monitor_workspace].
  rewrite Z.eqb_refl. repeat split.
Qed.

(** The buttons drawn from the state a focus change to another monitor
    leaves. *)
Lemma focusedmon_event_button (sh : Shell) (log : list string)
  (md : WorkspaceModule) (mon id_text : string) (buttons : list Button) (d : Button) :
  has_char ","%char mon = false ->
  (String.length mon < 64)%nat ->
  cstring mon -> cstring (monitor_name md) ->
  mon <> monitor_name md ->
  1 <= this_monitor_workspace md <= 9 ->
  List.length buttons = 9%nat ->
  let md' := fst (handle_event md ("focusedmon>>" ++ mon ++ "," ++ id_text) sh log) in
  let b' := nth (Z.to_nat (this_monitor_workspace md - 1))
              (update_button_states md' buttons) d in
  this_monitor_workspace md' = this_monitor_workspace md
  /\ button_visible b' = true
  /\ has_class "visible" (button_classes b') = true
  /\ has_class "active" (button_classes b') = false.
Proof.
  intros Hcomma Hlen Hmon Hname Hne Hr Hbuttons md' b'. subst b' md'.
  rewrite (handle_focusedmon sh log md mon id_text Hcomma Hlen).
  rewrite (strcmp_neq _ _ Hmon Hname Hne).
  cbn [fst user_focused_here set_user_focused_here c_bool truthy Z.eqb negb andb].
  set (md' := set_user_focused_here 0 md).
  set (n := Z.to_nat (this_monitor_workspace md - 1)).
  assert (Hn : Z.of_nat n + 1 = this_monitor_workspace md') by (subst n md'; cbn; lia).
  assert (Hshow : should_show_workspace md' (Z.of_nat n) = 1).
  { unfold should_show_workspace. rewrite Hn, Z.eqb_refl. reflexivity. }
  unfold update_button_states.
  rewrite (update_buttons_from_nth md' buttons 0 n d) by (subst n; lia).
  rewrite Z.add_0_l.
  destruct (update_button_shown md' _ (nth n buttons d) Hshow) as (Hv & Ha & Hvis & _).
  rewrite Hv, Ha, Hvis, Hn, Z.eqb_refl. repeat split.
Qed.

(** X15.  When the answers of the window manager depend on the query
    alone, an event delivered twice in a row leaves the module as the
    first delivery left it. *)
Theorem repeated_event_changes_nothing (f : string -> option string)
  (md : WorkspaceModule) (event : string) (log log' : list string) :
  fst (handle_event (fst (handle_event md event (answers f) log)) event (answers f) log')
  = fst (handle_event md event (answers f) log).
Proof.
  assert (Hcounts : forall m l l',
    fst (refresh_window_counts (fst (refresh_window_counts m (answers f) l)) (answers f) l')
    = fst (refresh_window_counts m (answers f) l)).
  { intros m l l'. rewrite !refresh_window_counts_run. reflexivity. }
  assert (Howners : forall m l l',
    fst (refresh_workspace_monitors (fst (refresh_workspace_monitors m (answers f) l))
           (answers f) l')
    = fst (refresh_workspace_monitors m (answers f) l)).
  { intros m l l'. rewrite !refresh_workspace_monitors_run. reflexivity. }
  unfold handle_event.
  destruct (strncmp event "workspace>>" 11 =? 0).
  { destruct (in_range _); reflexivity. }
  destruct (strncmp event "focusedmon>>" 12 =? 0).
  { destruct (strchr _ _) as [comma|]; [|reflexivity].
    destruct (_ <? 64)%nat; [|reflexivity].
    cbn [user_focused_here set_user_focused_here].
    destruct (strcmp _ (monitor_name md) =? 0) eqn:E;
      destruct (in_range _) eqn:R;
      cbn [c_bool truthy Z.eqb negb andb fst io_ret monitor_name user_focused_here
           set_user_focused_here set_this_monitor_workspace];
      rewrite ?E, ?R; reflexivity. }
  repeat match goal with
    | |- context [if ?c then _ else _] => destruct c
    end;
    try apply Hcounts; try apply Howners.
  reflexivity.
Qed.

Lemma starts_with_split (key event : string) :
  starts_with key event = true -> exists payload, event = key ++ payload.
Proof.
  revert event. induction key as [|a key IH]; intros event H; [exists event; reflexivity|].
  destruct event as [|b event]; [discriminate|]. cbn [starts_with] in H.
  apply andb_true_iff in H. destruct H as [Hab Hrest].
  apply Ascii.eqb_eq in Hab. subst b. destruct (IH event Hrest) as [p Hp].
  exists p. rewrite Hp. reflexivity.
Qed.

(** The events that make [handle_event] list the windows, and those that
    make it list the workspaces. *)
Definition window_event (event : string) : Prop :=
  starts_with "activespecial>>" event = true \/ starts_with "openwindow>>" event = true
  \/ starts_with "closewindow>>" event = true \/ starts_with "movewindow>>" event = true.

Definition topology_event (event : string) : Prop :=
  starts_with "createworkspace>>" event = true
  \/ starts_with "destroyworkspace>>" event = true
  \/ starts_with "moveworkspace>>" event = true.

Lemma handle_window_event (sh : Shell) (log : list string) (md : WorkspaceModule)
  (event : string) :
  window_event event -> handle_event md event sh log = refresh_window_counts md sh log.
Proof.
  intros [H | [H | [H | H]]]; apply starts_with_split in H; destruct H as [p ->]; reflexivity.
Qed.

Lemma handle_topology_event (sh : Shell) (log : list string) (md : WorkspaceModule)
  (event : string) :
  topology_event event -> handle_event md event sh log = refresh_workspace_monitors md sh log.
Proof.
  intros [H | [H | H]]; apply starts_with_split in H; destruct H as [p ->]; reflexivity.
Qed.

Lemma nth_zero_counts (n : nat) : nth n zero_counts 0 = 0.
Proof. unfold zero_counts. do 10 (destruct n as [|n]; [reflexivity|]). destruct n; reflexivity. Qed.

Lemma nth_zero_names (n : nat) : nth n zero_names EmptyString = EmptyString.
Proof. unfold zero_names. do 10 (destruct n as [|n]; [reflexivity|]). destruct n; reflexivity. Qed.

(** X16.  When [hyprctl] cannot be run, a window event (open, close,
    move, special toggle) empties both count tables, so that with
    [show-empty] off every button but the one of the active workspace is
    hidden at the next update; and a topology event (create, destroy,
    move of a workspace) empties the table of owners, so that every slot
    passes the monitor filter. *)
Theorem events_without_hyprctl (sh : Shell) (log : list string) (md : WorkspaceModule)
  (event : string) (ws_index : Z) :
  let md' := fst (handle_event md event sh log) in
  (window_event event -> sh log cmd_clients = None ->
   workspace_windows md' = zero_counts /\ special_windows md' = zero_counts
   /\ (ws_index + 1 <> this_monitor_workspace md -> show_empty md = 0 ->
       should_show_workspace md' ws_index = 0))
  /\ (topology_event event -> sh log cmd_workspaces = None ->
      workspace_monitor md' = zero_names /\ on_this_monitor md' ws_index = 1).
Proof.
  cbv zeta. split.
  - intros Hev Hfail. rewrite (handle_window_event sh log md event Hev).
    rewrite refresh_window_counts_run, Hfail. cbn [fst counted snd
      workspace_windows special_windows set_special_windows set_workspace_windows].
    split; [reflexivity|]. split; [reflexivity|].
    intros Hother Hempty. unfold should_show_workspace.
    cbn [this_monitor_workspace show_empty workspace_windows special_windows
         set_special_windows set_workspace_windows].
    rewrite !nth_zero_counts, Hempty.
    apply Z.eqb_neq in Hother. rewrite Hother.
    cbn [c_bool truthy Z.eqb Z.gtb Z.compare negb andb].
    destruct (negb (truthy (on_this_monitor _ ws_index))); reflexivity.
  - intros Hev Hfail. rewrite (handle_topology_event sh log md event Hev).
    rewrite refresh_workspace_monitors_run, Hfail.
    cbn [fst owners workspace_monitor set_workspace_monitor].
    split; [reflexivity|]. unfold on_this_monitor.
    cbn [workspace_monitor set_workspace_monitor].
    rewrite nth_zero_names. change (is_empty_str EmptyString) with true.
    rewrite !orb_true_r. reflexivity.
Qed.

Lemma events_without_hyprctl_witness :
  should_show_workspace
    (fst (handle_event (set_workspace_windows [2; 0; 1; 0; 0; 4; 0; 0; 0] sample_module)
            "closewindow>>55d2f8a0" silent_shell [])) 0 = 0
  /\ should_show_workspace
       (set_workspace_windows [2; 0; 1; 0; 0; 4; 0; 0; 0] sample_module) 0 = 1.
Proof.
  split; [|reflexivity].
  apply (proj1 (events_without_hyprctl silent_shell []
                  (set_workspace_windows [2; 0; 1; 0; 0; 4; 0; 0; 0] sample_module)
                  "closewindow>>55d2f8a0" 0)).
  - right. right. left. reflexivity.
  - reflexivity.
  - discriminate.
  - reflexivity.
Defined.

(* ===================================================================== *)
(** ** The reader, once more *)
(* ===================================================================== *)

(** The lines of a chunk that are not empty. *)
Definition nonempty_lines (ls : list string) : list string :=
  filter (fun l => negb (is_empty_str l)) ls.

Lemma chunk_events_join_plain (ls : list string) :
  Forall plain ls -> chunk_events (join_lines ls) = nonempty_lines ls.
Proof.
  induction 1 as [|l ls [Hlf Hc] _ IH]; [reflexivity|].
  cbn [join_lines nonempty_lines filter].
  rewrite (chunk_events_line _ _ Hlf), IH.
  destruct (negb (is_empty_str l)); reflexivity.
Qed.

Lemma join_lines_cstring (ls : list string) : Forall plain ls -> cstring (join_lines ls).
Proof.
  unfold cstring. induction 1 as [|l ls [Hlf Hc] _ IH]; [reflexivity|].
  cbn [join_lines]. rewrite has_char_app, Hc. cbn [has_char orb]. exact IH.
Qed.

Lemma fold_handle_event_run (sh : Shell) (events : list string) :
  forall (md : WorkspaceModule) (log : list string),
    fold_left (fun s event => handle_event (fst s) event sh (snd s)) events (md, log)
    = run_events events md sh log.
Proof.
  induction events as [|event events IH]; intros md log; cbn [fold_left run_events fst snd].
  - reflexivity.
  - rewrite io_bind_run. destruct (handle_event md event sh log) as [md' log'].
    apply IH.
Qed.

Lemma c_str_app_nul (a b : string) : cstring a -> c_str (a ++ String NUL b) = a.
Proof.
  unfold cstring. induction a as [|c a IH]; intros H; [reflexivity|].
  cbn [has_char] in H. apply orb_false_iff in H. destruct H as [Hc Ha].
  cbn [append c_str]. rewrite Hc, (IH Ha). reflexivity.
Qed.

Lemma take_app_more (n : nat) (a b : string) :
  (String.length a <= n)%nat ->
  take n (a ++ b) = a ++ take (n - String.length a) b.
Proof.
  revert n. induction a as [|c a IH]; intros n Hn; cbn [append String.length].
  - rewrite Nat.sub_0_r. reflexivity.
  - destruct n as [|n]; [simpl in Hn; lia|]. cbn [take String.length] in *.
    rewrite IH by lia. reflexivity.
Qed.

(* ===================================================================== *)
(** ** Further properties of the reader *)
(* ===================================================================== *)

(** X17.  A chunk made of complete lines only has the effect of its
    non-empty lines applied as events in their order of arrival, empty
    lines being skipped; the redisplay flag is raised exactly when one
    line at least is not empty. *)
Theorem complete_lines_are_the_events (sh : Shell) (ls : list string)
  (md : WorkspaceModule) (log : list string) :
  Forall plain ls ->
  let text := join_lines ls in
  process_chunk sh (Z.of_nat (String.length text)) text (md, log) =
  (run_events (nonempty_lines ls) md sh log,
   match nonempty_lines ls with [] => 0 | _ => 1 end).
Proof.
  intros Hls text. subst text.
  rewrite process_chunk_calls, (chunk_text_all _ (join_lines_cstring ls Hls)).
  rewrite (chunk_events_join_plain ls Hls), fold_handle_event_run. reflexivity.
Qed.

Lemma complete_lines_are_the_events_witness :
  process_chunk silent_shell 33
    (join_lines ["workspace>>4"; EmptyString; "focusedmon>>DP-2,5"]) (sample_module, [])
  = (run_events ["workspace>>4"; "focusedmon>>DP-2,5"] sample_module silent_shell [], 1).
Proof.
  apply (complete_lines_are_the_events silent_shell
           ["workspace>>4"; EmptyString; "focusedmon>>DP-2,5"] sample_module []).
  repeat constructor.
Defined.

(** X18.  Nothing that follows a NUL byte in the bytes of a read reaches
    the interpreter: the chunk is handled as if the read had stopped
    before that byte. *)
Theorem bytes_after_nul_are_dropped (sh : Shell) (bytes : Z) (before after : string)
  (st : WorkspaceModule * list string) :
  cstring before ->
  Z.of_nat (String.length before) <= bytes ->
  process_chunk sh bytes (before ++ String NUL after) st =
  process_chunk sh (Z.of_nat (String.length before)) before st.
Proof.
  intros Hc Hlen. unfold process_chunk. f_equal.
  rewrite (chunk_text_all _ Hc). unfold chunk_text.
  rewrite take_app_more by lia.
  destruct (Z.to_nat bytes - String.length before)%nat as [|k] eqn:E.
  - cbn [take]. rewrite string_app_nil. apply c_str_cstring, Hc.
  - cbn [take]. apply c_str_app_nul, Hc.
Qed.

Lemma bytes_after_nul_are_dropped_witness :
  process_chunk silent_shell 30
    ("workspace>>4" ++ String LF "work" ++ String NUL ("space>>7" ++ String LF EmptyString))
    (sample_module, [])
  = process_chunk silent_shell 17 ("workspace>>4" ++ String LF "work") (sample_module, []).
Proof.
  apply (bytes_after_nul_are_dropped silent_shell 30 ("workspace>>4" ++ String LF "work")
           ("space>>7" ++ String LF EmptyString) (sample_module, [])).
  - reflexivity.
  - simpl. lia.
Defined.

(* ===================================================================== *)
(** ** From a read to the buttons *)
(* ===================================================================== *)

(** A read made of complete lines whose last line is the event [last]:
    the flag is raised, and the state is the one [last] leaves when
    applied after the earlier lines. *)
Lemma process_chunk_last_event (sh : Shell) (earlier : list string) (last : string)
  (md : WorkspaceModule) (log : list string) :
  Forall plain earlier -> event_line last ->
  let text := join_lines (earlier ++ [last]) in
  let before := run_events (nonempty_lines earlier) md sh log in
  process_chunk sh (Z.of_nat (String.length text)) text (md, log)
  = (handle_event (fst before) last sh (snd before), 1).
Proof.
  intros Hearlier [Hne [Hlf Hc]] text before. subst text before.
  assert (Hall : Forall plain (earlier ++ [last])).
  { apply Forall_app. split; [exact Hearlier|]. constructor; [split; assumption | constructor]. }
  rewrite process_chunk_calls, (chunk_text_all _ (join_lines_cstring _ Hall)).
  rewrite (chunk_events_join_plain _ Hall). unfold nonempty_lines. rewrite filter_app.
  cbn [filter]. rewrite (is_empty_str_false _ Hc Hne). cbn [negb].
  rewrite fold_handle_event_run, run_events_app.
  destruct (filter _ earlier); reflexivity.
Qed.

(** X13.  When a workspace-switch event whose id lies in 1..9 is the
    last line of a read made of complete lines, then whatever the earlier
    lines of the read did, the read raises the redisplay flag and leaves
    that workspace as the active one with the focus here; a button update
    on the state the read leaves shows the button of that workspace with
    the style [active] and without the style [visible], whatever the
    filters and the window counts. *)
Theorem workspace_switch_lights_button (sh : Shell) (log : list string)
  (md : WorkspaceModule) (earlier : list string) (id_text : string)
  (buttons : list Button) (d : Button) :
  Forall plain earlier ->
  plain id_text ->
  1 <= atoi id_text <= 9 ->
  List.length buttons = 9%nat ->
  let text := join_lines (earlier ++ ["workspace>>" ++ id_text]) in
  let r := process_chunk sh (Z.of_nat (String.length text)) text (md, log) in
  let md' := fst (fst r) in
  let b' := nth (Z.to_nat (atoi id_text - 1)) (update_button_states md' buttons) d in
  snd r = 1
  /\ this_monitor_workspace md' = atoi id_text
  /\ user_focused_here md' = 1
  /\ button_visible b' = true
  /\ has_class "active" (button_classes b') = true
  /\ has_class "visible" (button_classes b') = false.
Proof.
  intros Hearlier [Hlf Hc] Hr Hlen text r md' b'. subst b' md' r text.
  assert (Hline : event_line ("workspace>>" ++ id_text)).
  { split; [discriminate|]. split; [|unfold cstring]; rewrite has_char_app;
      [rewrite Hlf | rewrite Hc]; reflexivity. }
  rewrite (process_chunk_last_event sh earlier _ md log Hearlier Hline).
  cbn [fst snd]. split; [reflexivity|].
  apply workspace_event_button; assumption.
Qed.

Lemma workspace_switch_lights_button_witness :
  let text := join_lines (["focusedmon>>DP-2,4"] ++ ["workspace>>" ++ "5"]) in
  let md' := fst (fst (process_chunk silent_shell (Z.of_nat (String.length text)) text
                         (sample_module, []))) in
  should_show_workspace sample_module 4 = 0
  /\ has_class "active"
       (button_classes (nth (Z.to_nat (atoi "5" - 1)) (update_button_states md' fresh_buttons)
                          (mkButton false [] false))) = true.
Proof.
  split; [reflexivity|].
  assert (Hearlier : Forall plain ["focusedmon>>DP-2,4"])
    by (constructor; [split; reflexivity | constructor]).
  assert (Hid : plain "5") by (split; reflexivity).
  assert (Hr : 1 <= atoi "5" <= 9) by (vm_compute; split; discriminate).
  exact (proj1 (proj2 (proj2 (proj2 (proj2
           (workspace_switch_lights_button silent_shell [] sample_module
              ["focusedmon>>DP-2,4"] "5" fresh_buttons (mkButton false [] false)
              Hearlier Hid Hr eq_refl)))))).
Defined.

(** X14.  When a focus change to another monitor is the last line of a
    read made of complete lines, the read raises the redisplay flag and
    keeps the active workspace that the earlier lines of the read left;
    a button update on the state the read leaves shows the button of that
    workspace with the style [visible] and without the style [active]. *)
Theorem focus_elsewhere_dims_button (sh : Shell) (log : list string)
  (md : WorkspaceModule) (earlier : list string) (mon id_text : string)
  (buttons : list Button) (d : Button) :
  Forall plain earlier ->
  has_char ","%char mon = false ->
  (String.length mon < 64)%nat ->
  plain mon -> plain id_text ->
  cstring (monitor_name md) ->
  mon <> monitor_name md ->
  1 <= this_monitor_workspace md <= 9 ->
  List.length buttons = 9%nat ->
  let before := fst (run_events (nonempty_lines earlier) md sh log) in
  let text := join_lines (earlier ++ ["focusedmon>>" ++ mon ++ "," ++ id_text]) in
  let r := process_chunk sh (Z.of_nat (String.length text)) text (md, log) in
  let md' := fst (fst r) in
  let b' := nth (Z.to_nat (this_monitor_workspace before - 1))
              (update_button_states md' buttons) d in
  snd r = 1
  /\ 1 <= this_monitor_workspace before <= 9
  /\ this_monitor_workspace md' = this_monitor_workspace before
  /\ button_visible b' = true
  /\ has_class "visible" (button_classes b') = true
  /\ has_class "active" (button_classes b') = false.
Proof.
  intros Hearlier Hcomma Hlen [Hmlf Hmc] [Hilf Hic] Hname Hne Hr Hbuttons
         before text r md' b'.
  subst b' md' r text.
  assert (Hline : event_line ("focusedmon>>" ++ mon ++ "," ++ id_text)).
  { split; [discriminate|]. split; [|unfold cstring]; rewrite !has_char_app;
      [rewrite Hmlf, Hilf | rewrite Hmc, Hic]; reflexivity. }
  rewrite (process_chunk_last_event sh earlier _ md log Hearlier Hline).
  cbn [fst snd]. fold before.
  pose proof (run_events_in_range sh (nonempty_lines earlier) md log Hr) as Hin.
  pose proof (run_events_name sh (nonempty_lines earlier) md log) as Hsame.
  fold before in Hin, Hsame.
  split; [reflexivity|]. split; [exact Hin|].
  apply focusedmon_event_button; try assumption; rewrite Hsame; assumption.
Qed.

Lemma focus_elsewhere_dims_button_witness :
  let text := join_lines (["workspace>>4"] ++ ["focusedmon>>" ++ "DP-2" ++ "," ++ "5"]) in
  let md' := fst (fst (process_chunk silent_shell (Z.of_nat (String.length text)) text
                         (sample_module, []))) in
  has_class "visible"
    (button_classes (nth 3 (update_button_states md' fresh_buttons) (mkButton false [] false)))
  = true.
Proof.
  assert (Hearlier : Forall plain ["workspace>>4"])
    by (constructor; [split; reflexivity | constructor]).
  assert (Hlen : (String.length "DP-2" < 64)%nat) by (simpl; lia).
  assert (Hmon : plain "DP-2") by (split; reflexivity).
  assert (Hid : plain "5") by (split; reflexivity).
  assert (Hne : "DP-2" <> monitor_name sample_module) by discriminate.
  assert (Hr : 1 <= this_monitor_workspace sample_module <= 9) by (simpl; lia).
  exact (proj1 (proj2 (proj2 (proj2 (proj2
           (focus_elsewhere_dims_button silent_shell [] sample_module ["workspace>>4"]
              "DP-2" "5" fresh_buttons (mkButton false [] false)
              Hearlier eq_refl Hlen Hmon Hid eq_refl Hne Hr eq_refl)))))).
Defined.

(** *** The protocol of the thread *)

(** Where the thread stands in its protocol; [fd] is the descriptor its
    last connection attempt returned. *)
Inductive Stage : Type :=
| Boot                  (* nothing done yet *)
| Reporting             (* the first connection attempt failed *)
| Top (fd : Z)          (* at the head of the loop *)
| WantRead (fd : Z)     (* the flag was set at the head of the loop *)
| Got (fd : Z)          (* a read gave bytes *)
| Failed (fd : Z)       (* a read gave none *)
| Retry1 (fd : Z)       (* the flag was still set after the failed read *)
| Retry2                (* the socket is closed *)
| Retry3                (* the pause is over *)
| Leaving (fd : Z)      (* the flag was clear at the head of the loop *)
| Done.                 (* nothing more to do *)

(** What the thread may do in a stage. *)
Definition stage_allows (q : Stage) {T : Type} (e : ipcE T) : Prop :=
  match q, e with
  | Boot, Connect => True
  | Reporting, LogError _ => True
  | Top _, Running => True
  | WantRead fd, Read fd' count => fd' = fd /\ count = 2047
  | Got _, IdleAdd => True
  | Got _, Running => True
  | Failed _, Running => True
  | Retry1 fd, Close fd' => fd' = fd
  | Retry2, Sleep seconds => seconds = 1
  | Retry3, Connect => True
  | Leaving fd, Close fd' => fd' = fd
  | _, _ => False
  end.

(** The stage after an event and its answer. *)
Definition stage_next (q : Stage) {T : Type} (e : ipcE T) : T -> Stage :=
  match e in ipcE T return T -> Stage with
  | Connect => fun fd =>
      match q with
      | Boot => if fd <? 0 then Reporting else Top fd
      | _ => Top fd
      end
  | Running => fun flag =>
      match q with
      | Top fd | Got fd => if truthy flag then WantRead fd else Leaving fd
      | Failed fd => if truthy flag then Retry1 fd else Top fd
      | _ => q
      end
  | Read fd _ => fun answer => if fst answer <=? 0 then Failed fd else Got fd
  | Close _ => fun _ => match q with Retry1 _ => Retry2 | _ => Done end
  | Sleep _ => fun _ => Retry3
  | IdleAdd => fun _ => match q with Got fd => Top fd | _ => q end
  | LogError _ => fun _ => Done
  end.

(** One step of the protocol: the thread returns only when it is done,
    performs only what its stage allows, and reaches its return or its
    next event after finitely many silent steps, so that in no stage can
    it fall silent for ever. *)
Inductive protocolF (r : Stage -> itree ipcE ReaderState -> Prop) (q : Stage)
  : itree' ipcE ReaderState -> Prop :=
| protocol_ret (st : ReaderState) : q = Done -> protocolF r q (RetF st)
| protocol_tau (t : itree ipcE ReaderState) :
    protocolF r q (observe t) -> protocolF r q (TauF t)
| protocol_vis (T : Type) (e : ipcE T) (k : T -> itree ipcE ReaderState) :
    stage_allows q e ->
    (forall a : T, r (stage_next q e a) (k a)) ->
    protocolF r q (VisF e k).

Definition protocol_ (r : Stage -> itree ipcE ReaderState -> Prop) (q : Stage)
  (t : itree ipcE ReaderState) : Prop :=
  protocolF r q (observe t).

(** The thread follows the protocol for ever, from stage [q] on,
    whatever its environment answers. *)
Definition follows_protocol (q : Stage) (t : itree ipcE ReaderState) : Prop :=
  paco2 protocol_ bot2 q t.

Lemma protocol_mon : monotone2 protocol_.
Proof.
  intros q t r r' H LE. unfold protocol_ in *.
  induction H; constructor; auto.
Qed.
#[local] Hint Resolve protocol_mon : paco.

Lemma process_chunk_socket (sh : Shell) (bytes : Z) (data : string) (st : ReaderState) :
  socket_fd (fst (fst (process_chunk sh bytes data st))) = socket_fd (fst st).
Proof.
  rewrite process_chunk_calls. cbn [fst].
  generalize (chunk_events (chunk_text bytes data)). intros events. revert st.
  induction events as [|event events IH]; intros st; cbn [fold_left]; [reflexivity|].
  rewrite IH. cbn [fst].
  destruct (handle_event_step sh (snd st) (fst st) event) as ((_ & _ & _ & Hfd) & _).
  exact Hfd.
Qed.

Ltac next_step := left; pfold; unfold protocol_; expose.

(** The loop from its head or after a read that gave bytes.  The turns
    are separated by one silent step, where the proof goes round. *)
Lemma reader_loop_protocol (sh : Shell) (r : Stage -> itree ipcE ReaderState -> Prop) :
  forall (st : ReaderState) (q : Stage) (t : itree ipcE ReaderState),
    q = Top (socket_fd (fst st)) \/ q = Got (socket_fd (fst st)) ->
    observe t = TauF (reader_loop sh st) ->
    paco2 protocol_ r q t.
Proof.
  pcofix CIH. intros st q t Hq Ht.
  pfold. unfold protocol_. rewrite Ht. apply protocol_tau.
  unfold reader_loop. cbn.
  constructor; [destruct Hq as [-> | ->]; exact I|]. intros flag.
  assert (Hnext : stage_next q Running flag =
                  if truthy flag then WantRead (socket_fd (fst st))
                  else Leaving (socket_fd (fst st)))
    by (destruct Hq as [-> | ->]; reflexivity).
  rewrite Hnext. clear Hnext Hq q.
  next_step.
  destruct (truthy flag).
  - cbn. constructor; [split; reflexivity|]. intros [bytes data].
    cbn [fst snd stage_next].
    destruct (bytes <=? 0) eqn:Hbytes.
    + next_step. cbn [fst snd]. rewrite Hbytes. cbn.
      constructor; [exact I|]. intros still.
      cbn [stage_next].
      destruct (truthy still) eqn:Hstill.
      * next_step. rewrite Hstill. cbn.
        constructor; [reflexivity|]. intros [].
        next_step. cbn. constructor; [reflexivity|]. intros [].
        next_step. cbn. constructor; [exact I|]. intros fd.
        right. apply (CIH (set_socket_fd fd (fst st), snd st)); [left|]; reflexivity.
      * right. apply (CIH st); [left; reflexivity|].
        expose. rewrite Hstill. reflexivity.
    + pose proof (process_chunk_socket sh bytes data st) as Hfd.
      destruct (truthy (snd (process_chunk sh bytes data st))) eqn:Hredisplay.
      * next_step. cbn [fst snd]. rewrite Hbytes, Hredisplay. cbn.
        constructor; [exact I|]. intros [].
        right. apply (CIH (fst (process_chunk sh bytes data st)));
          [left; cbn [stage_next]; rewrite Hfd|]; reflexivity.
      * right. apply (CIH (fst (process_chunk sh bytes data st)));
          [right; rewrite Hfd; reflexivity|].
        expose. cbn [fst snd]. rewrite Hbytes, Hredisplay. reflexivity.
  - cbn. constructor; [reflexivity|]. intros [].
    next_step. cbn. constructor. reflexivity.
Qed.

Lemma protocolF_inv (r : Stage -> itree ipcE ReaderState -> Prop) (q : Stage)
  (ot : itree' ipcE ReaderState) :
  protocolF r q ot ->
  match ot with
  | RetF _ => q = Done
  | TauF t => protocolF r q (observe t)
  | VisF e k => stage_allows q e /\ forall a, r (stage_next q e a) (k a)
  end.
Proof. destruct 1; auto. Qed.

Lemma follows_protocol_inv (q : Stage) (t : itree ipcE ReaderState) :
  follows_protocol q t ->
  match observe t with
  | RetF _ => q = Done
  | TauF t' => follows_protocol q t'
  | VisF e k => stage_allows q e /\ forall a, follows_protocol (stage_next q e a) (k a)
  end.
Proof.
  intros H. punfold H. apply protocolF_inv in H.
  destruct (observe t) as [st | t' | T e k].
  - exact H.
  - pfold. exact H.
  - destruct H as [Hall Hnext]. split; [exact Hall|].
    intros a. destruct (Hnext a) as [H | []]. exact H.
Qed.

(** A thread that falls silent for ever follows no protocol. *)
Lemma silence_breaks_protocol (r : Stage -> itree ipcE ReaderState -> Prop) (q : Stage)
  (ot : itree' ipcE ReaderState) :
  protocolF r q ot -> ot <> TauF ITree.spin.
Proof.
  induction 1 as [st Hq | t _ IH | T e k _ _]; intros Heq; try discriminate.
  injection Heq as ->. apply IH. reflexivity.
Qed.

(* ===================================================================== *)
(** ** Further properties of the reader thread *)
(* ===================================================================== *)

(** X19.  Whatever its environment answers, the reader thread follows
    one protocol and never falls silent: it reads and closes no
    descriptor but the one its last connection attempt returned; a read
    never asks for more than 2047 bytes; a redisplay is queued at most
    once after a read that gave bytes and never otherwise; a failed read
    found with the flag clear leads to no close, pause or reconnection;
    and once the flag is found clear at the head of the loop the thread
    does close its socket and return, doing nothing else. *)
Theorem reader_follows_protocol (sh : Shell) (st : ReaderState) :
  follows_protocol Boot (ipc_monitor_thread sh st).
Proof.
  unfold follows_protocol, ipc_monitor_thread.
  pfold. unfold protocol_. cbn.
  constructor; [exact I|]. intros fd.
  next_step. cbn [stage_next].
  destruct (fd <? 0).
  - cbn. constructor; [exact I|]. intros [].
    next_step. cbn. constructor. reflexivity.
  - pose proof (reader_loop_protocol sh bot2 (set_socket_fd fd (fst st), snd st) (Top fd)
                  (Tau (reader_loop sh (set_socket_fd fd (fst st), snd st)))
                  (or_introl eq_refl) eq_refl) as Hloop.
    punfold Hloop. apply protocolF_inv in Hloop. exact Hloop.
Qed.

(** The protocol does exclude a second redisplay for one read, a read
    on another descriptor, a thread that falls silent, in whatever stage,
    and a thread that finds the flag clear and returns without closing
    its socket. *)
Example protocol_excludes_double_redisplay (st : ReaderState) (fd : Z) :
  ~ follows_protocol (Got fd) (ITree.trigger IdleAdd ;; ITree.trigger IdleAdd ;; Ret st)
  /\ ~ follows_protocol (WantRead fd) (ITree.trigger (Read (fd + 1) 2047) ;; Ret st).
Proof.
  split; intros H; apply follows_protocol_inv in H; cbn in H.
  - destruct H as [_ H]. specialize (H tt). apply follows_protocol_inv in H.
    repeat rewrite observe_subst in H. cbn in H. destruct H as [H _]. exact H.
  - destruct H as [[H _] _]. lia.
Qed.

Example protocol_excludes_silence (q : Stage) (st : ReaderState) (fd : Z) :
  ~ follows_protocol q ITree.spin
  /\ ~ follows_protocol (Leaving fd) (Ret st).
Proof.
  split; intros H.
  - punfold H. apply silence_breaks_protocol in H. apply H. reflexivity.
  - apply follows_protocol_inv in H. cbn in H. discriminate.
Qed.

(* ===================================================================== *)
(** ** The reader across two reads *)
(* ===================================================================== *)

(** An environment that grants the connection on descriptor 3, keeps the
    flag set for two turns of the loop, and answers the two reads with
    the chunks [c1] and [c2], whole. *)
Definition two_reads (c1 c2 : string) : Script :=
  mkScript [3] [1; 1]
    [(Z.of_nat (String.length c1), c1); (Z.of_nat (String.length c2), c2)].

Lemma run_thread_step {R : Type} (fuel : nat) (env : Script) (t : itree ipcE R) :
  run_thread (Datatypes.S fuel) env t =
  match observe t with
  | RetF r => ([], Some r)
  | TauF t' => run_thread fuel env t'
  | VisF e k =>
      let '(a, env', o) := respond e env in
      let (trace, r) := run_thread fuel env' (k a) in
      (o :: trace, r)
  end.
Proof. reflexivity. Qed.

Lemma observe_bind {E : Type -> Type} {R S : Type} (t : itree E R) (k : R -> itree E S) :
  observe (ITree.bind t k) =
  observe (match observe t with
           | RetF r => k r
           | TauF t' => Tau (ITree.bind t' k)
           | VisF e h => Vis e (fun x => ITree.bind (h x) k)
           end).
Proof. reflexivity. Qed.

Lemma observe_iter {E : Type -> Type} {R I : Type} (body : I -> itree E (I + R)) (i : I) :
  observe (ITree.iter body i) =
  observe (ITree.bind (body i)
             (fun lr => match lr with
                        | inl l => Tau (ITree.iter body l)
                        | inr r => Ret r
                        end)).
Proof. reflexivity. Qed.

Lemma observe_iteration (sh : Shell) (st : ReaderState) :
  observe (reader_iteration sh st) =
  observe (ITree.bind (ITree.trigger Running)
             (fun running =>
                if truthy running then
                  ITree.bind (ITree.trigger (Read (socket_fd (fst st)) (2048 - 1)))
                    (fun answer =>
                       if fst answer <=? 0 then
                         ITree.bind (ITree.trigger Running)
                           (fun still_running =>
                              if truthy still_running then
                                ITree.trigger (Close (socket_fd (fst st))) ;;
                                ITree.trigger (Sleep 1) ;;
                                fd <- ITree.trigger Connect ;;
                                Ret (inl (set_socket_fd fd (fst st), snd st))
                              else Ret (inl st))
                       else
                         (if truthy (snd (process_chunk sh (fst answer) (snd answer) st))
                          then ITree.trigger IdleAdd else Ret tt) ;;
                         Ret (inl (fst (process_chunk sh (fst answer) (snd answer) st))))
                else Ret (inr st))).
Proof. reflexivity. Qed.

(** The next event of a run, and one step of it. *)
Ltac run_expose :=
  repeat (progress
            (cbv beta iota;
             repeat (rewrite observe_bind || rewrite observe_subst || rewrite observe_iter
                     || rewrite observe_iteration);
             cbn [observe _observe ITree.trigger]));
  cbn [respond connects flags reads hd tl fst snd socket_fd set_socket_fd].

Ltac run_step := rewrite run_thread_step; run_expose.

(** The run of the thread over two reads that both give bytes and both
    hold an event: what is observed, and the state the thread returns. *)
Lemma run_thread_two_reads (sh : Shell) (st : ReaderState) (c1 c2 : string) :
  let n1 := Z.of_nat (String.length c1) in
  let n2 := Z.of_nat (String.length c2) in
  let st0 : ReaderState := (set_socket_fd 3 (fst st), snd st) in
  let r1 := process_chunk sh n1 c1 st0 in
  let r2 := process_chunk sh n2 c2 (fst r1) in
  c1 <> EmptyString -> c2 <> EmptyString ->
  snd r1 = 1 -> snd r2 = 1 ->
  run_thread 30 (two_reads c1 c2) (ipc_monitor_thread sh st)
  = ([ObsConnect 3; ObsRunning 1; ObsRead 3 n1; ObsIdleAdd;
      ObsRunning 1; ObsRead 3 n2; ObsIdleAdd; ObsRunning 0; ObsClose 3],
     Some (fst r2)).
Proof.
  intros n1 n2 st0 r1 r2 Hc1 Hc2 Hr1 Hr2.
  assert (Hn1 : (n1 <=? 0) = false)
    by (subst n1; destruct c1; [congruence | apply Z.leb_gt; cbn [String.length]; lia]).
  assert (Hn2 : (n2 <=? 0) = false)
    by (subst n2; destruct c2; [congruence | apply Z.leb_gt; cbn [String.length]; lia]).
  pose proof (process_chunk_socket sh n1 c1 st0) as Hfd1.
  pose proof (process_chunk_socket sh n2 c2 (fst r1)) as Hfd2.
  fold r1 in Hfd1. fold r2 in Hfd2.
  subst r1 r2 st0 n1 n2. cbn [fst snd socket_fd set_socket_fd] in *.
  unfold ipc_monitor_thread, two_reads.
  run_step.
  run_step. change (3 <? 0) with false. run_expose.
  run_step. change (truthy 1) with true. run_expose.
  run_step. rewrite Hn1. run_expose. rewrite Hr1. change (truthy 1) with true. run_expose.
  run_step. run_step.
  run_step. change (truthy 1) with true. run_expose.
  run_step. rewrite Hn2. run_expose. rewrite Hr2. change (truthy 1) with true. run_expose.
  run_step. run_step.
  run_step. change (truthy 0) with false. run_expose.
  run_step.
  rewrite Hfd2, Hfd1. reflexivity.
Qed.

(** A chunk without terminator whose lines are known: its effect and
    its flag. *)
Lemma process_chunk_events (sh : Shell) (chunk : string) (events : list string)
  (st : ReaderState) :
  cstring chunk ->
  chunk_events chunk = events ->
  events <> [] ->
  process_chunk sh (Z.of_nat (String.length chunk)) chunk st =
  (fold_left (fun s event => handle_event (fst s) event sh (snd s)) events st, 1).
Proof.
  intros Hc Hevents Hne.
  rewrite process_chunk_calls, (chunk_text_all _ Hc), Hevents.
  destruct events; [congruence | reflexivity].
Qed.

(** C8, as written, fails: the reader keeps nothing between two reads.
    Were the cut line reassembled and handed over once, the state the
    thread returns after the two reads would be the state after that one
    call; with the line [workspace>>5] cut after its seventh character it
    is not: the switch to workspace 5 is lost. *)
Lemma split_line_reaches_handler_in_pieces :
  ~ (forall (sh : Shell) (md : WorkspaceModule) (log : list string) (l1 l2 : string),
        event_line l1 -> event_line l2 ->
        snd (run_thread 30 (two_reads l1 (l2 ++ String LF EmptyString))
               (ipc_monitor_thread sh (md, log)))
        = Some (handle_event (set_socket_fd 3 md) (l1 ++ l2) sh log)).
Proof.
  intros H.
  assert (H1 : event_line "workspa") by (split; [discriminate | split; reflexivity]).
  assert (H2 : event_line "ce>>5") by (split; [discriminate | split; reflexivity]).
  specialize (H silent_shell sample_module [] "workspa" "ce>>5" H1 H2).
  apply (f_equal (fun r => match r with
                           | Some st => this_monitor_workspace (fst st)
                           | None => 0
                           end)) in H.
  vm_compute in H. discriminate.
Qed.

(** What the cut costs, on the line loop alone. *)
Example split_workspace_event_lost :
  let after_first := fst (process_chunk silent_shell 7 "workspa" (sample_module, [])) in
  let after_second :=
    fst (process_chunk silent_shell 6 ("ce>>5" ++ String LF EmptyString) after_first) in
  this_monitor_workspace (fst after_second) = 3
  /\ this_monitor_workspace
       (fst (fst (process_chunk silent_shell 13 ("workspace>>5" ++ String LF EmptyString)
                    (sample_module, [])))) = 5.
Proof. split; reflexivity. Qed.

(** C8, amended.  Each read is split into lines on its own: when a chunk
    ends in the middle of an event line, the fragment before the cut is
    handed to the interpreter as the last line of that chunk, and the
    fragment after the cut as the first line of the next chunk.  Over two
    such reads the thread queues one redisplay per read and returns the
    state that the lines of the first chunk, the first fragment, the
    second fragment and the lines of the second chunk leave, each applied
    as an event of its own: the interpreter gets two calls with the two
    fragments and none with the reassembled line. *)
Theorem partial_line_handed_over_in_pieces (sh : Shell) (md : WorkspaceModule)
  (log : list string) (done more : list string) (l1 l2 : string) :
  Forall event_line done -> Forall event_line more ->
  event_line l1 -> event_line l2 ->
  let first_chunk := join_lines done ++ l1 in
  let second_chunk := l2 ++ String LF (join_lines more) in
  chunk_events first_chunk = (done ++ [l1])%list
  /\ chunk_events second_chunk = l2 :: more
  /\ (chunk_events first_chunk ++ chunk_events second_chunk)%list
     <> (done ++ [(l1 ++ l2)%string] ++ more)%list
  /\ run_thread 30 (two_reads first_chunk second_chunk) (ipc_monitor_thread sh (md, log))
     = ([ObsConnect 3;
         ObsRunning 1; ObsRead 3 (Z.of_nat (String.length first_chunk)); ObsIdleAdd;
         ObsRunning 1; ObsRead 3 (Z.of_nat (String.length second_chunk)); ObsIdleAdd;
         ObsRunning 0; ObsClose 3],
        Some (run_events (done ++ l1 :: l2 :: more) (set_socket_fd 3 md) sh log)).
Proof.
  intros Hdone Hmore [Hne1 [Hlf1 Hc1]] [Hne2 [Hlf2 Hc2]] first_chunk second_chunk.
  assert (Hfirst : chunk_events first_chunk = (done ++ [l1])%list).
  { unfold first_chunk. rewrite (chunk_events_join _ _ Hdone), (chunk_events_last _ Hlf1).
    rewrite (is_empty_str_false _ Hc1 Hne1). reflexivity. }
  assert (Hsecond : chunk_events second_chunk = l2 :: more).
  { unfold second_chunk. rewrite (chunk_events_line _ _ Hlf2).
    rewrite (is_empty_str_false _ Hc2 Hne2). cbn [negb app]. f_equal.
    pose proof (chunk_events_join more EmptyString Hmore) as Hjoin.
    rewrite string_app_nil in Hjoin.
    change (chunk_events EmptyString) with (@nil string) in Hjoin.
    rewrite app_nil_r in Hjoin. exact Hjoin. }
  assert (Hplain : forall ls, Forall event_line ls -> Forall plain ls).
  { intros ls Hls. eapply Forall_impl; [|exact Hls]. intros l [_ Hl]. exact Hl. }
  assert (Hcs1 : cstring first_chunk).
  { unfold first_chunk, cstring. rewrite has_char_app, Hc1.
    rewrite (join_lines_cstring done (Hplain _ Hdone)). reflexivity. }
  assert (Hcs2 : cstring second_chunk).
  { unfold second_chunk, cstring. rewrite has_char_app, Hc2. cbn [has_char orb].
    change (Ascii.eqb LF NUL) with false. cbn [orb].
    apply (join_lines_cstring more (Hplain _ Hmore)). }
  split; [exact Hfirst|]. split; [exact Hsecond|]. split.
  - rewrite Hfirst, Hsecond, <- app_assoc. intros Heq.
    apply app_inv_head in Heq. cbn [app] in Heq. inversion Heq as [[Hl Hrest]].
    assert (Hlen : String.length l1 = String.length (l1 ++ l2)) by (rewrite <- Hl; reflexivity).
    rewrite length_app in Hlen. destruct l2; [congruence | simpl in Hlen; lia].
  - pose proof (process_chunk_events sh first_chunk (done ++ [l1])%list
                  (set_socket_fd 3 md, log) Hcs1 Hfirst
                  ltac:(destruct done; discriminate)) as Hp1.
    pose proof (process_chunk_events sh second_chunk (l2 :: more)
                  (fst (process_chunk sh (Z.of_nat (String.length first_chunk)) first_chunk
                          (set_socket_fd 3 md, log))) Hcs2 Hsecond
                  ltac:(discriminate)) as Hp2.
    rewrite (run_thread_two_reads sh (md, log) first_chunk second_chunk).
    + cbn [fst snd]. rewrite Hp2, Hp1. cbn [fst].
      rewrite <- fold_left_app, <- app_assoc. cbn [app].
      rewrite fold_handle_event_run. reflexivity.
    + unfold first_chunk. intros Heq. apply (f_equal String.length) in Heq.
      rewrite length_app in Heq. destruct l1; [congruence | simpl in Heq; lia].
    + unfold second_chunk. destruct l2; [congruence | discriminate].
    + cbn [fst snd]. rewrite Hp1. reflexivity.
    + cbn [fst snd]. rewrite Hp2. reflexivity.
Qed.

Lemma partial_line_handed_over_in_pieces_witness :
  snd (run_thread 30
         (two_reads (join_lines ["openwindow>>a,1,kitty,sh"] ++ "workspa")
            ("ce>>5" ++ String LF (join_lines ["workspace>>2"])))
         (ipc_monitor_thread silent_shell (sample_module, [])))
  = Some (run_events ["openwindow>>a,1,kitty,sh"; "workspa"; "ce>>5"; "workspace>>2"]
            (set_socket_fd 3 sample_module) silent_shell []).
Proof.
  assert (Hline : forall l, l <> EmptyString -> has_char LF l = false ->
                            has_char NUL l = false -> event_line l).
  { intros l Hne Hlf Hc. split; [exact Hne | split; assumption]. }
  destruct (partial_line_handed_over_in_pieces silent_shell sample_module []
              ["openwindow>>a,1,kitty,sh"] ["workspace>>2"] "workspa" "ce>>5")
    as (_ & _ & _ & Hrun).
  - constructor; [apply Hline; [discriminate | reflexivity | reflexivity] | constructor].
  - constructor; [apply Hline; [discriminate | reflexivity | reflexivity] | constructor].
  - apply Hline; [discriminate | reflexivity | reflexivity].
  - apply Hline; [discriminate | reflexivity | reflexivity].
  - exact (f_equal snd Hrun).
Defined.

(* ===================================================================== *)
(** ** Start-up: configuration, colour, monitor detection *)
(* ===================================================================== *)

(** [parse_bool]; [None] is the null pointer. *)
Definition parse_bool (value : option string) : Z :=
  match value with
  | None => 0
  | Some v =>
      if strcmp v "true" =? 0 then 1
      else if strcmp v "false" =? 0 then 0
      else c_bool (negb (atoi v =? 0))
  end.

(** One entry of the configuration: a key and a JSON value, which may be
    the null pointer. *)
Definition ConfigEntry : Type := (string * option string)%type.

(** The removal of a closing double quote. *)
Fixpoint strip_quote (s : string) : string :=
  match s with
  | EmptyString => EmptyString
  | String c EmptyString => if Ascii.eqb c DQ then EmptyString else s
  | String c rest => String c (strip_quote rest)
  end.

Definition set_monitor_name (v : string) (m : WorkspaceModule) : WorkspaceModule :=
  mkModule (all_outputs m) (show_empty m) v (this_monitor_workspace m)
    (user_focused_here m) (workspace_windows m) (special_windows m)
    (workspace_monitor m) (socket_fd m).

(** The body of the configuration loop of [wbcffi_init].  The [output]
    branch reads the first character of the value: on a null value the
    module crashes, which is [None] here.  [strncpy] of 63 bytes into the
    zeroed 64 bytes of [monitor_name] keeps the first 63 characters of the
    value, up to its terminator. *)
Definition apply_entry (md : WorkspaceModule) (entry : ConfigEntry) : option WorkspaceModule :=
  let (key, value) := entry in
  if strcmp key "all-outputs" =? 0 then
    Some (set_config (parse_bool value) (show_empty md) md)
  else if strcmp key "show-empty" =? 0 then
    Some (set_config (all_outputs md) (parse_bool value) md)
  else if strcmp key "output" =? 0 then
    match value with
    | None => None
    | Some v =>
        let val := if Ascii.eqb (first_char v) DQ then advance 1 v else v in
        Some (set_monitor_name (strip_quote (take 63 (c_str val))) md)
    end
  else Some md.

Fixpoint configure (entries : list ConfigEntry) (md : WorkspaceModule)
  : option WorkspaceModule :=
  match entries with
  | [] => Some md
  | entry :: rest =>
      match apply_entry md entry with
      | Some md' => configure rest md'
      | None => None
      end
  end.

(** The colour of the dot: [fscanf] of one word of 15 characters at most. *)
Fixpoint scan_chars (n : nat) (s : string) : string :=
  match n, s with
  | Datatypes.S n', String c rest =>
      if isspace c then EmptyString else String c (scan_chars n' rest)
  | _, _ => EmptyString
  end.

Definition DEFAULT_TERTIARY_COLOR : string := "#adc8f8".

Definition cmd_tertiary_color : string :=
  "grep -oP '@define-color tertiary \K#[0-9a-fA-F]+' ~/.config/matugen/lmtt-colors.css 2>/dev/null".

(** [load_tertiary_color]: the new content of [tertiary_color]. *)
Definition load_tertiary_color : IO string :=
  (let* fp := popen cmd_tertiary_color in
   match fp with
   | Some out =>
       let word := scan_chars 15 (skip_spaces out) in
       match word with
       | EmptyString => io_ret (take 16 DEFAULT_TERTIARY_COLOR)
       | _ => io_ret (c_str word)
       end
   | None => io_ret (take 16 DEFAULT_TERTIARY_COLOR)
   end)%io.

(** The black circle U+25CF in UTF-8. *)
Definition BLACK_CIRCLE : string :=
  String "226"%char (String "151"%char (String "143"%char EmptyString)).

(** The markup of a dot label, through [snprintf] into 64 bytes. *)
Definition dot_markup (color : string) : string :=
  snprintf 64 ("<span font_size='5000' color='" ++ color ++ "'>" ++ BLACK_CIRCLE ++ "</span>").

(** The command of the monitor detection, for a bar [width] pixels wide. *)
Definition cmd_detect_monitor (width : Z) : string :=
  snprintf 256
    ("hyprctl layers -j | jq -r 'to_entries[] | .key as $mon | .value.levels | to_entries[] | .value[] | select(.namespace == "
     ++ quoted "waybar" ++ " and .w == " ++ fmt_d width ++ ") | $mon' 2>/dev/null | head -1").

Definition cmd_focused_monitor : string :=
  "hyprctl monitors -j | jq -r '.[] | select(.focused == true) | .name' 2>/dev/null".

(** [detect_monitor_idle], for a top-level window [width] pixels wide:
    the module and the buttons after it. *)
Definition detect_monitor_idle (width : Z) (md : WorkspaceModule) (buttons : list Button)
  : IO (WorkspaceModule * list Button) :=
  (if negb (is_empty_str (monitor_name md)) then
     let* md' := fetch_initial_state md in
     io_ret (md', update_button_states md' buttons)
   else
     let* name := popen_string (cmd_detect_monitor width) 64 in
     let* name' :=
       if is_empty_str name then popen_string cmd_focused_monitor 64 else io_ret name in
     let* md' := fetch_initial_state (set_monitor_name name' md) in
     io_ret (md', update_button_states md' buttons))%io.

(** [wbcffi_init] without its widgets: the configuration, the colour,
    the first snapshot and the first button update.  [None] is the crash
    on a null [output] value. *)
Definition wbcffi_init (entries : list ConfigEntry)
  : IO (option (WorkspaceModule * string * list Button)) :=
  match configure entries (initial_module 0 0 EmptyString) with
  | None => io_ret None
  | Some md0 =>
      (let* color := load_tertiary_color in
       let* md := fetch_initial_state md0 in
       io_ret (Some (md, color, update_button_states md fresh_buttons)))%io
  end.

(** [wbcffi_refresh]. *)
Definition wbcffi_refresh (md : WorkspaceModule) (buttons : list Button)
  : IO (WorkspaceModule * string * list Button) :=
  (let* color := load_tertiary_color in
   let* md' := fetch_initial_state md in
   io_ret (md', color, update_button_states md' buttons))%io.

Lemma configure_app (es1 es2 : list ConfigEntry) (md : WorkspaceModule) :
  configure (es1 ++ es2) md =
  match configure es1 md with
  | Some md1 => configure es2 md1
  | None => None
  end.
Proof.
  revert md. induction es1 as [|e es1 IH]; intros md; cbn [configure app]; [reflexivity|].
  destruct (apply_entry md e); [apply IH | reflexivity].
Qed.

Lemma strip_quote_app (name : string) :
  strip_quote (name ++ String DQ EmptyString) = name.
Proof.
  induction name as [|c name IH]; [reflexivity|].
  cbn [append]. cbn [strip_quote]. rewrite IH.
  destruct (name ++ String DQ EmptyString) eqn:E; [|reflexivity].
  destruct name; discriminate.
Qed.

Lemma strip_quote_none (name : string) :
  has_char DQ name = false -> strip_quote name = name.
Proof.
  induction name as [|c name IH]; [reflexivity|].
  cbn [has_char]. intros H. apply orb_false_iff in H. destruct H as [Hc Hn].
  cbn [strip_quote]. rewrite (IH Hn), Hc. destruct name; reflexivity.
Qed.

Lemma strip_quote_length (s : string) :
  (String.length (strip_quote s) <= String.length s)%nat.
Proof.
  induction s as [|c s IH]; [simpl; lia|].
  cbn [strip_quote]. destruct s as [|c' s]; [destruct (Ascii.eqb c DQ); simpl; lia|].
  cbn [String.length] in *. lia.
Qed.

Lemma some_eq {A : Type} (a b : A) : Some a = Some b -> a = b.
Proof. congruence. Qed.

Lemma parse_bool_bool (value : option string) : parse_bool value = 0 \/ parse_bool value = 1.
Proof.
  unfold parse_bool. destruct value as [v|]; [|auto].
  repeat match goal with |- context [if ?c then _ else _] => destruct c end; auto.
  destruct (atoi v =? 0); auto.
Qed.

(* ===================================================================== *)
(** ** Properties of the start-up *)
(* ===================================================================== *)

(** X20.  The [output] option comes back as it was written: for a
    monitor name of 63 characters at most, without double quote and
    without terminator, the JSON string of the name as the last [output]
    entry of the configuration makes that name the monitor name of the
    module, whatever entries come before it. *)
Theorem output_option_round_trip (entries : list ConfigEntry) (md md1 : WorkspaceModule)
  (name : string) :
  configure entries md = Some md1 ->
  cstring name ->
  has_char DQ name = false ->
  (String.length name <= 63)%nat ->
  configure (entries ++ [("output", Some (quoted name))]) md
  = Some (set_monitor_name name md1).
Proof.
  intros Hconf Hc Hq Hlen. rewrite configure_app, Hconf.
  cbn [configure apply_entry].
  change (strcmp "output" "all-outputs" =? 0) with false.
  change (strcmp "output" "show-empty" =? 0) with false.
  change (strcmp "output" "output" =? 0) with true.
  cbv iota. unfold quoted. cbn [first_char]. rewrite Ascii.eqb_refl.
  cbn [advance]. do 2 f_equal.
  rewrite c_str_cstring
    by (unfold cstring in *; rewrite has_char_app, Hc; reflexivity).
  rewrite take_app_more by exact Hlen.
  destruct (63 - String.length name)%nat as [|k].
  - cbn [take]. rewrite string_app_nil. apply strip_quote_none, Hq.
  - cbn [take]. destruct k; cbn [take]; apply strip_quote_app.
Qed.

Lemma output_option_round_trip_witness :
  configure [("all-outputs", Some "true"); ("output", Some (quoted "HDMI-A-1"))]
    (initial_module 0 0 EmptyString)
  = Some (set_monitor_name "HDMI-A-1" (initial_module 1 0 EmptyString)).
Proof.
  assert (Hlen : (String.length "HDMI-A-1" <= 63)%nat) by (simpl; lia).
  exact (output_option_round_trip [("all-outputs", Some "true")]
           (initial_module 0 0 EmptyString) (initial_module 1 0 EmptyString)
           "HDMI-A-1" eq_refl eq_refl eq_refl Hlen).
Defined.

(** X21.  Whatever the configuration entries, when the configuration
    loop of [wbcffi_init] ends, both options are 0 or 1, the monitor name
    has 63 characters at most, and nothing else of the fresh module has
    changed: entries with other keys are ignored. *)
Theorem configuration_is_bounded (entries : list ConfigEntry) (md : WorkspaceModule) :
  configure entries (initial_module 0 0 EmptyString) = Some md ->
  (all_outputs md = 0 \/ all_outputs md = 1)
  /\ (show_empty md = 0 \/ show_empty md = 1)
  /\ (String.length (monitor_name md) <= 63)%nat
  /\ md = initial_module (all_outputs md) (show_empty md) (monitor_name md).
Proof.
  assert (Hgen : forall es m m',
    configure es m = Some m' ->
    ((all_outputs m = 0 \/ all_outputs m = 1) /\ (show_empty m = 0 \/ show_empty m = 1)
     /\ (String.length (monitor_name m) <= 63)%nat
     /\ m = initial_module (all_outputs m) (show_empty m) (monitor_name m)) ->
    ((all_outputs m' = 0 \/ all_outputs m' = 1) /\ (show_empty m' = 0 \/ show_empty m' = 1)
     /\ (String.length (monitor_name m') <= 63)%nat
     /\ m' = initial_module (all_outputs m') (show_empty m') (monitor_name m'))).
  { induction es as [|[key value] es IH]; intros m m' Hc Hm; cbn [configure] in Hc.
    - inversion Hc; subst. exact Hm.
    - destruct (apply_entry m (key, value)) as [m1|] eqn:E; [|discriminate].
      apply (IH m1 m' Hc). clear IH Hc.
      destruct Hm as (A & B & C & D). unfold apply_entry in E.
      destruct m as [ao se mn tw uf ww sw wm fd]. unfold initial_module in D.
      cbn [all_outputs show_empty monitor_name] in A, B, C, D.
      injection D as -> -> -> -> -> ->.
      unfold set_config, set_monitor_name in E.
      cbn [all_outputs show_empty monitor_name this_monitor_workspace user_focused_here
           workspace_windows special_windows workspace_monitor socket_fd] in E.
      destruct (strcmp key "all-outputs" =? 0).
      { apply some_eq in E; subst m1. cbn [all_outputs show_empty monitor_name].
        repeat split; try assumption; try reflexivity. apply parse_bool_bool. }
      destruct (strcmp key "show-empty" =? 0).
      { apply some_eq in E; subst m1. cbn [all_outputs show_empty monitor_name].
        repeat split; try assumption; try reflexivity. apply parse_bool_bool. }
      destruct (strcmp key "output" =? 0).
      { destruct value as [v|]; [|discriminate]. apply some_eq in E; subst m1.
        cbn [all_outputs show_empty monitor_name].
        repeat split; try assumption; try reflexivity.
        eapply Nat.le_trans; [apply strip_quote_length | apply take_length]. }
      apply some_eq in E; subst m1. cbn [all_outputs show_empty monitor_name].
      repeat split; try assumption; reflexivity. }
  intros Hc. apply (Hgen entries _ md Hc).
  repeat split; auto. simpl. lia.
Qed.

Lemma configuration_is_bounded_witness :
  configure [("show-empty", Some "7"); ("format", Some "{}"); ("output", Some "DP-1")]
    (initial_module 0 0 EmptyString)
  = Some (initial_module 0 1 "DP-1")
  /\ (String.length (monitor_name (initial_module 0 1 "DP-1")) <= 63)%nat.
Proof.
  split; [reflexivity|].
  exact (proj1 (proj2 (proj2
           (configuration_is_bounded
              [("show-empty", Some "7"); ("format", Some "{}"); ("output", Some "DP-1")]
              (initial_module 0 1 "DP-1") eq_refl)))).
Defined.

Lemma take_short (n : nat) (s : string) : (String.length s <= n)%nat -> take n s = s.
Proof.
  intros H. rewrite <- (string_app_nil s) at 1. rewrite take_app_more by exact H.
  destruct (n - String.length s)%nat; cbn [take]; apply string_app_nil.
Qed.

Lemma scan_chars_length (n : nat) (s : string) : (String.length (scan_chars n s) <= n)%nat.
Proof.
  revert s. induction n as [|n IH]; intros [|c s]; simpl; try lia.
  destruct (isspace c); simpl; [lia|]. specialize (IH s). lia.
Qed.

Lemma scan_chars_no_space (n : nat) (s : string) (c : ascii) :
  isspace c = true -> has_char c (scan_chars n s) = false.
Proof.
  intros Hc. revert s. induction n as [|n IH]; intros [|a s]; simpl; try reflexivity.
  destruct (isspace a) eqn:Ea; [reflexivity|]. cbn [has_char]. rewrite IH.
  destruct (Ascii.eqb_spec a c) as [->|]; [congruence | reflexivity].
Qed.

Lemma has_char_c_str (c : ascii) (s : string) :
  has_char c s = false -> has_char c (c_str s) = false.
Proof.
  induction s as [|a s IH]; simpl; [reflexivity|]. intros H.
  apply orb_false_iff in H. destruct H as [Ha Hs].
  destruct (Ascii.eqb a NUL); [reflexivity|]. cbn [has_char]. rewrite Ha. apply IH, Hs.
Qed.

(** The text [load_tertiary_color] leaves in [tertiary_color] for the
    stream [popen] returns. *)
Definition color_answer (fp : option string) : string :=
  match fp with
  | Some out =>
      match scan_chars 15 (skip_spaces out) with
      | EmptyString => take 16 DEFAULT_TERTIARY_COLOR
      | word => c_str word
      end
  | None => take 16 DEFAULT_TERTIARY_COLOR
  end.

Lemma load_tertiary_color_answer (sh : Shell) (log : list string) :
  load_tertiary_color sh log
  = (color_answer (sh log cmd_tertiary_color), (log ++ [cmd_tertiary_color])%list).
Proof.
  unfold load_tertiary_color, io_bind, popen, color_answer.
  destruct (sh log cmd_tertiary_color) as [out|]; [|reflexivity].
  destruct (scan_chars 15 (skip_spaces out)); reflexivity.
Qed.

Lemma color_answer_fits (fp : option string) (c : ascii) :
  (String.length (color_answer fp) <= 15)%nat
  /\ cstring (color_answer fp)
  /\ (isspace c = true -> has_char c (color_answer fp) = false).
Proof.
  assert (Hdefault : (String.length (take 16 DEFAULT_TERTIARY_COLOR) <= 15)%nat
                     /\ cstring (take 16 DEFAULT_TERTIARY_COLOR)
                     /\ (isspace c = true ->
                         has_char c (take 16 DEFAULT_TERTIARY_COLOR) = false)).
  { repeat split; [simpl; lia|].
    intros Hc. cbn [take DEFAULT_TERTIARY_COLOR has_char].
    repeat match goal with
    | |- (Ascii.eqb ?a c || _)%bool = false =>
        destruct (Ascii.eqb_spec a c) as [<-|]; [discriminate Hc | cbn [orb]]
    end. reflexivity. }
  unfold color_answer. destruct fp as [out|]; [|exact Hdefault].
  pose proof (scan_chars_length 15 (skip_spaces out)) as Hlen.
  pose proof (scan_chars_no_space 15 (skip_spaces out) c) as Hsp.
  destruct (scan_chars 15 (skip_spaces out)) as [|a word] eqn:E; [exact Hdefault|].
  repeat split.
  - pose proof (c_str_length (String a word)). lia.
  - apply c_str_is_cstring.
  - intros Hc. apply has_char_c_str, Hsp, Hc.
Qed.

(** X22.  Whatever the colour command prints, the colour the module
    keeps has 15 characters at most and holds no white space and no
    terminator; it is the default colour when the command cannot be run or
    prints nothing; and the markup of the dot, built in 64 bytes, is never
    cut. *)
Theorem tertiary_color_fits (sh : Shell) (log : list string) (c : ascii) :
  let color := fst (load_tertiary_color sh log) in
  (String.length color <= 15)%nat
  /\ cstring color
  /\ (isspace c = true -> has_char c color = false)
  /\ (sh log cmd_tertiary_color = None \/ sh log cmd_tertiary_color = Some EmptyString ->
      color = DEFAULT_TERTIARY_COLOR)
  /\ dot_markup color
     = "<span font_size='5000' color='" ++ color ++ "'>" ++ BLACK_CIRCLE ++ "</span>".
Proof.
  cbv zeta. rewrite load_tertiary_color_answer. cbn [fst].
  destruct (color_answer_fits (sh log cmd_tertiary_color) c) as (Hlen & Hcs & Hsp).
  split; [exact Hlen|]. split; [exact Hcs|]. split; [exact Hsp|]. split.
  - intros [-> | ->]; reflexivity.
  - unfold dot_markup, snprintf. apply take_short.
    rewrite !length_app. unfold BLACK_CIRCLE. cbn [String.length]. lia.
Qed.

Lemma fetch_initial_state_setup (sh : Shell) (log : list string) (md : WorkspaceModule) :
  let md' := fst (fetch_initial_state md sh log) in
  all_outputs md' = all_outputs md /\ show_empty md' = show_empty md
  /\ monitor_name md' = monitor_name md /\ socket_fd md' = socket_fd md.
Proof.
  cbv zeta. rewrite fetch_initial_state_halves, io_bind_run.
  destruct (fetch_context_shape sh log md) as (A & B & C & D & _).
  destruct (fetch_tables_shape sh (snd (fetch_context md sh log))
              (fst (fetch_context md sh log))) as (A' & B' & C' & D' & _).
  rewrite A', B', C', D'. auto.
Qed.

(** A line of at most [n] characters, read by [fgets] and stripped. *)
Lemma string_answer_line (name rest : string) :
  forall n, plain name -> (String.length name <= n)%nat ->
  strip_newline (c_str (fgets n (name ++ String LF rest))) = name.
Proof.
  unfold plain, cstring.
  induction name as [|c name IH]; intros n [Hlf Hnul] Hlen.
  - destruct n; reflexivity.
  - destruct n as [|n]; [simpl in Hlen; lia|].
    cbn [has_char] in Hlf, Hnul.
    apply orb_false_iff in Hlf. destruct Hlf as [Hc Hlf].
    apply orb_false_iff in Hnul. destruct Hnul as [Hc0 Hnul].
    cbn [append fgets]. rewrite Hc. cbn [c_str]. rewrite Hc0.
    rewrite strip_newline_cons.
    assert (Hrec := IH n (conj Hlf Hnul) ltac:(simpl in Hlen; lia)).
    destruct (c_str (fgets n (name ++ String LF rest))) as [|c' r].
    + cbn [strip_newline] in Hrec. subst name. rewrite Hc. reflexivity.
    + rewrite Hrec. reflexivity.
Qed.

(* ===================================================================== *)
(** ** The detection of the monitor *)
(* ===================================================================== *)

(** X23.  A monitor named in the configuration is never looked up: the
    idle callback keeps the name and the options, and the commands it
    runs are those of one snapshot for that name and nothing else. *)
Theorem configured_monitor_is_kept (width : Z) (md : WorkspaceModule)
  (buttons : list Button) (sh : Shell) (log : list string) :
  is_empty_str (monitor_name md) = false ->
  let r := detect_monitor_idle width md buttons sh log in
  monitor_name (fst (fst r)) = monitor_name md
  /\ all_outputs (fst (fst r)) = all_outputs md
  /\ show_empty (fst (fst r)) = show_empty md
  /\ snd r = (log ++ snapshot_queries (monitor_name md))%list.
Proof.
  intros Hname. cbv zeta. unfold detect_monitor_idle. rewrite Hname. cbn [negb].
  rewrite io_bind_run. unfold io_ret. cbn [fst snd].
  destruct (fetch_initial_state_setup sh log md) as (Ha & Hs & Hn & _).
  repeat split; try assumption. apply fetch_initial_state_log.
Qed.

Lemma configured_monitor_is_kept_witness :
  snd (detect_monitor_idle 1920 sample_module fresh_buttons silent_shell [])
  = ([] ++ snapshot_queries (monitor_name sample_module))%list.
Proof.
  exact (proj2 (proj2 (proj2
           (configured_monitor_is_kept 1920 sample_module fresh_buttons silent_shell []
              eq_refl)))).
Defined.

Lemma detect_monitor_idle_run (width : Z) (md : WorkspaceModule) (buttons : list Button)
  (sh : Shell) (log : list string) :
  is_empty_str (monitor_name md) = true ->
  let log1 := (log ++ [cmd_detect_monitor width])%list in
  let detected := string_answer 64 (sh log (cmd_detect_monitor width)) in
  let name := if is_empty_str detected
              then string_answer 64 (sh log1 cmd_focused_monitor) else detected in
  let log2 := if is_empty_str detected then (log1 ++ [cmd_focused_monitor])%list else log1 in
  let r := detect_monitor_idle width md buttons sh log in
  monitor_name (fst (fst r)) = name
  /\ all_outputs (fst (fst r)) = all_outputs md
  /\ show_empty (fst (fst r)) = show_empty md
  /\ snd r = (log2 ++ snapshot_queries name)%list.
Proof.
  intros Hname. cbv zeta. unfold detect_monitor_idle. rewrite Hname. cbn [negb].
  rewrite (io_bind_run (popen_string _ _)), popen_string_answer. cbn [fst snd].
  set (detected := string_answer 64 (sh log (cmd_detect_monitor width))).
  destruct (is_empty_str detected) eqn:E.
  - rewrite (io_bind_run (popen_string _ _)), popen_string_answer. cbn [fst snd].
    set (name := string_answer 64 _).
    rewrite !io_bind_run. unfold io_ret. cbn [fst snd].
    destruct (fetch_initial_state_setup sh ((log ++ [cmd_detect_monitor width])
                                             ++ [cmd_focused_monitor])%list
                (set_monitor_name name md)) as (Ha & Hs & Hn & _).
    rewrite fetch_initial_state_log. repeat split; assumption.
  - rewrite (io_bind_run (io_ret _)). unfold io_ret at 1 2. cbn [fst snd].
    rewrite !io_bind_run. unfold io_ret. cbn [fst snd].
    destruct (fetch_initial_state_setup sh (log ++ [cmd_detect_monitor width])%list
                (set_monitor_name detected md)) as (Ha & Hs & Hn & _).
    rewrite fetch_initial_state_log. repeat split; assumption.
Qed.

(** X24.  Without a configured monitor, when the layer query prints a
    non-empty name of 63 characters at most on its first line, that name
    becomes the monitor of the module, the focused monitor is not asked
    for, and the snapshot that follows is taken for that name. *)
Theorem detected_monitor_is_adopted (width : Z) (md : WorkspaceModule)
  (buttons : list Button) (sh : Shell) (log : list string) (name rest : string) :
  is_empty_str (monitor_name md) = true ->
  event_line name ->
  (String.length name <= 63)%nat ->
  sh log (cmd_detect_monitor width) = Some (name ++ String LF rest) ->
  let r := detect_monitor_idle width md buttons sh log in
  monitor_name (fst (fst r)) = name
  /\ snd r = (log ++ [cmd_detect_monitor width] ++ snapshot_queries name)%list.
Proof.
  intros Hmd [Hne Hplain] Hlen Hsh. cbv zeta.
  destruct (detect_monitor_idle_run width md buttons sh log Hmd) as (Hn & _ & _ & Hl).
  rewrite Hn, Hl, Hsh. unfold string_answer.
  change (64 - 1)%nat with 63%nat.
  rewrite (string_answer_line name rest 63 Hplain Hlen).
  rewrite (is_empty_str_false name (proj2 Hplain) Hne).
  split; [reflexivity | symmetry; apply app_assoc].
Qed.

(** A window manager that knows the bar of width 1920 to be on DP-2. *)
Definition layers_shell : Shell :=
  answers (fun cmd =>
             if String.eqb cmd (cmd_detect_monitor 1920)
             then Some ("DP-2" ++ String LF EmptyString) else None).

Lemma detected_monitor_is_adopted_witness :
  monitor_name (fst (fst (detect_monitor_idle 1920 (initial_module 0 0 EmptyString)
                            fresh_buttons layers_shell [])))
  = "DP-2".
Proof.
  assert (Hline : event_line "DP-2") by (repeat split; discriminate).
  assert (Hlen : (String.length "DP-2" <= 63)%nat) by (simpl; lia).
  exact (proj1 (detected_monitor_is_adopted 1920 (initial_module 0 0 EmptyString)
                  fresh_buttons layers_shell [] "DP-2" EmptyString
                  eq_refl Hline Hlen eq_refl)).
Defined.

(** X25.  Without a configured monitor, when the layer query cannot be
    run or prints nothing, the first line of the focused-monitor query
    becomes the monitor of the module; when that line is empty too, the
    module stays without monitor and the snapshot asks for the globally
    active workspace. *)
Theorem focused_monitor_is_the_fallback (width : Z) (md : WorkspaceModule)
  (buttons : list Button) (sh : Shell) (log : list string) (name rest : string) :
  is_empty_str (monitor_name md) = true ->
  sh log (cmd_detect_monitor width) = None
    \/ sh log (cmd_detect_monitor width) = Some EmptyString ->
  plain name ->
  (String.length name <= 63)%nat ->
  sh (log ++ [cmd_detect_monitor width])%list cmd_focused_monitor
    = Some (name ++ String LF rest) ->
  let r := detect_monitor_idle width md buttons sh log in
  monitor_name (fst (fst r)) = name
  /\ snd r = (log ++ [cmd_detect_monitor width; cmd_focused_monitor]
                  ++ snapshot_queries name)%list
  /\ (name = EmptyString -> In cmd_active_workspace (snapshot_queries name)).
Proof.
  intros Hmd Hdetect Hplain Hlen Hsh. cbv zeta.
  destruct (detect_monitor_idle_run width md buttons sh log Hmd) as (Hn & _ & _ & Hl).
  rewrite Hn, Hl.
  assert (Hempty : string_answer 64 (sh log (cmd_detect_monitor width)) = EmptyString)
    by (destruct Hdetect as [-> | ->]; reflexivity).
  rewrite Hempty. change (is_empty_str EmptyString) with true. cbv iota.
  rewrite Hsh. unfold string_answer. change (64 - 1)%nat with 63%nat.
  rewrite (string_answer_line name rest 63 Hplain Hlen).
  split; [reflexivity|]. split.
  - rewrite <- !app_assoc. reflexivity.
  - intros ->. left. reflexivity.
Qed.

(** A window manager that knows no bar, and DP-3 to be focused. *)
Definition focused_shell : Shell :=
  answers (fun cmd =>
             if String.eqb cmd cmd_focused_monitor
             then Some ("DP-3" ++ String LF EmptyString) else None).

Lemma focused_monitor_is_the_fallback_witness :
  monitor_name (fst (fst (detect_monitor_idle 1920 (initial_module 0 0 EmptyString)
                            fresh_buttons focused_shell [])))
  = "DP-3".
Proof.
  assert (Hplain : plain "DP-3") by (split; reflexivity).
  assert (Hlen : (String.length "DP-3" <= 63)%nat) by (simpl; lia).
  exact (proj1 (focused_monitor_is_the_fallback 1920 (initial_module 0 0 EmptyString)
                  fresh_buttons focused_shell [] "DP-3" EmptyString
                  eq_refl (or_introl eq_refl) Hplain Hlen eq_refl)).
Defined.

(* ===================================================================== *)
(** ** Redrawing *)
(* ===================================================================== *)

(** The removal of the four style classes of the module. *)
Definition strip_styles (classes : list string) : list string :=
  remove_class "has-special"
    (remove_class "empty" (remove_class "visible" (remove_class "active" classes))).

Definition is_style (c : string) : Prop :=
  c = "active" \/ c = "visible" \/ c = "empty" \/ c = "has-special".

Lemma remove_class_app (c : string) (l1 l2 : list string) :
  remove_class c (l1 ++ l2) = (remove_class c l1 ++ remove_class c l2)%list.
Proof. unfold remove_class. apply filter_app. Qed.

Lemma remove_class_twice (c d : string) (l : list string) :
  remove_class c (remove_class d (remove_class c l)) = remove_class d (remove_class c l).
Proof.
  unfold remove_class. induction l as [|x l IH]; simpl; [reflexivity|].
  destruct (String.eqb c x) eqn:Ec; simpl; [exact IH|].
  destruct (String.eqb d x) eqn:Ed; simpl; [exact IH|].
  rewrite Ec. simpl. rewrite IH. reflexivity.
Qed.

Lemma strip_styles_app (l1 l2 : list string) :
  strip_styles (l1 ++ l2) = (strip_styles l1 ++ strip_styles l2)%list.
Proof. unfold strip_styles. rewrite !remove_class_app. reflexivity. Qed.

Lemma strip_styles_twice (l : list string) : strip_styles (strip_styles l) = strip_styles l.
Proof.
  unfold strip_styles, remove_class. induction l as [|x l IH]; [reflexivity|].
  cbn [filter]. destruct (String.eqb "active" x) eqn:E1; cbn [negb]; [exact IH|].
  cbn [filter]. destruct (String.eqb "visible" x) eqn:E2; cbn [negb]; [exact IH|].
  cbn [filter]. destruct (String.eqb "empty" x) eqn:E3; cbn [negb]; [exact IH|].
  cbn [filter]. destruct (String.eqb "has-special" x) eqn:E4; cbn [negb]; [exact IH|].
  cbn [filter]. rewrite E1. cbn [negb filter]. rewrite E2. cbn [negb filter].
  rewrite E3. cbn [negb filter]. rewrite E4. cbn [negb]. rewrite IH. reflexivity.
Qed.

Lemma strip_styles_add (c : string) (l : list string) :
  is_style c -> strip_styles (add_class c l) = strip_styles l.
Proof.
  intros Hc. unfold add_class. destruct (has_class c l); [reflexivity|].
  rewrite strip_styles_app.
  destruct Hc as [-> | [-> | [-> | ->]]]; cbn; apply app_nil_r.
Qed.

Lemma update_button_twice (md : WorkspaceModule) (i : Z) (b : Button) :
  update_button md i (update_button md i b) = update_button md i b.
Proof.
  unfold update_button. cbv zeta.
  destruct (negb (truthy (should_show_workspace md i))) eqn:E; [reflexivity|].
  cbn [button_classes dot_visible]. f_equal.
  fold (strip_styles (button_classes b)).
  match goal with
  | |- context [remove_class "has-special" (remove_class "empty" (remove_class "visible"
                  (remove_class "active" ?l)))] =>
      fold (strip_styles l);
      assert (Hs : strip_styles l = strip_styles (button_classes b))
  end.
  { repeat match goal with
    | |- context [if ?c then _ else _] => destruct c
    end;
    rewrite ?strip_styles_add by (unfold is_style; auto);
    apply strip_styles_twice. }
  rewrite Hs. reflexivity.
Qed.

Lemma update_buttons_from_twice (md : WorkspaceModule) (buttons : list Button) :
  forall i, update_buttons_from md i (update_buttons_from md i buttons)
            = update_buttons_from md i buttons.
Proof.
  induction buttons as [|b rest IH]; intros i; cbn [update_buttons_from]; [reflexivity|].
  rewrite update_button_twice, IH. reflexivity.
Qed.

(** X26.  Redrawing the buttons a second time from the same state
    changes nothing: neither which buttons are shown, nor their style
    classes, nor their dots. *)
Theorem redraw_is_idempotent (md : WorkspaceModule) (buttons : list Button) :
  update_button_states md (update_button_states md buttons)
  = update_button_states md buttons.
Proof.
  unfold update_button_states. generalize 0. intros i.
  apply update_buttons_from_twice.
Qed.

(* ===================================================================== *)
(** ** The start of the module *)
(* ===================================================================== *)

(** X27.  Once the configuration is read without crash, the start of
    the module cannot fail: it runs the colour command and then the
    queries of one snapshot for the configured monitor, the options and
    the monitor name of the configuration survive the snapshot, and the
    nine buttons come out with styles that do not contradict each
    other. *)
Theorem startup_keeps_configuration (entries : list ConfigEntry) (md0 : WorkspaceModule)
  (sh : Shell) (log : list string) :
  configure entries (initial_module 0 0 EmptyString) = Some md0 ->
  exists md color buttons,
    fst (wbcffi_init entries sh log) = Some (md, color, buttons)
    /\ all_outputs md = all_outputs md0
    /\ show_empty md = show_empty md0
    /\ monitor_name md = monitor_name md0
    /\ snd (wbcffi_init entries sh log)
       = (log ++ cmd_tertiary_color :: snapshot_queries (monitor_name md0))%list
    /\ List.length buttons = 9%nat
    /\ Forall styles_exclusive buttons.
Proof.
  intros Hconf. unfold wbcffi_init. rewrite Hconf.
  rewrite io_bind_run, load_tertiary_color_answer. cbn [fst snd].
  rewrite io_bind_run. unfold io_ret. cbn [fst snd].
  destruct (fetch_initial_state_setup sh (log ++ [cmd_tertiary_color])%list md0)
    as (Ha & Hs & Hn & _).
  eexists _, _, _. split; [reflexivity|].
  split; [exact Ha|]. split; [exact Hs|]. split; [exact Hn|]. split; [|split].
  - rewrite fetch_initial_state_log, <- app_assoc. reflexivity.
  - unfold update_button_states, fresh_buttons. reflexivity.
  - apply update_buttons_from_exclusive.
    unfold fresh_buttons. apply Forall_forall. intros b Hb.
    apply repeat_spec in Hb. subst b. split; reflexivity.
Qed.

Lemma startup_keeps_configuration_witness :
  exists md color buttons,
    fst (wbcffi_init [("show-empty", Some "true")] silent_shell [])
    = Some (md, color, buttons)
    /\ all_outputs md = 0 /\ show_empty md = 1.
Proof.
  destruct (startup_keeps_configuration [("show-empty", Some "true")]
              (initial_module 0 1 EmptyString) silent_shell [] eq_refl)
    as (md & color & buttons & H & Ha & Hs & _).
  exists md, color, buttons. auto.
Defined.

(** X28.  A refresh signal that arrives twice while the window manager
    and the colour file answer the same leaves the module, the colour
    and the buttons as the first refresh left them. *)
Theorem refresh_is_idempotent (f : string -> option string) (md : WorkspaceModule)
  (buttons : list Button) (log log' : list string) :
  let once := fst (wbcffi_refresh md buttons (answers f) log) in
  fst (wbcffi_refresh (fst (fst once)) (snd once) (answers f) log') = once.
Proof.
  cbv zeta. unfold wbcffi_refresh.
  rewrite !(io_bind_run load_tertiary_color), !load_tertiary_color_answer. cbn [fst snd].
  rewrite !io_bind_run. unfold io_ret. cbn [fst snd].
  rewrite !fetch_initial_state_answers.
  unfold snapshot_of at 2 3 4 5.
  cbn [all_outputs show_empty monitor_name socket_fd].
  fold (snapshot_of (all_outputs md) (show_empty md) (monitor_name md) (socket_fd md) f).
  unfold update_button_states. rewrite update_buttons_from_twice. reflexivity.
Qed.
